(** * Vuforia Web Services client: request signing, CRUD operations and
      the processing waiter.

    A shallow embedding of the Go package [vuforia] (files
    [vuforia_client.go], [wait.go], the signing file with [prepare] and
    [sign], and the error file with [APIError] and [checkError]) and the
    properties of its specification.

    Conventions.  A Go [string] is a Rocq [string] (a sequence of bytes), a
    [[]byte] is a [list byte], a nil-able slice or pointer is an [option].
    Go's [error] interface is the inductive [error]; a nil error is [None].
    Instants and durations are nanoseconds in [N].  The parts of the Go
    standard library the package calls are modelled in the modules below,
    each next to the package it stands for. *)

From Stdlib Require Import ZArith NArith List String Ascii Bool Lia DecimalString.
From Stdlib.Strings Require Import Byte.
From stdpp Require Import gmap strings.
Import ListNotations.

Local Open Scope string_scope.
Local Open Scope list_scope.
Local Open Scope Z_scope.

(** ** Bytes *)

Definition byte_of_Z (z : Z) : byte :=
  match Byte.of_N (Z.to_N (z mod 256)) with
  | Some b => b
  | None => x00
  end.

Definition Z_of_byte (b : byte) : Z := Z.of_N (Byte.to_N b).

(** [[]byte(s)] and [string(b)]. *)
Definition bytes_of_string (s : string) : list byte := list_byte_of_string s.
Definition string_of_bytes (b : list byte) : string := string_of_list_byte b.

(** ** 32-bit words, as the digest algorithms use them *)

Module word32.

Definition mask : Z := 0xffffffff.
Definition wrap (x : Z) : Z := Z.land x mask.
Definition add (x y : Z) : Z := wrap (x + y).
Definition not (x : Z) : Z := Z.lxor (wrap x) mask.
Definition rotl (n : Z) (x : Z) : Z :=
  wrap (Z.lor (Z.shiftl (wrap x) n) (Z.shiftr (wrap x) (32 - n))).

(** Little- and big-endian packing of four bytes. *)
Definition of_le (b0 b1 b2 b3 : Z) : Z :=
  Z.lor b0 (Z.lor (Z.shiftl b1 8) (Z.lor (Z.shiftl b2 16) (Z.shiftl b3 24))).
Definition of_be (b0 b1 b2 b3 : Z) : Z := of_le b3 b2 b1 b0.

Definition to_le (w : Z) : list byte :=
  [byte_of_Z w; byte_of_Z (Z.shiftr w 8);
   byte_of_Z (Z.shiftr w 16); byte_of_Z (Z.shiftr w 24)].
Definition to_be (w : Z) : list byte := rev (to_le w).

Fixpoint words (pack : Z -> Z -> Z -> Z -> Z) (bs : list Z) : list Z :=
  match bs with
  | b0 :: b1 :: b2 :: b3 :: rest => pack b0 b1 b2 b3 :: words pack rest
  | _ => []
  end.

End word32.

(** Merkle-Damgard framing shared by MD5 and SHA-1: the padded message is
    the message, one byte 0x80, zero bytes up to 56 modulo 64 and the bit
    length on eight bytes. *)
Module blocks.

Definition length64 (little : bool) (bits : Z) : list Z :=
  let be := map (fun i => Z.land (Z.shiftr bits (8 * i)) 255)
                [7; 6; 5; 4; 3; 2; 1; 0] in
  if little then rev be else be.

Definition pad (little : bool) (msg : list byte) : list Z :=
  let len := Z.of_nat (length msg) in
  let zeros := Z.to_nat ((55 - len) mod 64) in
  map Z_of_byte msg ++ [128] ++ repeat 0 zeros
    ++ length64 little (Z.land (8 * len) 0xffffffffffffffff).

Fixpoint split (n : nat) (l : list Z) : list (list Z) :=
  match n with
  | O => []
  | S n' =>
      match l with
      | [] => []
      | _ => firstn 64 l :: split n' (skipn 64 l)
      end
  end.

Definition of_message (little : bool) (msg : list byte) : list (list Z) :=
  let p := pad little msg in split (length p) p.

End blocks.

(** ** crypto/md5 *)

Module md5.

Definition K : list Z :=
  [0xd76aa478; 0xe8c7b756; 0x242070db; 0xc1bdceee;
   0xf57c0faf; 0x4787c62a; 0xa8304613; 0xfd469501;
   0x698098d8; 0x8b44f7af; 0xffff5bb1; 0x895cd7be;
   0x6b901122; 0xfd987193; 0xa679438e; 0x49b40821;
   0xf61e2562; 0xc040b340; 0x265e5a51; 0xe9b6c7aa;
   0xd62f105d; 0x02441453; 0xd8a1e681; 0xe7d3fbc8;
   0x21e1cde6; 0xc33707d6; 0xf4d50d87; 0x455a14ed;
   0xa9e3e905; 0xfcefa3f8; 0x676f02d9; 0x8d2a4c8a;
   0xfffa3942; 0x8771f681; 0x6d9d6122; 0xfde5380c;
   0xa4beea44; 0x4bdecfa9; 0xf6bb4b60; 0xbebfbc70;
   0x289b7ec6; 0xeaa127fa; 0xd4ef3085; 0x04881d05;
   0xd9d4d039; 0xe6db99e5; 0x1fa27cf8; 0xc4ac5665;
   0xf4292244; 0x432aff97; 0xab9423a7; 0xfc93a039;
   0x655b59c3; 0x8f0ccc92; 0xffeff47d; 0x85845dd1;
   0x6fa87e4f; 0xfe2ce6e0; 0xa3014314; 0x4e0811a1;
   0xf7537e82; 0xbd3af235; 0x2ad7d2bb; 0xeb86d391].

Definition S : list Z :=
  [7; 12; 17; 22; 7; 12; 17; 22; 7; 12; 17; 22; 7; 12; 17; 22;
   5; 9; 14; 20; 5; 9; 14; 20; 5; 9; 14; 20; 5; 9; 14; 20;
   4; 11; 16; 23; 4; 11; 16; 23; 4; 11; 16; 23; 4; 11; 16; 23;
   6; 10; 15; 21; 6; 10; 15; 21; 6; 10; 15; 21; 6; 10; 15; 21].

Record state := State { sa : Z; sb : Z; sc : Z; sd : Z }.

Definition init : state :=
  State 0x67452301 0xefcdab89 0x98badcfe 0x10325476.

Definition round (M : list Z) (i : nat) (s : state) : state :=
  let '(State a b c d) := s in
  let zi := Z.of_nat i in
  let '(f, g) :=
    if zi <? 16 then
      (Z.lor (Z.land b c) (Z.land (word32.not b) d), zi)
    else if zi <? 32 then
      (Z.lor (Z.land d b) (Z.land (word32.not d) c), (5 * zi + 1) mod 16)
    else if zi <? 48 then
      (Z.lxor b (Z.lxor c d), (3 * zi + 5) mod 16)
    else
      (Z.lxor c (Z.lor b (word32.not d)), (7 * zi) mod 16) in
  let f' := word32.add (word32.add (word32.add f a) (nth i K 0))
                       (nth (Z.to_nat g) M 0) in
  State d (word32.add b (word32.rotl (nth i S 0) f')) b c.

Definition block (s : state) (blk : list Z) : state :=
  let M := word32.words word32.of_le blk in
  let '(State a b c d) := fold_left (fun st i => round M i st) (seq 0 64) s in
  State (word32.add (sa s) a) (word32.add (sb s) b)
        (word32.add (sc s) c) (word32.add (sd s) d).

(** The 16-byte digest of a message. *)
Definition sum (msg : list byte) : list byte :=
  let '(State a b c d) := fold_left block (blocks.of_message true msg) init in
  word32.to_le a ++ word32.to_le b ++ word32.to_le c ++ word32.to_le d.

End md5.

(** ** crypto/sha1 *)

Module sha1.

Record state := State { h0 : Z; h1 : Z; h2 : Z; h3 : Z; h4 : Z }.

Definition init : state :=
  State 0x67452301 0xefcdab89 0x98badcfe 0x10325476 0xc3d2e1f0.

(** The message schedule: sixteen words of the block extended to eighty. *)
Fixpoint schedule (n : nat) (w : list Z) : list Z :=
  match n with
  | O => w
  | Datatypes.S n' =>
      let i := length w in
      let x := Z.lxor (nth (i - 3) w 0)
                (Z.lxor (nth (i - 8) w 0)
                  (Z.lxor (nth (i - 14) w 0) (nth (i - 16) w 0))) in
      schedule n' (w ++ [word32.rotl 1 x])
  end.

Definition round (W : list Z) (i : nat) (s : state) : state :=
  let '(State a b c d e) := s in
  let zi := Z.of_nat i in
  let '(f, k) :=
    if zi <? 20 then
      (Z.lor (Z.land b c) (Z.land (word32.not b) d), 0x5a827999)
    else if zi <? 40 then
      (Z.lxor b (Z.lxor c d), 0x6ed9eba1)
    else if zi <? 60 then
      (Z.lor (Z.land b c) (Z.lor (Z.land b d) (Z.land c d)), 0x8f1bbcdc)
    else
      (Z.lxor b (Z.lxor c d), 0xca62c1d6) in
  let t := word32.add (word32.add (word32.add (word32.add
             (word32.rotl 5 a) f) e) k) (nth i W 0) in
  State t a (word32.rotl 30 b) c d.

Definition block (s : state) (blk : list Z) : state :=
  let W := schedule 64 (word32.words word32.of_be blk) in
  let '(State a b c d e) := fold_left (fun st i => round W i st) (seq 0 80) s in
  State (word32.add (h0 s) a) (word32.add (h1 s) b) (word32.add (h2 s) c)
        (word32.add (h3 s) d) (word32.add (h4 s) e).

(** The 20-byte digest of a message. *)
Definition sum (msg : list byte) : list byte :=
  let '(State a b c d e) := fold_left block (blocks.of_message false msg) init in
  word32.to_be a ++ word32.to_be b ++ word32.to_be c
    ++ word32.to_be d ++ word32.to_be e.

End sha1.

(** ** The [error] interface

    Go's [error] is an open interface.  The values that reach this package
    are plain messages ([errors.New], [fmt.Errorf] without [%w], decoding and
    transport failures), [APIError] values, and wrappers that expose one
    inner error through [Unwrap] (an [*url.Error], [fmt.Errorf] with [%w]). *)

Record APIError := {
  ResultCode : string;     (* json:"result_code" *)
  TransactionId : string   (* json:"transaction_id" *)
}.

Inductive error : Type :=
| errorString (msg : string)
| apiError (e : APIError)
| wrapError (msg : string) (err : error).

Module errors.

Definition New (msg : string) : error := errorString msg.

(** [errors.As(err, &ae)] with [ae] of type [APIError]: the first error of
    the [Unwrap] chain whose dynamic type is [APIError]. *)
Fixpoint As (err : error) : option APIError :=
  match err with
  | errorString _ => None
  | apiError e => Some e
  | wrapError _ inner => As inner
  end.

End errors.

(** ** hash.Hash, crypto/hmac

    A running hash is represented by the bytes written to it so far; [Sum]
    appends the digest of those bytes to its argument and leaves the hash
    unchanged.  [Write] reports the number of bytes taken and never fails,
    as the interface documents. *)

Module hash.

Record Hash := {
  digest : list byte -> list byte;
  BlockSize : nat;
  written : list byte
}.

Definition Write (h : Hash) (p : list byte) : Hash * (Z * option error) :=
  ({| digest := digest h; BlockSize := BlockSize h;
      written := written h ++ p |},
   (Z.of_nat (length p), None)).

Definition Sum (h : Hash) (b : list byte) : list byte :=
  b ++ digest h (written h).

Definition Reset (h : Hash) : Hash :=
  {| digest := digest h; BlockSize := BlockSize h; written := [] |}.

End hash.

Definition md5_New : hash.Hash :=
  {| hash.digest := md5.sum; hash.BlockSize := 64; hash.written := [] |}.

Definition sha1_New : hash.Hash :=
  {| hash.digest := sha1.sum; hash.BlockSize := 64; hash.written := [] |}.

Module hmac.

Definition xor_byte (c : Z) (b : byte) : byte :=
  byte_of_Z (Z.lxor (Z_of_byte b) c).

(** [copy(pad, key)] into a zeroed block. *)
Definition block_of_key (blocksize : nat) (key : list byte) : list byte :=
  firstn blocksize key ++ repeat x00 (blocksize - length key).

Record HMAC := {
  opad : list byte;
  ipad : list byte;
  outer : hash.Hash;
  inner : hash.Hash
}.

Definition New (h : hash.Hash) (key : list byte) : HMAC :=
  let blocksize := hash.BlockSize h in
  let key' :=
    if (blocksize <? length key)%nat
    then hash.Sum (fst (hash.Write h key)) []
    else key in
  let ip := map (xor_byte 0x36) (block_of_key blocksize key') in
  let op := map (xor_byte 0x5c) (block_of_key blocksize key') in
  {| opad := op; ipad := ip; outer := h;
     inner := fst (hash.Write h ip) |}.

Definition Write (m : HMAC) (p : list byte) : HMAC * (Z * option error) :=
  let '(i, r) := hash.Write (inner m) p in
  ({| opad := opad m; ipad := ipad m; outer := outer m; inner := i |}, r).

Definition Sum (m : HMAC) (b : list byte) : list byte :=
  let i := hash.Sum (inner m) [] in
  let o := fst (hash.Write (hash.Reset (outer m)) (opad m)) in
  let o := fst (hash.Write o i) in
  hash.Sum o b.

End hmac.

(** ** The algorithms in the words of the specification

    "A keyed-hash (HMAC) over the canonical string using a 160-bit digest
    algorithm": RFC 2104 over SHA-1, in closed form. *)

Definition HMAC_SHA1 (key msg : list byte) : list byte :=
  let k := if (64 <? length key)%nat then sha1.sum key else key in
  let k0 := k ++ repeat x00 (64 - length k) in
  sha1.sum (map (hmac.xor_byte 0x5c) k0
            ++ sha1.sum (map (hmac.xor_byte 0x36) k0 ++ msg)).

(** ** Hexadecimal and decimal rendering *)

Definition hex_digit (z : Z) : ascii :=
  nth (Z.to_nat z) (list_ascii_of_string "0123456789abcdef") "0"%char.

(** Two lowercase digits for each byte: the verb [%x] on a byte slice. *)
Fixpoint hex (b : list byte) : string :=
  match b with
  | [] => ""
  | x :: rest =>
      String (hex_digit (Z_of_byte x / 16))
        (String (hex_digit (Z_of_byte x mod 16)) (hex rest))
  end.

Definition itoa (z : Z) : string := NilZero.string_of_int (Z.to_int z).

(** ** encoding/base64, [StdEncoding.EncodeToString] *)

Module base64.

Definition encodeStd : list ascii :=
  list_ascii_of_string
    "ABCDEFGHIJKLMNOPQRSTUVWXYZabcdefghijklmnopqrstuvwxyz0123456789+/".

Definition char (z : Z) : ascii := nth (Z.to_nat (z mod 64)) encodeStd "A"%char.

Definition pad : ascii := "="%char.

Fixpoint encode (src : list Z) : string :=
  match src with
  | [] => ""
  | [a] =>
      String (char (a / 4))
        (String (char ((a mod 4) * 16)) (String pad (String pad "")))
  | [a; b] =>
      String (char (a / 4))
        (String (char ((a mod 4) * 16 + b / 16))
          (String (char ((b mod 16) * 4)) (String pad "")))
  | a :: b :: c :: rest =>
      String (char (a / 4))
        (String (char ((a mod 4) * 16 + b / 16))
          (String (char ((b mod 16) * 4 + c / 64))
            (String (char (c mod 64)) (encode rest))))
  end.

Definition EncodeToString (src : list byte) : string :=
  encode (map Z_of_byte src).

End base64.

(** ** Characters *)

Definition code (c : ascii) : Z := Z.of_N (N_of_ascii c).
Definition chr (z : Z) : ascii := ascii_of_N (Z.to_N z).

Definition between (lo hi : Z) (c : ascii) : bool :=
  (lo <=? code c) && (code c <=? hi).

Definition isUpper := between 65 90.    (* 'A' .. 'Z' *)
Definition isLower := between 97 122.   (* 'a' .. 'z' *)
Definition isDigit := between 48 57.    (* '0' .. '9' *)
Definition isASCII (c : ascii) : bool := code c <? 128.

Definition lower (c : ascii) : ascii := if isUpper c then chr (code c + 32) else c.
Definition upper (c : ascii) : ascii := if isLower c then chr (code c - 32) else c.

Fixpoint forall_chars (p : ascii -> bool) (s : string) : bool :=
  match s with
  | "" => true
  | String c rest => p c && forall_chars p rest
  end.

Fixpoint join (sep : string) (l : list string) : string :=
  match l with
  | [] => ""
  | [x] => x
  | x :: rest => x +:+ sep +:+ join sep rest
  end.

(** ** fmt

    [Sprintf] for verbs written without flags, width or precision, over the
    operand types the package passes: strings, byte slices and ints. *)

Module fmt.

Inductive arg :=
| Str (s : string)
| Bytes (b : list byte)
| Int (z : Z).

(** A byte slice under [%v] or [%d]: [[1 2 3]]. *)
Definition ints (b : list byte) : string :=
  "[" +:+ join " " (map (fun x => itoa (Z_of_byte x)) b) +:+ "]".

Definition typed (a : arg) : string :=
  match a with
  | Str s => "string=" +:+ s
  | Bytes b => "[]uint8=" +:+ ints b
  | Int z => "int=" +:+ itoa z
  end.

Definition verb (c : ascii) (a : arg) : string :=
  let bad := "%!" +:+ String c ("(" +:+ typed a +:+ ")") in
  match a with
  | Str s =>
      if Ascii.eqb c "s" || Ascii.eqb c "v" then s
      else if Ascii.eqb c "x" then hex (bytes_of_string s)
      else bad
  | Bytes b =>
      if Ascii.eqb c "s" then string_of_bytes b
      else if Ascii.eqb c "x" then hex b
      else if Ascii.eqb c "v" || Ascii.eqb c "d" then ints b
      else bad
  | Int z =>
      if Ascii.eqb c "d" || Ascii.eqb c "v" then itoa z
      else bad
  end.

Definition extra (args : list arg) : string :=
  match args with
  | [] => ""
  | _ => "%!(EXTRA " +:+ join ", " (map typed args) +:+ ")"
  end.

Fixpoint Sprintf (format : string) (args : list arg) : string :=
  match format with
  | "" => extra args
  | String c rest =>
      if Ascii.eqb c "%" then
        match rest with
        | "" => "%!(NOVERB)" +:+ extra args
        | String v rest' =>
            if Ascii.eqb v "%" then String "%" (Sprintf rest' args)
            else
              match args with
              | [] => "%!" +:+ String v ("(MISSING)" +:+ Sprintf rest' [])
              | a :: args' => verb v a +:+ Sprintf rest' args'
              end
        end
      else String c (Sprintf rest args)
  end.

(** [fmt.Errorf] with a format that has no [%w]. *)
Definition Errorf (format : string) (args : list arg) : error :=
  errorString (Sprintf format args).

End fmt.

(** ** strings

    [ToLower] and [EqualFold] work on runes.  On ASCII text they are the
    byte-wise functions below.  Outside ASCII the package can only observe
    whether the result equals an ASCII literal, so the model keeps the runes
    that meet ASCII letters under Go's Unicode tables (U+0130 lowers to 'i'
    and U+212A to 'k'; U+212A folds with 'k' and U+017F with 's') and leaves
    every other non-ASCII byte in place, where Go yields some non-ASCII
    rune.  [EqualFold] is exact whenever one argument is ASCII. *)

Module gostrings.

Definition is2 (a b : Z) (c0 c1 : ascii) : bool :=
  (code c0 =? a) && (code c1 =? b).
Definition is3 (a b c : Z) (c0 c1 c2 : ascii) : bool :=
  (code c0 =? a) && (code c1 =? b) && (code c2 =? c).

Fixpoint ToLower (s : string) : string :=
  match s with
  | "" => ""
  | String c0 rest =>
      match rest with
      | String c1 rest1 =>
          if is2 0xc4 0xb0 c0 c1 then String "i" (ToLower rest1)
          else
            match rest1 with
            | String c2 rest2 =>
                if is3 0xe2 0x84 0xaa c0 c1 c2 then String "k" (ToLower rest2)
                else String (lower c0) (ToLower rest)
            | "" => String (lower c0) (ToLower rest)
            end
      | "" => String (lower c0) ""
      end
  end.

(** The ASCII letter a rune at the head of [s] folds with, and what
    follows the rune. *)
Definition foldsWith (s : string) : option (ascii * string) :=
  match s with
  | String c0 (String c1 rest1) =>
      if is2 0xc5 0xbf c0 c1 then Some ("s"%char, rest1)
      else
        match rest1 with
        | String c2 rest2 =>
            if is3 0xe2 0x84 0xaa c0 c1 c2 then Some ("k"%char, rest2) else None
        | "" => None
        end
  | _ => None
  end.

Fixpoint EqualFold_fuel (n : nat) (s t : string) : bool :=
  match n with
  | O => false
  | S n' =>
      match s, t with
      | "", "" => true
      | String a s', String b t' =>
          if isASCII a && isASCII b then
            Ascii.eqb (lower a) (lower b) && EqualFold_fuel n' s' t'
          else if isASCII b then
            match foldsWith s with
            | Some (l, s'') => Ascii.eqb l (lower b) && EqualFold_fuel n' s'' t'
            | None => false
            end
          else if isASCII a then
            match foldsWith t with
            | Some (l, t'') => Ascii.eqb l (lower a) && EqualFold_fuel n' s' t''
            | None => false
            end
          else Ascii.eqb a b && EqualFold_fuel n' s' t'
      | _, _ => false
      end
  end.

Definition EqualFold (s t : string) : bool :=
  EqualFold_fuel (S (String.length s)) s t.

Definition HasPrefix (s prefix : string) : bool := String.prefix prefix s.

(** [strings.Cut]: the text before and after the first [sep], a single
    byte here. *)
Fixpoint Cut (s : string) (sep : ascii) : string * string * bool :=
  match s with
  | "" => ("", "", false)
  | String c rest =>
      if Ascii.eqb c sep then ("", rest, true)
      else let '(b, a, f) := Cut rest sep in (String c b, a, f)
  end.

End gostrings.

(** ** Results *)

Inductive result (A : Type) : Type :=
| Ok (a : A)
| Err (e : error).
Arguments Ok {A} a.
Arguments Err {A} e.

(** A call either returns or panics. *)
Inductive exec (A : Type) : Type :=
| Return (a : A)
| Panic (msg : string).
Arguments Return {A} a.
Arguments Panic {A} msg.

Definition LF : string := String (chr 10) "".
Definition quote : string := String (chr 34) "".

(** ** float64

    No arithmetic is done on floats here: a finite value is carried by the
    literal [encoding/json] writes for it. *)

Inductive float64 :=
| Finite (text : string)
| Inf (negative : bool)
| NaN.

(** ** time

    The wall clock, already broken down in UTC. *)

Module time.

Record Time := {
  Year : Z; Month : Z; Day : Z;
  Hour : Z; Minute : Z; Second : Z;
  Weekday : Z                      (* 0 is Sunday *)
}.

Definition shortDayNames : list string :=
  ["Sun"; "Mon"; "Tue"; "Wed"; "Thu"; "Fri"; "Sat"].
Definition shortMonthNames : list string :=
  ["Jan"; "Feb"; "Mar"; "Apr"; "May"; "Jun";
   "Jul"; "Aug"; "Sep"; "Oct"; "Nov"; "Dec"].

(** A non-negative number on at least [width] digits. *)
Definition zeroPad (width : nat) (z : Z) : string :=
  let d := itoa z in
  string_of_list_ascii (repeat "0"%char (width - String.length d)) +:+ d.

(** [t.Format("Mon, 02 Jan 2006 15:04:05 GMT")]. *)
Definition Format (t : Time) : string :=
  nth (Z.to_nat (Weekday t)) shortDayNames "" +:+ ", "
    +:+ zeroPad 2 (Day t) +:+ " "
    +:+ nth (Z.to_nat (Month t - 1)) shortMonthNames "" +:+ " "
    +:+ zeroPad 4 (Year t) +:+ " "
    +:+ zeroPad 2 (Hour t) +:+ ":" +:+ zeroPad 2 (Minute t) +:+ ":"
    +:+ zeroPad 2 (Second t) +:+ " GMT".

(** Durations, in nanoseconds. *)
Definition Second_ns : N := 1000000000%N.

End time.

(** ** net/url

    [Parse] on absolute [https] URLs with a plain host name, the shape of
    every URL the package builds; any other text is refused. *)

Module url.

Record URL := {
  Scheme : string;
  Host : string;
  Path : string;
  RawQuery : string;
  Fragment : string
}.

Definition Error (op url : string) (err : error) : error :=
  wrapError (op +:+ " " +:+ quote +:+ url +:+ quote) err.

Definition ishex (c : ascii) : bool :=
  isDigit c || between 97 102 c || between 65 70 c.

Definition unhex (c : ascii) : Z :=
  if isDigit c then code c - 48
  else if between 97 102 c then code c - 97 + 10
  else code c - 65 + 10.

Definition EscapeError (s : string) : error :=
  errorString ("invalid URL escape " +:+ quote +:+ s +:+ quote).

(** [unescape] in path and fragment mode: every ["%XX"] becomes its
    byte; a ['%'] without two hexadecimal digits is an error. *)
Fixpoint unescape (s : string) : result string :=
  match s with
  | "" => Ok ""
  | String c rest =>
      if Ascii.eqb c "%" then
        match rest with
        | String h (String l rest') =>
            if ishex h && ishex l then
              match unescape rest' with
              | Ok r => Ok (String (chr (16 * unhex h + unhex l)) r)
              | Err e => Err e
              end
            else Err (EscapeError (String c (String h (String l ""))))
        | _ => Err (EscapeError s)
        end
      else
        match unescape rest with
        | Ok r => Ok (String c r)
        | Err e => Err e
        end
  end.

Definition isCTL (c : ascii) : bool := (code c <? 32) || (code c =? 127).

Fixpoint stringContainsCTLByte (s : string) : bool :=
  match s with
  | "" => false
  | String c rest => isCTL c || stringContainsCTLByte rest
  end.

Definition plainHost (h : string) : bool :=
  negb (String.eqb h "")
  && forall_chars (fun c => isLower c || isUpper c || isDigit c
                            || Ascii.eqb c "." || Ascii.eqb c "-") h.

(** The authority and what follows it: the text up to the first ['/']. *)
Fixpoint splitAuthority (s : string) : string * string :=
  match s with
  | "" => ("", "")
  | String c rest =>
      if Ascii.eqb c "/" then ("", s)
      else let '(a, r) := splitAuthority rest in (String c a, r)
  end.

Definition stripPrefix (prefix s : string) : option string :=
  if String.prefix prefix s
  then Some (String.substring (String.length prefix)
               (String.length s - String.length prefix) s)
  else None.

Definition Parse (rawURL : string) : result URL :=
  let '(u, frag, _) := gostrings.Cut rawURL "#" in
  if stringContainsCTLByte u then
    Err (Error "parse" u
           (errorString "net/url: invalid control character in URL"))
  else
    match stripPrefix "https://" u with
    | None => Err (Error "parse" u (errorString "unsupported URL"))
    | Some rest0 =>
        let '(rest, query, _) := gostrings.Cut rest0 "?" in
        let '(authority, path) := splitAuthority rest in
        if negb (plainHost authority) then
          Err (Error "parse" u (errorString "unsupported URL"))
        else
          match unescape path with
          | Err e => Err (Error "parse" u e)
          | Ok p =>
              match unescape frag with
              | Err e => Err (Error "parse" rawURL e)
              | Ok f =>
                  Ok {| Scheme := "https"; Host := authority; Path := p;
                        RawQuery := query; Fragment := f |}
              end
          end
    end.

End url.

(** ** unicode/utf8 *)

Module utf8.

Definition cont (lo hi : Z) (s : string) : option string :=
  match s with
  | String c rest => if between lo hi c then Some rest else None
  | "" => None
  end.

(** The width in bytes of the rune encoded at the head of [String c rest],
    or 0 when the bytes there are not a valid encoding. *)
Definition width (c : ascii) (rest : string) : nat :=
  let after (n : nat) (lo hi : Z) (tails : nat) : nat :=
    match cont lo hi rest with
    | None => O
    | Some r1 =>
        match tails with
        | O => n
        | S O => match cont 0x80 0xbf r1 with Some _ => n | None => O end
        | _ =>
            match cont 0x80 0xbf r1 with
            | Some r2 => match cont 0x80 0xbf r2 with Some _ => n | None => O end
            | None => O
            end
        end
    end in
  let b := code c in
  if b <? 0x80 then 1%nat
  else if b <? 0xc2 then O
  else if b <? 0xe0 then after 2%nat 0x80 0xbf O
  else if b =? 0xe0 then after 3%nat 0xa0 0xbf 1%nat
  else if b =? 0xed then after 3%nat 0x80 0x9f 1%nat
  else if b <? 0xf0 then after 3%nat 0x80 0xbf 1%nat
  else if b =? 0xf0 then after 4%nat 0x90 0xbf 2%nat
  else if b <? 0xf4 then after 4%nat 0x80 0xbf 2%nat
  else if b =? 0xf4 then after 4%nat 0x80 0x8f 2%nat
  else O.

End utf8.

(** ** encoding/json *)

#[local] Set Warnings "-register-all".

Module json.

(** *** Encoding *)

(** ASCII bytes written as they are inside a string literal, with HTML
    escaping on: everything from the space up except the double quote,
    the backslash and the characters '<', '>' and '&'. *)
Definition htmlSafe (c : ascii) : bool :=
  (32 <=? code c) && (code c <? 128)
  && negb (Ascii.eqb c (chr 34)) && negb (Ascii.eqb c "\")
  && negb (Ascii.eqb c "<") && negb (Ascii.eqb c ">")
  && negb (Ascii.eqb c "&").

Definition escapeASCII (c : ascii) : string :=
  let b := code c in
  if (b =? 34) || (b =? 92) then String "\" (String c "")
  else if b =? 8 then "\b"
  else if b =? 12 then "\f"
  else if b =? 10 then "\n"
  else if b =? 13 then "\r"
  else if b =? 9 then "\t"
  else "\u00" +:+ String (hex_digit (b / 16)) (String (hex_digit (b mod 16)) "").

(** [pending] bytes of a rune already decided are copied ([keep]) or
    dropped; otherwise the byte at the head starts a new rune. *)
Fixpoint escape (pending : nat) (keep : bool) (s : string) : string :=
  match s with
  | "" => ""
  | String c rest =>
      match pending with
      | S p =>
          if keep then String c (escape p keep rest) else escape p keep rest
      | O =>
          if isASCII c then
            (if htmlSafe c then String c "" else escapeASCII c)
              +:+ escape O true rest
          else
            match utf8.width c rest with
            | O => "\ufffd" +:+ escape O true rest
            | S w =>
                match rest with
                | String c1 (String c2 _) =>
                    if gostrings.is3 0xe2 0x80 0xa8 c c1 c2
                    then "\u2028" +:+ escape w false rest
                    else if gostrings.is3 0xe2 0x80 0xa9 c c1 c2
                    then "\u2029" +:+ escape w false rest
                    else String c (escape w true rest)
                | _ => String c (escape w true rest)
                end
            end
      end
  end.

(** A Go string as a JSON string literal. *)
Definition encodeString (s : string) : string :=
  quote +:+ escape O true s +:+ quote.

Definition UnsupportedValueError (v : string) : error :=
  errorString ("json: unsupported value: " +:+ v).

Definition encodeFloat (f : float64) : result string :=
  match f with
  | Finite text => Ok text
  | Inf false => Err (UnsupportedValueError "+Inf")
  | Inf true => Err (UnsupportedValueError "-Inf")
  | NaN => Err (UnsupportedValueError "NaN")
  end.

Definition encodeBool (b : bool) : string := if b then "true" else "false".

(** One struct field on its way out: its key and, unless [omitempty]
    drops it, its encoding or the error that stops the encoder. *)
Definition member : Type := string * option (result string).

Definition always (r : result string) : option (result string) := Some r.

(** A pointer field tagged [omitempty]: left out when nil. *)
Definition omitempty {A} (enc : A -> result string) (p : option A)
  : option (result string) :=
  match p with
  | None => None
  | Some a => Some (enc a)
  end.

Fixpoint encodeMembers (first : bool) (ms : list member) : result string :=
  match ms with
  | [] => Ok ""
  | (_, None) :: rest => encodeMembers first rest
  | (_, Some (Err e)) :: _ => Err e
  | (k, Some (Ok v)) :: rest =>
      match encodeMembers false rest with
      | Err e => Err e
      | Ok tail =>
          Ok ((if first then "" else ",")
                +:+ quote +:+ k +:+ quote +:+ ":" +:+ v +:+ tail)
      end
  end.

(** The encoding of a struct value. *)
Definition encodeStruct (ms : list member) : result (list byte) :=
  match encodeMembers true ms with
  | Err e => Err e
  | Ok body => Ok (bytes_of_string ("{" +:+ body +:+ "}"))
  end.

(** *** Decoding

    A body is represented by what the scanner makes of it: the first
    JSON value of the stream, or the reason there is none.  A number
    token carries what [strconv] makes of it for an [int] and for a
    [float64]. *)

Record number := {
  literal : string;
  asInt : option Z;
  asFloat : option float64
}.

Inductive value :=
| JNull
| JBool (b : bool)
| JNumber (n : number)
| JString (s : string)
| JArray (items : list value)
| JObject (members : list (string * value)).

Inductive body :=
| NotJSON (err : error)
| Document (v : value).

Definition kind (v : value) : string :=
  match v with
  | JNull => "null"
  | JBool _ => "bool"
  | JNumber n => "number"
  | JString _ => "string"
  | JArray _ => "array"
  | JObject _ => "object"
  end.

Definition UnmarshalTypeError (what type : string) : error :=
  errorString ("json: cannot unmarshal " +:+ what
                 +:+ " into Go value of type " +:+ type).

(** Storing a value in a field of a struct [R]: the struct after the
    store, and the error the decoder saves when the value does not fit. *)
Definition setter (R : Type) : Type := value -> R -> R * option error.

Definition intoString {R} (set : string -> R -> R) : setter R :=
  fun v r =>
    match v with
    | JNull => (r, None)
    | JString s => (set s r, None)
    | _ => (r, Some (UnmarshalTypeError (kind v) "string"))
    end.

Definition intoBool {R} (set : bool -> R -> R) : setter R :=
  fun v r =>
    match v with
    | JNull => (r, None)
    | JBool b => (set b r, None)
    | _ => (r, Some (UnmarshalTypeError (kind v) "bool"))
    end.

Definition intoInt {R} (set : Z -> R -> R) : setter R :=
  fun v r =>
    match v with
    | JNull => (r, None)
    | JNumber n =>
        match asInt n with
        | Some z => (set z r, None)
        | None => (r, Some (UnmarshalTypeError ("number " +:+ literal n) "int"))
        end
    | _ => (r, Some (UnmarshalTypeError (kind v) "int"))
    end.

Definition intoFloat {R} (set : float64 -> R -> R) : setter R :=
  fun v r =>
    match v with
    | JNull => (r, None)
    | JNumber n =>
        match asFloat n with
        | Some f => (set f r, None)
        | None =>
            (r, Some (UnmarshalTypeError ("number " +:+ literal n) "float64"))
        end
    | _ => (r, Some (UnmarshalTypeError (kind v) "float64"))
    end.

(** The field a key names: the field with exactly that name, else the
    first one equal to it under case folding. *)
Definition field {R} (fields : list (string * setter R)) (key : string)
  : option (setter R) :=
  match List.find (fun f => String.eqb (fst f) key) fields with
  | Some f => Some (snd f)
  | None =>
      match List.find (fun f => gostrings.EqualFold key (fst f)) fields with
      | Some f => Some (snd f)
      | None => None
      end
  end.

Definition firstError (saved new : option error) : option error :=
  match saved with
  | Some _ => saved
  | None => new
  end.

(** The members of an object stored one after the other; unknown keys
    are skipped and the first error is kept while decoding goes on. *)
Definition intoFields {R} (fields : list (string * setter R))
    (members : list (string * value)) (r : R) : R * option error :=
  fold_left
    (fun (acc : R * option error) (m : string * value) =>
       match field fields (fst m) with
       | None => acc
       | Some set =>
           let '(r', e) := set (snd m) (fst acc) in
           (r', firstError (snd acc) e)
       end)
    members (r, None).

Definition intoStruct {R} (type : string) (fields : list (string * setter R))
  : setter R :=
  fun v r =>
    match v with
    | JNull => (r, None)
    | JObject members => intoFields fields members r
    | _ => (r, Some (UnmarshalTypeError (kind v) type))
    end.

(** [json.NewDecoder(body).Decode(&v)] for [v] a zero struct. *)
Definition Decode {R} (type : string) (fields : list (string * setter R))
    (zero : R) (b : body) : result R :=
  match b with
  | NotJSON e => Err e
  | Document v =>
      match intoStruct type fields v zero with
      | (r, None) => Ok r
      | (_, Some e) => Err e
      end
  end.

End json.

(** ** net/http *)

Module http.

Definition MethodGet : string := "GET".
Definition MethodPost : string := "POST".
Definition MethodPut : string := "PUT".
Definition MethodDelete : string := "DELETE".

(** The bytes of an HTTP token. *)
Definition validHeaderFieldByte (c : ascii) : bool :=
  isLower c || isUpper c || isDigit c
  || existsb (Ascii.eqb c) (list_ascii_of_string "!#$%&'*+-.^_`|~").

Fixpoint canonical (up : bool) (s : string) : string :=
  match s with
  | "" => ""
  | String c rest =>
      let c' := if up then upper c else lower c in
      String c' (canonical (Ascii.eqb c' "-") rest)
  end.

(** [textproto.CanonicalMIMEHeaderKey]: the first letter and the letters
    after a hyphen in upper case, the others in lower case; a key with a
    byte that is not a token byte is left as it is. *)
Definition CanonicalMIMEHeaderKey (s : string) : string :=
  if forall_chars validHeaderFieldByte s then canonical true s else s.

(** [h.Set(key, value)] and [h.Get(key)] on a [Header], a map from
    canonical keys to lists of values. *)
Definition Header_Set (h : gmap string (list string)) (key value : string)
  : gmap string (list string) :=
  <[CanonicalMIMEHeaderKey key := [value]]> h.

Definition Header_Get (h : gmap string (list string)) (key : string) : string :=
  match h !! CanonicalMIMEHeaderKey key with
  | Some (v :: _) => v
  | _ => ""
  end.

Record Request := {
  Method : string;
  URL : url.URL;
  Header : gmap string (list string);
  ReqBody : option (list byte)
}.

Record Response := {
  StatusCode : Z;
  Body : json.body
}.

Definition validMethod (method : string) : bool :=
  negb (String.eqb method "") && forall_chars validHeaderFieldByte method.

Definition NewRequest (method url : string) (body : option (list byte))
  : result Request :=
  let method := if String.eqb method "" then "GET" else method in
  if negb (validMethod method) then
    Err (errorString ("net/http: invalid method " +:+ quote +:+ method +:+ quote))
  else
    match url.Parse url with
    | Err e => Err e
    | Ok u => Ok {| Method := method; URL := u; Header := ∅; ReqBody := body |}
    end.

(** An [*http.Client]: where it lives and how it answers a request. *)
Record Client := {
  addr : N;
  RoundTrip : Request -> result Response
}.

End http.

(** ** The world the package runs in: the wall clock, the process-wide
    [http.DefaultClient], and the requests handed to a client so far, in
    order, each with the address of the client it went through. *)

Record World := {
  now : time.Time;
  DefaultClient : http.Client;
  wire : list (N * http.Request)
}.

(** [c.Do(req)] *)
Definition Do (c : http.Client) (req : http.Request) (w : World)
  : result http.Response * World :=
  (http.RoundTrip c req,
   {| now := now w; DefaultClient := DefaultClient w;
      wire := wire w ++ [(http.addr c, req)] |}).

(** * The package *)

(** ** The error file: [APIError] and [checkError] *)

Definition vuforiaAPIErrors : gmap string string :=
  list_to_map
    [("AuthenticationFailure", "Signature authentication failed");
     ("RequestTimeTooSkewed", "Request timestamp outside allowed range");
     ("TargetNameExist", "The corresponding target name already exists");
     ("RequestQuotaReached",
      "The maximum number of API calls for this database has been reached");
     ("TargetStatusProcessing",
      "The target is in the processing state and cannot be updated");
     ("TargetStatusNotSuccess",
      "The request could not be completed because the target is not in the success state");
     ("TargetQuotaReached",
      "The maximum number of targets for this database has been reached");
     ("ProjectSuspended",
      "The request could not be completed because this database has been suspended");
     ("ProjectInactive",
      "The request could not be completed because this database is inactive");
     ("ProjectHasNoApiAccess",
      "The request could not be completed because this database is not allowed to make API requests");
     ("UnknownTarget", "The specified target ID does not exist");
     ("BadImage", "Image corrupted or format not supported");
     ("ImageTooLarge", "Target metadata size exceeds maximum limit");
     ("MetadataTooLarge", "Image size exceeds maximum limit");
     ("DateRangeError", "Start date is after the end date");
     ("Fail",
      "The request was invalid and could not be processed (Check the request headers and fields)")].

Definition APIError_Error (e : APIError) : string :=
  fmt.Sprintf
    "vuforia request failed (ResultCode = %s, Transaction ID = %s): %s"
    [fmt.Str (ResultCode e); fmt.Str (TransactionId e);
     fmt.Str (default "" (vuforiaAPIErrors !! ResultCode e))].

Definition APIError_zero : APIError :=
  {| ResultCode := ""; TransactionId := "" |}.

Definition APIError_fields : list (string * json.setter APIError) :=
  [("result_code",
    json.intoString (fun s e => {| ResultCode := s; TransactionId := TransactionId e |}));
   ("transaction_id",
    json.intoString (fun s e => {| ResultCode := ResultCode e; TransactionId := s |}))].

Definition isServerError (status : Z) : bool := 500 <=? status.

Definition isAPIError (status : Z) : bool := (400 <=? status) && (status <? 500).

Definition checkError (resp : http.Response) : option error :=
  if isServerError (http.StatusCode resp) then
    Some (fmt.Errorf
            "the server encountered an internal error (Status = %d); please retry the request"
            [fmt.Int (http.StatusCode resp)])
  else if isAPIError (http.StatusCode resp) then
    match json.Decode "vuforia.APIError" APIError_fields APIError_zero
            (http.Body resp) with
    | Err err => Some err
    | Ok e => Some (apiError e)
    end
  else None.

(** ** The signing file: [prepare] and [sign] *)

(** [fmt.Fprintf(mac, format, args...)]: the formatted text in one [Write]. *)
Definition Fprintf (mac : hmac.HMAC) (format : string) (args : list fmt.arg)
  : hmac.HMAC * (Z * option error) :=
  hmac.Write mac (bytes_of_string (fmt.Sprintf format args)).

Definition sign_format : string :=
  Eval cbv in ("%s" +:+ LF +:+ "%x" +:+ LF +:+ "%s" +:+ LF +:+ "%s" +:+ LF +:+ "%s").

Definition sign (secretKey : string) (r : http.Request) (body : option (list byte))
  : result string :=
  let md5Hash := md5_New in
  let '(md5Hash, (_, err)) :=
    match body with
    | Some b => hash.Write md5Hash b
    | None => (md5Hash, (0, None))
    end in
  match err with
  | Some err => Err err
  | None =>
      let mac := hmac.New sha1_New (bytes_of_string secretKey) in
      let '(mac, (_, err)) :=
        Fprintf mac sign_format
          [fmt.Str (http.Method r);
           fmt.Bytes (hash.Sum md5Hash []);
           fmt.Str (http.Header_Get (http.Header r) "Content-Type");
           fmt.Str (http.Header_Get (http.Header r) "Date");
           fmt.Str (url.Path (http.URL r))] in
      match err with
      | Some err => Err err
      | None => Ok (base64.EncodeToString (hmac.Sum mac []))
      end
  end.

Definition setHeader (req : http.Request) (key value : string) : http.Request :=
  {| http.Method := http.Method req; http.URL := http.URL req;
     http.Header := http.Header_Set (http.Header req) key value;
     http.ReqBody := http.ReqBody req |}.

(** [prepare] updates the request in place: the request after the call,
    and the error returned. *)
Definition prepare (secretKey accessKey : string) (req : http.Request)
    (body : option (list byte)) (w : World) : http.Request * option error :=
  let req := setHeader req "Date" (time.Format (now w)) in
  let req := setHeader req "Content-Type" "application/json" in
  match sign secretKey req body with
  | Err err => (req, Some err)
  | Ok signature =>
      (setHeader req "Authorization"
         (fmt.Sprintf "VWS %s:%s" [fmt.Str accessKey; fmt.Str signature]),
       None)
  end.

(** ** The client file *)

(** [vuforiaUrl] is the endpoint for the Vuforia Web Services API. *)
Definition vuforiaUrl : string := "vws.vuforia.com".

Module ClientConfig.
Record t := {
  SecretKey : string;
  AccessKey : string;
  Client : option http.Client       (* [*http.Client], possibly nil *)
}.
End ClientConfig.

Record client := { cfg : ClientConfig.t }.

Definition NewClient (cfg : ClientConfig.t) (w : World) : result client :=
  if String.eqb (ClientConfig.SecretKey cfg) "" then
    Err (fmt.Errorf "vuforia SecretKey must be set" [])
  else if String.eqb (ClientConfig.AccessKey cfg) "" then
    Err (fmt.Errorf "vuforia AccessKey must be set" [])
  else
    let cfg :=
      match ClientConfig.Client cfg with
      | None => {| ClientConfig.SecretKey := ClientConfig.SecretKey cfg;
                   ClientConfig.AccessKey := ClientConfig.AccessKey cfg;
                   ClientConfig.Client := Some (DefaultClient w) |}
      | Some _ => cfg
      end in
    Ok {| cfg := cfg |}.

(** *** Request and response types *)

Module PostTargetRequest.
Record t := {
  Name : string;               (* json:"name" *)
  Width : float64;             (* json:"width" *)
  Image : string;              (* json:"image" *)
  Active : option bool;        (* json:"active_flag,omitempty" *)
  Metadata : option string     (* json:"application_metadata,omitempty" *)
}.

Definition Marshal (r : t) : result (list byte) :=
  json.encodeStruct
    [("name", json.always (Ok (json.encodeString (Name r))));
     ("width", json.always (json.encodeFloat (Width r)));
     ("image", json.always (Ok (json.encodeString (Image r))));
     ("active_flag",
      json.omitempty (fun b => Ok (json.encodeBool b)) (Active r));
     ("application_metadata",
      json.omitempty (fun s => Ok (json.encodeString s)) (Metadata r))].
End PostTargetRequest.

Module PostTargetResponse.
Record t := {
  TargetId : string;           (* json:"target_id" *)
  TransactionId : string;      (* json:"transaction_id" *)
  ResultCode : string          (* json:"result_code" *)
}.
Definition zero : t := Build_t "" "" "".
Definition fields : list (string * json.setter t) :=
  [("target_id", json.intoString (fun v '(Build_t a b c) => Build_t v b c));
   ("transaction_id", json.intoString (fun v '(Build_t a b c) => Build_t a v c));
   ("result_code", json.intoString (fun v '(Build_t a b c) => Build_t a b v))].
Definition Decode : json.body -> result t :=
  json.Decode "vuforia.PostTargetResponse" fields zero.
End PostTargetResponse.

Module GetTargetRequest.
Record t := { TargetId : string }.
End GetTargetRequest.

Module TargetRecord.
Record t := {
  TargetId : string;           (* json:"target_id" *)
  Active : bool;               (* json:"active_flag" *)
  Name : string;               (* json:"name" *)
  Width : float64;             (* json:"width" *)
  TrackingRating : Z           (* json:"tracking_rating" *)
}.
Definition zero : t := Build_t "" false "" (Finite "0") 0.
Definition fields : list (string * json.setter t) :=
  [("target_id", json.intoString (fun v '(Build_t a b c d e) => Build_t v b c d e));
   ("active_flag", json.intoBool (fun v '(Build_t a b c d e) => Build_t a v c d e));
   ("name", json.intoString (fun v '(Build_t a b c d e) => Build_t a b v d e));
   ("width", json.intoFloat (fun v '(Build_t a b c d e) => Build_t a b c v e));
   ("tracking_rating", json.intoInt (fun v '(Build_t a b c d e) => Build_t a b c d v))].
End TargetRecord.

Module GetTargetResponse.
Record t := {
  TransactionId : string;      (* json:"transaction_id" *)
  ResultCode : string;         (* json:"result_code" *)
  Status : string;             (* json:"status" *)
  TargetRecord : TargetRecord.t  (* json:"target_record" *)
}.
Definition zero : t := Build_t "" "" "" TargetRecord.zero.
Definition fields : list (string * json.setter t) :=
  [("transaction_id", json.intoString (fun v '(Build_t a b c d) => Build_t v b c d));
   ("result_code", json.intoString (fun v '(Build_t a b c d) => Build_t a v c d));
   ("status", json.intoString (fun v '(Build_t a b c d) => Build_t a b v d));
   ("target_record",
    fun v '(Build_t a b c d) =>
      let '(d', e) := json.intoStruct "struct" TargetRecord.fields v d in
      (Build_t a b c d', e))].
Definition Decode : json.body -> result t :=
  json.Decode "vuforia.GetTargetResponse" fields zero.
End GetTargetResponse.

Module UpdateTargetRequest.
Record t := {
  TargetId : string;           (* json:"-" *)
  Name : option string;        (* json:"name,omitempty" *)
  Width : option float64;      (* json:"width,omitempty" *)
  Image : option string;       (* json:"image,omitempty" *)
  Active : option bool;        (* json:"active_flag,omitempty" *)
  Metadata : option string     (* json:"application_metadata,omitempty" *)
}.

Definition Marshal (r : t) : result (list byte) :=
  json.encodeStruct
    [("name", json.omitempty (fun s => Ok (json.encodeString s)) (Name r));
     ("width", json.omitempty json.encodeFloat (Width r));
     ("image", json.omitempty (fun s => Ok (json.encodeString s)) (Image r));
     ("active_flag",
      json.omitempty (fun b => Ok (json.encodeBool b)) (Active r));
     ("application_metadata",
      json.omitempty (fun s => Ok (json.encodeString s)) (Metadata r))].
End UpdateTargetRequest.

Module UpdateTargetResponse.
Record t := {
  TransactionId : string;      (* json:"transaction_id" *)
  ResultCode : string          (* json:"result_code" *)
}.
Definition zero : t := Build_t "" "".
Definition fields : list (string * json.setter t) :=
  [("transaction_id", json.intoString (fun v '(Build_t a b) => Build_t v b));
   ("result_code", json.intoString (fun v '(Build_t a b) => Build_t a v))].
Definition Decode : json.body -> result t :=
  json.Decode "vuforia.UpdateTargetResponse" fields zero.
End UpdateTargetResponse.

Module DeleteTargetRequest.
Record t := { TargetId : string }.
End DeleteTargetRequest.

Module DeleteTargetResponse.
Record t := {
  TransactionId : string;      (* json:"transaction_id" *)
  ResultCode : string          (* json:"result_code" *)
}.
Definition zero : t := Build_t "" "".
Definition fields : list (string * json.setter t) :=
  [("transaction_id", json.intoString (fun v '(Build_t a b) => Build_t v b));
   ("result_code", json.intoString (fun v '(Build_t a b) => Build_t a v))].
Definition Decode : json.body -> result t :=
  json.Decode "vuforia.DeleteTargetResponse" fields zero.
End DeleteTargetResponse.

Module TargetSummaryRequest.
Record t := { TargetId : string }.
End TargetSummaryRequest.

Module TargetSummaryResponse.
Record t := {
  TransactionId : string;      (* json:"transaction_id" *)
  ResultCode : string;         (* json:"result_code" *)
  Status : string;             (* json:"status" *)
  DatabaseName : string;       (* json:"database_name" *)
  TargetName : string;         (* json:"target_name" *)
  UploadDate : string;         (* json:"upload_date" *)
  Active : bool;               (* json:"active_flag" *)
  TrackingRating : Z;          (* json:"tracking_rating" *)
  TotalRecos : Z;              (* json:"total_recos" *)
  CurrentMonthRecos : Z;       (* json:"current_month_recos" *)
  PreviousMonthRecos : Z       (* json:"previous_month_recos" *)
}.
Definition zero : t := Build_t "" "" "" "" "" "" false 0 0 0 0.
Definition fields : list (string * json.setter t) :=
  [("transaction_id", json.intoString
      (fun v '(Build_t a b c d e f g h i j k) => Build_t v b c d e f g h i j k));
   ("result_code", json.intoString
      (fun v '(Build_t a b c d e f g h i j k) => Build_t a v c d e f g h i j k));
   ("status", json.intoString
      (fun v '(Build_t a b c d e f g h i j k) => Build_t a b v d e f g h i j k));
   ("database_name", json.intoString
      (fun v '(Build_t a b c d e f g h i j k) => Build_t a b c v e f g h i j k));
   ("target_name", json.intoString
      (fun v '(Build_t a b c d e f g h i j k) => Build_t a b c d v f g h i j k));
   ("upload_date", json.intoString
      (fun v '(Build_t a b c d e f g h i j k) => Build_t a b c d e v g h i j k));
   ("active_flag", json.intoBool
      (fun v '(Build_t a b c d e f g h i j k) => Build_t a b c d e f v h i j k));
   ("tracking_rating", json.intoInt
      (fun v '(Build_t a b c d e f g h i j k) => Build_t a b c d e f g v i j k));
   ("total_recos", json.intoInt
      (fun v '(Build_t a b c d e f g h i j k) => Build_t a b c d e f g h v j k));
   ("current_month_recos", json.intoInt
      (fun v '(Build_t a b c d e f g h i j k) => Build_t a b c d e f g h i v k));
   ("previous_month_recos", json.intoInt
      (fun v '(Build_t a b c d e f g h i j k) => Build_t a b c d e f g h i j v))].
Definition Decode : json.body -> result t :=
  json.Decode "vuforia.TargetSummaryResponse" fields zero.
End TargetSummaryResponse.

Module DatabaseSummaryResponse.
Record t := {
  TransactionId : string;      (* json:"transaction_id" *)
  ResultCode : string;         (* json:"result_code" *)
  Name : string;               (* json:"name" *)
  ActiveImages : Z;            (* json:"active_images" *)
  InactiveImages : Z;          (* json:"inactive_images" *)
  FailedImages : Z             (* json:"failed_images" *)
}.
Definition zero : t := Build_t "" "" "" 0 0 0.
Definition fields : list (string * json.setter t) :=
  [("transaction_id", json.intoString (fun v '(Build_t a b c d e f) => Build_t v b c d e f));
   ("result_code", json.intoString (fun v '(Build_t a b c d e f) => Build_t a v c d e f));
   ("name", json.intoString (fun v '(Build_t a b c d e f) => Build_t a b v d e f));
   ("active_images", json.intoInt (fun v '(Build_t a b c d e f) => Build_t a b c v e f));
   ("inactive_images", json.intoInt (fun v '(Build_t a b c d e f) => Build_t a b c d v f));
   ("failed_images", json.intoInt (fun v '(Build_t a b c d e f) => Build_t a b c d e v))].
Definition Decode : json.body -> result t :=
  json.Decode "vuforia.DatabaseSummaryResponse" fields zero.
End DatabaseSummaryResponse.

(** *** The operations

    Each operation returns or panics, and leaves the world with the
    requests it sent.  [cfgDo] is [c.cfg.Client.Do(req)], a nil pointer
    dereference when the configured client is nil.  The deferred
    [safeClose] drains and closes the body once the decoder has read its
    value; it changes neither the result nor the requests sent. *)

Definition cfgDo (c : client) (req : http.Request) (w : World)
  : exec (result http.Response) * World :=
  match ClientConfig.Client (cfg c) with
  | None => (Panic "invalid memory address or nil pointer dereference", w)
  | Some hc => let '(r, w') := Do hc req w in (Return r, w')
  end.

Definition PostTarget (c : client) (input : option PostTargetRequest.t) (w : World)
  : exec (result PostTargetResponse.t) * World :=
  match input with
  | None => (Panic "input is <nil>", w)
  | Some input =>
      match PostTargetRequest.Marshal input with
      | Err err => (Return (Err err), w)
      | Ok body =>
          match http.NewRequest http.MethodPost
                  (fmt.Sprintf "https://%s/targets" [fmt.Str vuforiaUrl])
                  (Some body) with
          | Err err => (Return (Err err), w)
          | Ok req =>
              match prepare (ClientConfig.SecretKey (cfg c)) (ClientConfig.AccessKey (cfg c)) req (Some body) w with
              | (_, Some err) => (Return (Err err), w)
              | (req, None) =>
                  match Do (DefaultClient w) req w with
                  | (Err err, w) => (Return (Err err), w)
                  | (Ok resp, w) =>
                      (Return (PostTargetResponse.Decode (http.Body resp)), w)
                  end
              end
          end
      end
  end.

Definition GetTarget (c : client) (input : option GetTargetRequest.t) (w : World)
  : exec (result GetTargetResponse.t) * World :=
  match input with
  | None => (Panic "input is <nil>", w)
  | Some input =>
      if String.eqb (GetTargetRequest.TargetId input) "" then
        (Return (Err (errors.New "TargetId must be provided")), w)
      else
        match http.NewRequest http.MethodGet
                (fmt.Sprintf "https://%s/targets/%s"
                   [fmt.Str vuforiaUrl; fmt.Str (GetTargetRequest.TargetId input)])
                None with
        | Err err => (Return (Err err), w)
        | Ok req =>
            match prepare (ClientConfig.SecretKey (cfg c)) (ClientConfig.AccessKey (cfg c)) req None w with
            | (_, Some err) => (Return (Err err), w)
            | (req, None) =>
                match cfgDo c req w with
                | (Panic msg, w) => (Panic msg, w)
                | (Return (Err err), w) => (Return (Err err), w)
                | (Return (Ok resp), w) =>
                    (Return (GetTargetResponse.Decode (http.Body resp)), w)
                end
            end
        end
  end.

Definition UpdateTarget (c : client) (input : option UpdateTargetRequest.t) (w : World)
  : exec (result UpdateTargetResponse.t) * World :=
  match input with
  | None => (Panic "input is <nil>", w)
  | Some input =>
      if String.eqb (UpdateTargetRequest.TargetId input) "" then
        (Return (Err (errors.New "TargetId must be provided")), w)
      else
        match UpdateTargetRequest.Marshal input with
        | Err err => (Return (Err err), w)
        | Ok body =>
            match http.NewRequest http.MethodPut
                    (fmt.Sprintf "https://%s/targets/%s"
                       [fmt.Str vuforiaUrl;
                        fmt.Str (UpdateTargetRequest.TargetId input)])
                    (Some body) with
            | Err err => (Return (Err err), w)
            | Ok req =>
                match prepare (ClientConfig.SecretKey (cfg c)) (ClientConfig.AccessKey (cfg c)) req (Some body) w with
                | (_, Some err) => (Return (Err err), w)
                | (req, None) =>
                    match Do (DefaultClient w) req w with
                    | (Err err, w) => (Return (Err err), w)
                    | (Ok resp, w) =>
                        (Return (UpdateTargetResponse.Decode (http.Body resp)), w)
                    end
                end
            end
        end
  end.

Definition DeleteTarget (c : client) (input : option DeleteTargetRequest.t) (w : World)
  : exec (result DeleteTargetResponse.t) * World :=
  match input with
  | None => (Panic "input is <nil>", w)
  | Some input =>
      if String.eqb (DeleteTargetRequest.TargetId input) "" then
        (Return (Err (errors.New "TargetId must be provided")), w)
      else
        match http.NewRequest http.MethodDelete
                (fmt.Sprintf "https://%s/targets/%s"
                   [fmt.Str vuforiaUrl; fmt.Str (DeleteTargetRequest.TargetId input)])
                None with
        | Err err => (Return (Err err), w)
        | Ok req =>
            match prepare (ClientConfig.SecretKey (cfg c)) (ClientConfig.AccessKey (cfg c)) req None w with
            | (_, Some err) => (Return (Err err), w)
            | (req, None) =>
                match cfgDo c req w with
                | (Panic msg, w) => (Panic msg, w)
                | (Return (Err err), w) => (Return (Err err), w)
                | (Return (Ok resp), w) =>
                    (Return (DeleteTargetResponse.Decode (http.Body resp)), w)
                end
            end
        end
  end.

Definition TargetSummary (c : client) (input : option TargetSummaryRequest.t) (w : World)
  : exec (result TargetSummaryResponse.t) * World :=
  match input with
  | None => (Panic "input is <nil>", w)
  | Some input =>
      if String.eqb (TargetSummaryRequest.TargetId input) "" then
        (Return (Err (errors.New "TargetId must be provided")), w)
      else
        match http.NewRequest http.MethodGet
                (fmt.Sprintf "https://%s/summary/%s"
                   [fmt.Str vuforiaUrl; fmt.Str (TargetSummaryRequest.TargetId input)])
                None with
        | Err err => (Return (Err err), w)
        | Ok req =>
            match prepare (ClientConfig.SecretKey (cfg c)) (ClientConfig.AccessKey (cfg c)) req None w with
            | (_, Some err) => (Return (Err err), w)
            | (req, None) =>
                match cfgDo c req w with
                | (Panic msg, w) => (Panic msg, w)
                | (Return (Err err), w) => (Return (Err err), w)
                | (Return (Ok resp), w) =>
                    (Return (TargetSummaryResponse.Decode (http.Body resp)), w)
                end
            end
        end
  end.

Definition DatabaseSummary (c : client) (w : World)
  : exec (result DatabaseSummaryResponse.t) * World :=
  match http.NewRequest http.MethodGet
          (fmt.Sprintf "https://%s/summary" [fmt.Str vuforiaUrl]) None with
  | Err err => (Return (Err err), w)
  | Ok req =>
      match prepare (ClientConfig.SecretKey (cfg c)) (ClientConfig.AccessKey (cfg c)) req None w with
      | (_, Some err) => (Return (Err err), w)
      | (req, None) =>
          match cfgDo c req w with
          | (Panic msg, w) => (Panic msg, w)
          | (Return (Err err), w) => (Return (Err err), w)
          | (Return (Ok resp), w) =>
              (Return (DatabaseSummaryResponse.Decode (http.Body resp)), w)
          end
      end
  end.

(** ** The waiter file

    Time is a monotonic clock in nanoseconds.  A context is given by the
    instant at which its [Done] channel is closed, if ever, and by the
    error [Err] reports from then on. *)

Module context.

Record Context := {
  doneAt : option N;
  cause : error          (* [context.Canceled] or [context.DeadlineExceeded] *)
}.

Definition Canceled : error := errorString "context canceled".

Definition Background : Context := {| doneAt := None; cause := Canceled |}.

(** [ctx.Err()] at instant [t]. *)
Definition Err (ctx : Context) (t : N) : option error :=
  match doneAt ctx with
  | Some tc => if (tc <=? t)%N then Some (cause ctx) else None
  | None => None
  end.

End context.

(** What the runtime decides: how late after its duration the timer armed
    at a given instant fires, and which case a [select] takes when both of
    its channels become ready at the same instant. *)
Record Scheduler := {
  lag : N -> N;
  pickTimer : N -> bool
}.

Inductive selected :=
| CaseDone (t : N)      (* [<-ctx.Done()] was received at [t] *)
| CaseTimer (t : N).    (* [<-time.After(interval)] was received at [t] *)

(** [select { case <-ctx.Done(): ... case <-time.After(interval): ... }]
    entered at instant [t]: the case whose channel is ready first. *)
Definition select (sched : Scheduler) (ctx : context.Context) (t interval : N)
  : selected :=
  let fire := (t + interval + lag sched t)%N in
  match context.doneAt ctx with
  | None => CaseTimer fire
  | Some tc =>
      let done := N.max tc t in
      match (done ?= fire)%N with
      | Lt => CaseDone done
      | Gt => CaseTimer fire
      | Eq => if pickTimer sched t then CaseTimer fire else CaseDone done
      end
  end.

(** The [Client] interface as the waiter uses it: [GetTarget(ctx, input)],
    called at some instant in some state of the implementation, answers
    after some time and leaves the implementation in a new state.  On
    success the response is not nil. *)
Record Client (S : Type) := {
  Client_GetTarget :
    context.Context -> GetTargetRequest.t -> N -> S ->
    result GetTargetResponse.t * N * S
}.
Arguments Client_GetTarget {S} _ _ _ _ _.

(** One call of [GetTarget] as the waiter made it. *)
Record Poll := {
  waited : N;                          (* the interval of the wait before it *)
  startedAt : N;
  endedAt : N;
  request : GetTargetRequest.t;
  answer : result GetTargetResponse.t
}.

Definition defaultInterval : N := (5 * time.Second_ns)%N.
Definition extendedInterval : N := (30 * time.Second_ns)%N.

Section Waiter.

Context {S : Type}.
Variable sched : Scheduler.
Variable ctx : context.Context.
Variable cl : Client S.
Variable target : string.

Record State := {
  clock : N;
  interval : N;
  impl : S;
  polls : list Poll
}.

Inductive step :=
| Continue (st : State)
| Stop (err : option error) (st : State).

(** [errors.As(err, &ae) && strings.EqualFold(ae.ResultCode, "RequestQuotaReached")] *)
Definition quotaReached (err : error) : bool :=
  match errors.As err with
  | Some ae => gostrings.EqualFold (ResultCode ae) "RequestQuotaReached"
  | None => false
  end.

(** The body of the [for] loop. *)
Definition iteration (st : State) : step :=
  match select sched ctx (clock st) (interval st) with
  | CaseDone t =>
      Stop (context.Err ctx t)
           {| clock := t; interval := interval st;
              impl := impl st; polls := polls st |}
  | CaseTimer t =>
      let interval' := defaultInterval in
      let req := {| GetTargetRequest.TargetId := target |} in
      let '(r, d, impl') := Client_GetTarget cl ctx req t (impl st) in
      let poll := {| waited := interval st; startedAt := t;
                     endedAt := (t + d)%N; request := req; answer := r |} in
      let after (i : N) :=
        {| clock := (t + d)%N; interval := i;
           impl := impl'; polls := polls st ++ [poll] |} in
      match r with
      | Err err =>
          if quotaReached err then Continue (after extendedInterval)
          else Stop (Some err) (after interval')
      | Ok output =>
          let status := gostrings.ToLower (GetTargetResponse.Status output) in
          if String.eqb status "failed" || String.eqb status "success"
          then Stop None (after interval')
          else if String.eqb status "processing"
          then Continue (after interval')
          else Continue (after interval')
      end
  end.

(** The loop may never end: [loop n] runs at most [n] iterations. *)
Inductive status :=
| Running
| Returned (err : option error).

Fixpoint loop (fuel : nat) (st : State) : status * State :=
  match fuel with
  | O => (Running, st)
  | Datatypes.S n =>
      match iteration st with
      | Stop err st' => (Returned err, st')
      | Continue st' => loop n st'
      end
  end.

(** [WaitUntilProcessed(ctx, client, target)] entered at instant [t0] with
    the implementation in state [s0]. *)
Definition WaitUntilProcessed (fuel : nat) (t0 : N) (s0 : S) : status * State :=
  loop fuel {| clock := t0; interval := defaultInterval; impl := s0; polls := [] |}.

End Waiter.


(** A test double for [Client]: it answers from a script, each answer with
    the time it takes; past the end of the script it fails. *)
Definition scripted : Client (list (N * result GetTargetResponse.t)) :=
  {| Client_GetTarget := fun _ _ _ script =>
       match script with
       | [] => (Err (errors.New "no more responses"), 0%N, [])
       | (d, r) :: rest => (r, d, rest)
       end |}.

Definition withStatus (s : string) : result GetTargetResponse.t :=
  Ok {| GetTargetResponse.TransactionId := "t"; GetTargetResponse.ResultCode := "Success";
        GetTargetResponse.Status := s;
        GetTargetResponse.TargetRecord := TargetRecord.zero |}.

(** * Notions used in the statements *)

(** ** The signature in the words of the specification *)

(** The canonical string: method, hexadecimal content hash, content type,
    date and path, joined by single newlines. *)
Definition canonicalString (method : string) (body : list byte)
    (contentType date path : string) : string :=
  join LF [method; hex (md5.sum body); contentType; date; path].

(** The padded standard base64 of the HMAC-SHA1 of the canonical string,
    keyed with the secret key. *)
Definition signature (secretKey canonical : string) : string :=
  base64.EncodeToString
    (HMAC_SHA1 (bytes_of_string secretKey) (bytes_of_string canonical)).

(** The header values [prepare] leaves in the request. *)
Definition preparedHeader (h : gmap string (list string)) (date authorization : string)
  : gmap string (list string) :=
  http.Header_Set
    (http.Header_Set (http.Header_Set h "Date" date)
       "Content-Type" "application/json")
    "Authorization" authorization.

(** The Authorization header value of the specification. *)
Definition authorization (accessKey sig : string) : string :=
  "VWS " +:+ accessKey +:+ ":" +:+ sig.

(** ** The waiter: polls *)

(** A status of the case ["failed", "success"] of the switch on the lowered
    status. *)
Definition terminal (status : string) : bool :=
  String.eqb (gostrings.ToLower status) "failed"
  || String.eqb (gostrings.ToLower status) "success".

(** The poll an iteration records when its timer fires at [t] and the
    call answers [r] after [d]. *)
Definition pollOf {S : Type} (target : string) (st : @State S) (t d : N)
    (r : result GetTargetResponse.t) : Poll :=
  {| waited := interval st; startedAt := t; endedAt := (t + d)%N;
     request := {| GetTargetRequest.TargetId := target |}; answer := r |}.

(** The state after that poll, with the interval of the next wait. *)
Definition afterPoll {S : Type} (target : string) (st : @State S) (t d : N)
    (r : result GetTargetResponse.t) (impl' : S) (i : N) : @State S :=
  {| clock := (t + d)%N; interval := i; impl := impl';
     polls := polls st ++ [pollOf target st t d r] |}.

(** What one iteration does to the record of polls: one more poll, made
    after waiting the interval of the state, or none when it stops. *)
Definition polledOnce {S : Type} (st st' : @State S) : Prop :=
  exists p, polls st' = polls st ++ [p]
            /\ waited p = interval st
            /\ (clock st + interval st <= startedAt p)%N
            /\ (startedAt p <= clock st')%N.

(** *** Test doubles *)

(** A runtime whose timers fire on time and whose [select] takes the timer
    when both channels are ready at once. *)
Definition punctual : Scheduler := {| lag := fun _ => 0%N; pickTimer := fun _ => true |}.

(** The script of the specification: processing, processing, success, the
    calls taking [d1], [d2] and [d3]. *)
Definition processingTwiceThenSuccess (d1 d2 d3 : N)
  : list (N * result GetTargetResponse.t) :=
  [(d1, withStatus "processing"); (d2, withStatus "processing");
   (d3, withStatus "success")].

Definition quotaError : error :=
  apiError {| ResultCode := "RequestQuotaReached"; TransactionId := "tx" |}.

(** A prepared request handed to a client and the body of the answer
    decoded: the tail common to the six operations.  The status code of the
    answer plays no part in it. *)
Definition exchange {R : Type} (decode : json.body -> result R) (hc : http.Client)
    (req : http.Request) (w : World) : exec (result R) * World :=
  (Return match http.RoundTrip hc req with
          | Err err => Err err
          | Ok resp => decode (http.Body resp)
          end,
   {| now := now w; DefaultClient := DefaultClient w;
      wire := wire w ++ [(http.addr hc, req)] |}).

(** The request an operation sends: [req0] from [http.NewRequest], signed. *)
Definition prepared (c : client) (req0 : http.Request) (body : option (list byte))
    (w : World) : http.Request :=
  fst (prepare (ClientConfig.SecretKey (cfg c)) (ClientConfig.AccessKey (cfg c))
         req0 body w).

(** Through the configured client, or a panic when there is none. *)
Definition viaConfigured {R : Type} (decode : json.body -> result R) (c : client)
    (req : http.Request) (w : World) : exec (result R) * World :=
  match ClientConfig.Client (cfg c) with
  | None => (Panic "invalid memory address or nil pointer dereference", w)
  | Some hc => exchange decode hc req w
  end.

Definition targetsURL : string :=
  fmt.Sprintf "https://%s/targets" [fmt.Str vuforiaUrl].
Definition targetURL (id : string) : string :=
  fmt.Sprintf "https://%s/targets/%s" [fmt.Str vuforiaUrl; fmt.Str id].
Definition targetSummaryURL (id : string) : string :=
  fmt.Sprintf "https://%s/summary/%s" [fmt.Str vuforiaUrl; fmt.Str id].
Definition summaryURL : string :=
  fmt.Sprintf "https://%s/summary" [fmt.Str vuforiaUrl].

Definition missingTargetId : error := errors.New "TargetId must be provided".

(** *** Test doubles for the transport *)

(** A client at address [a] that answers every request with [resp]. *)
Definition answering (a : N) (resp : http.Response) : http.Client :=
  {| http.addr := a; http.RoundTrip := fun _ => Ok resp |}.

Definition unknownTarget : http.Response :=
  {| http.StatusCode := 404;
     http.Body := json.Document (json.JObject
       [("result_code", json.JString "UnknownTarget");
        ("transaction_id", json.JString "0123abcd")]) |}.

Definition updated : http.Response :=
  {| http.StatusCode := 200;
     http.Body := json.Document (json.JObject
       [("result_code", json.JString "Success");
        ("transaction_id", json.JString "4567cdef")]) |}.

Definition monday : time.Time :=
  {| time.Year := 2006; time.Month := 1; time.Day := 2;
     time.Hour := 15; time.Minute := 4; time.Second := 5; time.Weekday := 1 |}.

Definition quietWorld (dc : http.Client) : World :=
  {| now := monday; DefaultClient := dc; wire := [] |}.

Definition keys (hc : option http.Client) : client :=
  {| cfg := {| ClientConfig.SecretKey := "secret"; ClientConfig.AccessKey := "access";
               ClientConfig.Client := hc |} |}.

(** An update request in which only [Name] is set. *)
Definition renameOnly (id name : string) : UpdateTargetRequest.t :=
  {| UpdateTargetRequest.TargetId := id;
     UpdateTargetRequest.Name := Some name;
     UpdateTargetRequest.Width := None; UpdateTargetRequest.Image := None;
     UpdateTargetRequest.Active := None; UpdateTargetRequest.Metadata := None |}.

(** The payload of an update that only renames: one member, [name]. *)
Definition nameOnlyPayload (name : string) : list byte :=
  bytes_of_string
    ("{" +:+ quote +:+ "name" +:+ quote +:+ ":" +:+ json.encodeString name +:+ "}").

(** An operation sent nothing, or one request through [hc], whose answer it
    decoded. *)
Definition throughOnly {R : Type} (decode : json.body -> result R) (hc : http.Client)
    (w : World) (run : exec (result R) * World) : Prop :=
  snd run = w \/ exists req, run = exchange decode hc req w.

(** *** Status codes *)

(** The answers of [hc] with their status codes mapped by [f]. *)
Definition restatus (f : Z -> Z) (hc : http.Client) : http.Client :=
  {| http.addr := http.addr hc;
     http.RoundTrip := fun req =>
       match http.RoundTrip hc req with
       | Err err => Err err
       | Ok resp => Ok {| http.StatusCode := f (http.StatusCode resp);
                          http.Body := http.Body resp |}
       end |}.

Definition restatusClient (f : Z -> Z) (c : client) : client :=
  {| cfg := {| ClientConfig.SecretKey := ClientConfig.SecretKey (cfg c);
               ClientConfig.AccessKey := ClientConfig.AccessKey (cfg c);
               ClientConfig.Client := option_map (restatus f) (ClientConfig.Client (cfg c)) |} |}.

Definition restatusWorld (f : Z -> Z) (w : World) : World :=
  {| now := now w; DefaultClient := restatus f (DefaultClient w); wire := wire w |}.

Definition serverFault : http.Response :=
  {| http.StatusCode := 503;
     http.Body := json.NotJSON (errorString "invalid character '<' looking for beginning of value") |}.

(** ** The waiter: the sequence of polls *)

(** The interval of the wait that follows a poll: 30 s after a rate-limit
    error, 5 s after any other answer. *)
Definition nextInterval (p : Poll) : N :=
  match answer p with
  | Err err => if quotaReached err then extendedInterval else defaultInterval
  | Ok _ => defaultInterval
  end.

(** Polls made one after the other from instant [prev] on: each starts
    after the previous one has ended and its own wait has elapsed, and ends
    no earlier than it starts. *)
Fixpoint spaced (prev : N) (ps : list Poll) : Prop :=
  match ps with
  | [] => True
  | p :: rest =>
      (prev + waited p <= startedAt p)%N
      /\ (startedAt p <= endedAt p)%N
      /\ spaced (endedAt p) rest
  end.

(** The instant the last poll ended, [prev] when there is none. *)
Fixpoint lastEnd (prev : N) (ps : list Poll) : N :=
  match ps with
  | [] => prev
  | p :: rest => lastEnd (endedAt p) rest
  end.

(** An answer after which the loop goes on: a status that is not terminal,
    or a rate-limit error. *)
Definition goesOn (r : result GetTargetResponse.t) : bool :=
  match r with
  | Ok output => negb (terminal (GetTargetResponse.Status output))
  | Err err => quotaReached err
  end.

(** A test double that gives the same answer to every call, after [d]. *)
Definition steady (d : N) (r : result GetTargetResponse.t) : Client unit :=
  {| Client_GetTarget := fun _ _ _ _ => (r, d, tt) |}.

(** The state an iteration leaves, whichever way it goes. *)
Definition leaves {S : Type} (sched : Scheduler) (ctx : context.Context)
    (cl : Client S) (target : string) (st st' : @State S) : Prop :=
  iteration sched ctx cl target st = Continue st'
  \/ exists err, iteration sched ctx cl target st = Stop err st'.

(** Calls in sequence at a state of a run entered at [t0]: the interval is
    at least the default one, the polls are spaced, the last one has ended
    by the instant of the state, each took at least the default interval of
    waiting, and each asks for the target. *)
Definition sequential_polls {S : Type} (target : string) (t0 : N) (st : @State S)
  : Prop :=
  (defaultInterval <= interval st)%N
  /\ spaced t0 (polls st)
  /\ (lastEnd t0 (polls st) <= clock st)%N
  /\ (t0 + defaultInterval * N.of_nat (length (polls st)) <= lastEnd t0 (polls st))%N
  /\ Forall (fun p => request p = {| GetTargetRequest.TargetId := target |}) (polls st).

(** ** The requests of the operations *)

(** A byte that stands for itself in the path of a URL: no control
    character, no ['#'], ['?'] or ['%']. *)
Definition pathSafe (c : ascii) : bool :=
  negb (url.isCTL c) && negb (Ascii.eqb c "#") && negb (Ascii.eqb c "?")
  && negb (Ascii.eqb c "%").

(** A byte that stands for itself in the query of a URL. *)
Definition querySafe (c : ascii) : bool :=
  negb (url.isCTL c) && negb (Ascii.eqb c "#").

(** The URL of the service with a path and a query. *)
Definition vwsURL (path query : string) : url.URL :=
  {| url.Scheme := "https"; url.Host := vuforiaUrl; url.Path := path;
     url.RawQuery := query; url.Fragment := "" |}.

(** The request of a method for a URL with a body, signed for [c] at the
    clock of [w]: no other header than Date, Content-Type and
    Authorization. *)
Definition signedRequest (c : client) (w : World) (method : string) (u : url.URL)
    (body : option (list byte)) : http.Request :=
  {| http.Method := method; http.URL := u;
     http.Header :=
       preparedHeader ∅ (time.Format (now w))
         (authorization (ClientConfig.AccessKey (cfg c))
            (signature (ClientConfig.SecretKey (cfg c))
               (canonicalString method (default [] body) "application/json"
                  (time.Format (now w)) (url.Path u))));
     http.ReqBody := body |}.

(** The text of a URL of the service: a path after the first ['/'] and,
    possibly, a query. *)
Definition vwsText (path : string) (query : option string) : string :=
  "https://" +:+ vuforiaUrl +:+ String "/" path
    +:+ match query with
        | None => ""
        | Some q => String "?" q
        end.

(** The error of [url.Parse] on a text with a control character. *)
Definition controlCharacterError (text : string) : error :=
  url.Error "parse" text (errorString "net/url: invalid control character in URL").

(** ** Payloads *)

(** One member of a JSON object: the quoted key, a colon, the value. *)
Definition memberText (key value : string) : string :=
  quote +:+ key +:+ quote +:+ ":" +:+ value.

(** The members that are present, in order. *)
Fixpoint present (ms : list (option string)) : list string :=
  match ms with
  | [] => []
  | Some m :: rest => m :: present rest
  | None :: rest => present rest
  end.

(** The text of an object with the given members. *)
Definition objectText (ms : list (option string)) : string :=
  "{" +:+ join "," (present ms) +:+ "}".

(** The literal of a finite float, nothing for another one. *)
Definition finiteText (f : float64) : option string :=
  match f with
  | Finite text => Some text
  | _ => None
  end.

(** The members of the payload of a creation: name, width and image
    always, the active flag and the metadata when they are set. *)
Definition postMembers (r : PostTargetRequest.t) (width : string) : list (option string) :=
  [Some (memberText "name" (json.encodeString (PostTargetRequest.Name r)));
   Some (memberText "width" width);
   Some (memberText "image" (json.encodeString (PostTargetRequest.Image r)));
   option_map (fun b => memberText "active_flag" (json.encodeBool b))
     (PostTargetRequest.Active r);
   option_map (fun m => memberText "application_metadata" (json.encodeString m))
     (PostTargetRequest.Metadata r)].

(** The members of the payload of an update: those of the fields that are
    set, and never the target id. *)
Definition updateMembers (r : UpdateTargetRequest.t) (width : option string)
  : list (option string) :=
  [option_map (fun n => memberText "name" (json.encodeString n))
     (UpdateTargetRequest.Name r);
   option_map (memberText "width") width;
   option_map (fun i => memberText "image" (json.encodeString i))
     (UpdateTargetRequest.Image r);
   option_map (fun b => memberText "active_flag" (json.encodeBool b))
     (UpdateTargetRequest.Active r);
   option_map (fun m => memberText "application_metadata" (json.encodeString m))
     (UpdateTargetRequest.Metadata r)].

(** ** Worlds *)

(** From [w] to [w'] at most one request was sent, and nothing else
    changed. *)
Definition atMostOneSent (w w' : World) : Prop :=
  now w' = now w
  /\ DefaultClient w' = DefaultClient w
  /\ (wire w' = wire w \/ exists sent, wire w' = wire w ++ [sent]).

(** A call that panics. *)
Definition panics {A : Type} (run : exec A) : Prop :=
  exists msg, run = Panic msg.

(** ** Errors *)

(** An error whose chain holds no [APIError]. *)
Definition plain (e : error) : Prop := errors.As e = None.

(** A client none of whose failures holds an [APIError]: neither the
    error of a round trip nor the error met on reading a body. *)
Definition plainAnswers (hc : http.Client) : Prop :=
  forall req : http.Request,
    match http.RoundTrip hc req with
    | Err e => plain e
    | Ok resp =>
        match http.Body resp with
        | json.NotJSON e => plain e
        | json.Document _ => True
        end
    end.

(** A store into a field that fails with plain errors only. *)
Definition plainSetter {R : Type} (set : json.setter R) : Prop :=
  forall (v : json.value) (r : R) (e : error), snd (set v r) = Some e -> plain e.

(** * Properties *)

(** ** Test vectors for the digest and encoding models (RFC 1321, RFC 3174,
    RFC 2202, RFC 4648) *)

Example md5_abc :
  hex (md5.sum (bytes_of_string "abc")) = "900150983cd24fb0d6963f7d28e17f72".
Proof. vm_compute. reflexivity. Qed.

Example md5_two_blocks :
  hex (md5.sum (bytes_of_string
    "12345678901234567890123456789012345678901234567890123456789012345678901234567890"))
  = "57edf4a22be3c955ac49da2e2107b67a".
Proof. vm_compute. reflexivity. Qed.

Example sha1_abc :
  hex (sha1.sum (bytes_of_string "abc"))
  = "a9993e364706816aba3e25717850c26c9cd0d89d".
Proof. vm_compute. reflexivity. Qed.

Example hmac_sha1_rfc2202_2 :
  hex (HMAC_SHA1 (bytes_of_string "Jefe")
         (bytes_of_string "what do ya want for nothing?"))
  = "effcdf6ae5eb2fa2d27416d5f184df9c259a7c79".
Proof. vm_compute. reflexivity. Qed.

Example hmac_sha1_rfc2202_6 :
  hex (HMAC_SHA1 (repeat "a"%byte 80)
         (bytes_of_string "Test Using Larger Than Block-Size Key - Hash Key First"))
  = "1c1ca7363cb2cced986bb909cab1957e653c073b".
Proof. vm_compute. reflexivity. Qed.

Example base64_padding :
  map (fun s => base64.EncodeToString (bytes_of_string s)) ["f"; "fo"; "foo"; "foob"]
  = ["Zg=="; "Zm8="; "Zm9v"; "Zm9vYg=="].
Proof. vm_compute. reflexivity. Qed.

(** ** Digests and the running hashes *)

Lemma sha1_sum_length (msg : list byte) : length (sha1.sum msg) = 20%nat.
Proof.
  unfold sha1.sum.
  destruct (fold_left sha1.block (blocks.of_message false msg) sha1.init).
  reflexivity.
Qed.

Lemma block_of_key_short (key : list byte) :
  (length key <= 64)%nat ->
  hmac.block_of_key 64 key = key ++ repeat x00 (64 - length key).
Proof.
  intros Hlen. unfold hmac.block_of_key.
  rewrite firstn_all2 by exact Hlen. reflexivity.
Qed.

(** Writing a message to a fresh HMAC and summing it is HMAC in closed
    form. *)
Lemma hmac_write_sum (key msg : list byte) :
  hmac.Sum (fst (hmac.Write (hmac.New sha1_New key) msg)) []
  = HMAC_SHA1 key msg.
Proof.
  unfold hmac.Sum, hmac.Write, hmac.New, HMAC_SHA1.
  cbn [hash.Write hash.Sum hash.Reset hash.BlockSize hash.digest hash.written
       sha1_New fst snd hmac.opad hmac.ipad hmac.outer hmac.inner app].
  destruct (64 <? length key)%nat eqn:Hlong.
  - rewrite block_of_key_short by (rewrite sha1_sum_length; lia).
    reflexivity.
  - apply Nat.ltb_ge in Hlong.
    rewrite block_of_key_short by exact Hlong.
    reflexivity.
Qed.

(** A running MD5 that was written [body], or nothing at all for a nil
    body, sums to the digest of the body. *)
Lemma md5_of_body (body : option (list byte)) :
  hash.Sum
    (fst match body with
         | Some b => hash.Write md5_New b
         | None => (md5_New, (0, None))
         end) []
  = md5.sum (default [] body).
Proof. destruct body; reflexivity. Qed.

Lemma append_nil_r (s : string) : s +:+ "" = s.
Proof.
  induction s as [|c s IH]; [reflexivity |].
  change (String c (s +:+ "") = String c s). now rewrite IH.
Qed.

(** The text [sign] writes to the MAC is the canonical string. *)
Lemma sign_format_canonical (method : string) (digest : list byte)
    (contentType date path : string) :
  fmt.Sprintf sign_format
    [fmt.Str method; fmt.Bytes digest; fmt.Str contentType; fmt.Str date;
     fmt.Str path]
  = join LF [method; hex digest; contentType; date; path].
Proof. cbn. rewrite append_nil_r. reflexivity. Qed.

(** Writing to a MAC never fails. *)
Lemma hmac_write_ok (m : hmac.HMAC) (p : list byte) :
  snd (snd (hmac.Write m p)) = None.
Proof. reflexivity. Qed.

(** [sign] never fails, and its result is the signature of the canonical
    string built from the request as it stands. *)
Lemma sign_eq (secretKey : string) (r : http.Request) (body : option (list byte)) :
  sign secretKey r body
  = Ok (signature secretKey
          (canonicalString (http.Method r) (default [] body)
             (http.Header_Get (http.Header r) "Content-Type")
             (http.Header_Get (http.Header r) "Date")
             (url.Path (http.URL r)))).
Proof.
  unfold sign, signature, canonicalString, Fprintf.
  rewrite <- (md5_of_body body).
  destruct body as [b|]; cbn [hash.Write fst snd];
    rewrite sign_format_canonical;
    match goal with
    | |- context [hmac.Write ?m ?p] =>
        pose proof (hmac_write_sum (bytes_of_string secretKey) p) as Hmac;
        pose proof (hmac_write_ok m p) as Herr;
        destruct (hmac.Write m p) as [mac [n err]]
    end;
    cbn [fst snd] in Hmac, Herr; subst err; rewrite Hmac; reflexivity.
Qed.

(** ** Headers *)

Lemma Header_Get_Set (h : gmap string (list string)) (key value : string) :
  http.Header_Get (http.Header_Set h key value) key = value.
Proof.
  unfold http.Header_Get, http.Header_Set.
  rewrite lookup_insert_eq. reflexivity.
Qed.

Lemma Header_Get_Set_other (h : gmap string (list string)) (key key' value : string) :
  http.CanonicalMIMEHeaderKey key' <> http.CanonicalMIMEHeaderKey key ->
  http.Header_Get (http.Header_Set h key' value) key = http.Header_Get h key.
Proof.
  intros Hne. unfold http.Header_Get, http.Header_Set.
  rewrite lookup_insert_ne by exact Hne. reflexivity.
Qed.

Lemma preparedHeader_values (h : gmap string (list string)) (date authorization : string) :
  let h' := preparedHeader h date authorization in
  http.Header_Get h' "Date" = date
  /\ http.Header_Get h' "Content-Type" = "application/json"
  /\ http.Header_Get h' "Authorization" = authorization.
Proof.
  unfold preparedHeader. repeat split.
  - rewrite !Header_Get_Set_other by (vm_compute; discriminate).
    apply Header_Get_Set.
  - rewrite Header_Get_Set_other by (vm_compute; discriminate).
    apply Header_Get_Set.
  - apply Header_Get_Set.
Qed.

(** What [prepare] computes, in closed form. *)
Lemma prepare_eq (secretKey accessKey : string) (req : http.Request)
    (body : option (list byte)) (w : World) :
  let date := time.Format (now w) in
  let sig := signature secretKey
               (canonicalString (http.Method req) (default [] body)
                  "application/json" date (url.Path (http.URL req))) in
  prepare secretKey accessKey req body w
  = ({| http.Method := http.Method req; http.URL := http.URL req;
        http.Header := preparedHeader (http.Header req) date
                         (authorization accessKey sig);
        http.ReqBody := http.ReqBody req |}, None).
Proof.
  cbn zeta. unfold prepare. rewrite sign_eq.
  unfold setHeader. cbn [http.Method http.URL http.Header http.ReqBody].
  rewrite Header_Get_Set.
  rewrite Header_Get_Set_other by (vm_compute; discriminate).
  rewrite Header_Get_Set.
  unfold preparedHeader, authorization.
  repeat f_equal. cbn. rewrite append_nil_r. reflexivity.
Qed.

(** C1.  For every method, path, Content-Type and Date header value and
    body, [sign] returns the padded standard base64 of the HMAC-SHA1, keyed
    with the secret key, of method, lowercase hexadecimal MD5 of the body,
    Content-Type value, Date value and URL path joined by single newlines.
    [prepare] never fails; it leaves method, URL and body as they were,
    sets Date to the formatted current time and Content-Type to
    application/json, and sets Authorization to [VWS <access-id>:<signature>],
    the signature being the one of the request with the very header values
    it has just set. *)
Theorem sign_prepare_signature :
  forall (secretKey accessKey : string) (req : http.Request)
         (body : option (list byte)) (w : World),
    sign secretKey req body
    = Ok (base64.EncodeToString
            (HMAC_SHA1 (bytes_of_string secretKey)
               (bytes_of_string
                  (join LF [http.Method req;
                            hex (md5.sum (default [] body));
                            http.Header_Get (http.Header req) "Content-Type";
                            http.Header_Get (http.Header req) "Date";
                            url.Path (http.URL req)]))))
    /\ (let req' := fst (prepare secretKey accessKey req body w) in
        snd (prepare secretKey accessKey req body w) = None
        /\ http.Method req' = http.Method req
        /\ http.URL req' = http.URL req
        /\ http.ReqBody req' = http.ReqBody req
        /\ http.Header_Get (http.Header req') "Date" = time.Format (now w)
        /\ http.Header_Get (http.Header req') "Content-Type" = "application/json"
        /\ http.Header_Get (http.Header req') "Authorization"
           = "VWS " +:+ accessKey +:+ ":"
               +:+ signature secretKey
                     (join LF [http.Method req';
                               hex (md5.sum (default [] body));
                               http.Header_Get (http.Header req') "Content-Type";
                               http.Header_Get (http.Header req') "Date";
                               url.Path (http.URL req')])
        /\ sign secretKey req' body
           = Ok (signature secretKey
                   (join LF [http.Method req';
                             hex (md5.sum (default [] body));
                             "application/json";
                             time.Format (now w);
                             url.Path (http.URL req')]))).
Proof.
  intros secretKey accessKey req body w.
  split; [apply sign_eq |].
  rewrite prepare_eq. cbn [fst snd].
  set (date := time.Format (now w)).
  set (sig := signature _ _).
  destruct (preparedHeader_values (http.Header req) date (authorization accessKey sig))
    as (Hdate & Hct & Hauth).
  cbn [http.Method http.URL http.Header http.ReqBody].
  rewrite sign_eq. cbn [http.Method http.URL http.Header http.ReqBody].
  rewrite Hdate, Hct, Hauth.
  repeat split.
Qed.

(** C8.  With a nil body the content hash of the canonical string is the
    lowercase hexadecimal MD5 digest of zero bytes: the hash step is
    neither skipped nor failing, and an empty non-nil body signs alike. *)
Theorem sign_nil_body_hashes_empty_input :
  forall (secretKey : string) (req : http.Request),
    hex (md5.sum []) = "d41d8cd98f00b204e9800998ecf8427e"
    /\ sign secretKey req None
       = Ok (signature secretKey
               (join LF [http.Method req;
                         "d41d8cd98f00b204e9800998ecf8427e";
                         http.Header_Get (http.Header req) "Content-Type";
                         http.Header_Get (http.Header req) "Date";
                         url.Path (http.URL req)]))
    /\ sign secretKey req None = sign secretKey req (Some []).
Proof.
  intros secretKey req.
  assert (Hempty : hex (md5.sum []) = "d41d8cd98f00b204e9800998ecf8427e")
    by (vm_compute; reflexivity).
  split; [exact Hempty |].
  split.
  - rewrite sign_eq. unfold canonicalString. cbn [default].
    rewrite Hempty. reflexivity.
  - rewrite !sign_eq. reflexivity.
Qed.

(** ** The waiter *)

Section WaiterFacts.

Context {S : Type}.
Variable sched : Scheduler.
Variable ctx : context.Context.
Variable cl : Client S.
Variable target : string.

Local Abbreviation State := (@State S).
Local Abbreviation iter := (iteration sched ctx cl target).
Local Abbreviation run := (loop sched ctx cl target).

Lemma select_timer (t interval t' : N) :
select sched ctx t interval = CaseTimer t' ->
t' = (t + interval + lag sched t)%N.
Proof.
unfold select. destruct (context.doneAt ctx) as [tc|].
- destruct (N.max tc t ?= t + interval + lag sched t)%N;
    [destruct (pickTimer sched t) | |]; congruence.
- congruence.
Qed.

Lemma select_done (t interval t' : N) :
select sched ctx t interval = CaseDone t' ->
context.Err ctx t' = Some (context.cause ctx).
Proof.
unfold select, context.Err. destruct (context.doneAt ctx) as [tc|]; [| congruence].
intros H.
assert (t' = N.max tc t) as ->.
{ destruct (N.max tc t ?= t + interval + lag sched t)%N;
    [destruct (pickTimer sched t) | |]; congruence. }
destruct (N.leb_spec tc (N.max tc t)); [reflexivity | lia].
Qed.

(** A context done strictly before the timer can fire wins the select. *)
Lemma select_done_first (t interval tc : N) :
context.doneAt ctx = Some tc ->
(0 < interval)%N -> (tc < t + interval)%N ->
select sched ctx t interval = CaseDone (N.max tc t).
Proof.
intros Hdone Hpos Hlt. unfold select. rewrite Hdone.
destruct (N.compare_spec (N.max tc t) (t + interval + lag sched t)) as [H|H|H];
  [lia | reflexivity | lia].
Qed.

Lemma select_never_done (t interval : N) :
context.doneAt ctx = None ->
select sched ctx t interval = CaseTimer (t + interval + lag sched t).
Proof. intros H. unfold select. rewrite H. reflexivity. Qed.

(** The iteration whose timer fires, by the answer of the call. *)
Lemma iteration_timer (st : State) (t d : N) (r : result GetTargetResponse.t) (impl' : S) :
select sched ctx (clock st) (interval st) = CaseTimer t ->
Client_GetTarget cl ctx {| GetTargetRequest.TargetId := target |} t (impl st)
= (r, d, impl') ->
iter st
= match r with
  | Err err =>
      if quotaReached err
      then Continue (afterPoll target st t d r impl' extendedInterval)
      else Stop (Some err) (afterPoll target st t d r impl' defaultInterval)
  | Ok output =>
      if terminal (GetTargetResponse.Status output)
      then Stop None (afterPoll target st t d r impl' defaultInterval)
      else Continue (afterPoll target st t d r impl' defaultInterval)
  end.
Proof.
intros Hsel Hcall. unfold iteration. rewrite Hsel, Hcall.
destruct r as [output|err]; [| reflexivity].
unfold terminal. cbn zeta.
destruct (_ || _); [reflexivity |].
destruct (String.eqb _ "processing"); reflexivity.
Qed.

Lemma iteration_done (st : State) (t : N) :
select sched ctx (clock st) (interval st) = CaseDone t ->
iter st
= Stop (Some (context.cause ctx))
    {| clock := t; interval := interval st; impl := impl st; polls := polls st |}.
Proof.
intros Hsel. unfold iteration. rewrite Hsel.
rewrite (select_done _ _ _ Hsel). reflexivity.
Qed.

Lemma terminal_iff (status : string) :
terminal status = true
<-> gostrings.ToLower status = "success" \/ gostrings.ToLower status = "failed".
Proof.
unfold terminal. rewrite orb_true_iff, !String.eqb_eq. tauto.
Qed.

Lemma quotaReached_iff (err : error) :
quotaReached err = true
<-> exists ae, errors.As err = Some ae
               /\ gostrings.EqualFold (ResultCode ae) "RequestQuotaReached" = true.
Proof.
unfold quotaReached. destruct (errors.As err) as [ae|].
- split; [intros H; exists ae; auto | intros (ae' & [= <-] & H); exact H].
- split; [discriminate | intros (ae' & [=] & _)].
Qed.

(** The two ways of an iteration. *)
Lemma iteration_cases (st : State) :
  (exists t,
      select sched ctx (clock st) (interval st) = CaseDone t
      /\ iter st
         = Stop (Some (context.cause ctx))
             {| clock := t; interval := interval st; impl := impl st;
                polls := polls st |})
  \/ (exists t d r impl',
        select sched ctx (clock st) (interval st) = CaseTimer t
        /\ Client_GetTarget cl ctx {| GetTargetRequest.TargetId := target |} t (impl st)
           = (r, d, impl')
        /\ iter st
           = match r with
             | Err err =>
                 if quotaReached err
                 then Continue (afterPoll target st t d r impl' extendedInterval)
                 else Stop (Some err) (afterPoll target st t d r impl' defaultInterval)
             | Ok output =>
                 if terminal (GetTargetResponse.Status output)
                 then Stop None (afterPoll target st t d r impl' defaultInterval)
                 else Continue (afterPoll target st t d r impl' defaultInterval)
             end).
Proof.
  destruct (select sched ctx (clock st) (interval st)) as [t|t] eqn:Hsel.
  - left. exists t. split; [reflexivity | exact (iteration_done st t Hsel)].
  - right.
    destruct (Client_GetTarget cl ctx {| GetTargetRequest.TargetId := target |} t (impl st))
      as [[r d] impl'] eqn:Hcall.
    exists t, d, r, impl'.
    split; [reflexivity |]. split; [exact Hcall |].
    exact (iteration_timer st t d r impl' Hsel Hcall).
Qed.

Lemma afterPoll_polledOnce (st : State) (t d : N) (r : result GetTargetResponse.t)
    (impl' : S) (i : N) :
  select sched ctx (clock st) (interval st) = CaseTimer t ->
  polledOnce st (afterPoll target st t d r impl' i).
Proof.
  intros Hsel. apply select_timer in Hsel.
  exists (pollOf target st t d r). split; [reflexivity |]. cbn. lia.
Qed.

(** An iteration that goes on has polled once; one that stops has polled
    once or not at all. *)
Lemma iteration_polls (st : State) :
  match iter st with
  | Continue st' => polledOnce st st'
  | Stop _ st' => polls st' = polls st \/ polledOnce st st'
  end.
Proof.
  destruct (iteration_cases st)
    as [(t & _ & ->) | (t & d & r & impl' & Hsel & _ & ->)];
    [left; reflexivity |].
  destruct r as [output|err];
    [destruct (terminal _) | destruct (quotaReached err)];
    try right; apply afterPoll_polledOnce; exact Hsel.
Qed.

(** No poll starts before the first timer could fire. *)
Lemma loop_polls_not_before (T : N) (fuel : nat) :
  forall st : State,
    (T <= clock st + interval st)%N ->
    Forall (fun p => (T <= startedAt p)%N) (polls st) ->
    Forall (fun p => (T <= startedAt p)%N) (polls (snd (run fuel st))).
Proof.
  induction fuel as [|fuel IH]; intros st Hclock Hpolls; [exact Hpolls |].
  cbn [loop].
  pose proof (iteration_polls st) as Hit.
  assert (Hext : forall st', polledOnce st st' ->
            Forall (fun p => (T <= startedAt p)%N) (polls st')).
  { intros st' (p & -> & _ & Hstart & _).
    apply Forall_app. split; [exact Hpolls |].
    constructor; [lia | constructor]. }
  destruct (iter st) as [st'|err st'].
  - apply IH; [| apply Hext; exact Hit].
    destruct Hit as (p & _ & _ & Hstart & Hend). lia.
  - cbn [snd]. destruct Hit as [-> | Hit]; [exact Hpolls | apply Hext; exact Hit].
Qed.

(** A timer that wins against a context that gets done fires no later than
    the context is done. *)
Lemma select_timer_not_after_done (t interval tc t' : N) :
  context.doneAt ctx = Some tc ->
  (0 < interval)%N ->
  select sched ctx t interval = CaseTimer t' ->
  (t' <= tc)%N.
Proof.
  intros Hdone Hpos. unfold select. rewrite Hdone.
  destruct (N.compare_spec (N.max tc t) (t + interval + lag sched t)) as [H|H|H];
    [destruct (pickTimer sched t) | |]; intros [= <-]; lia.
Qed.

(** No poll starts after the context is done. *)
Lemma loop_polls_not_after (tc : N) (fuel : nat) :
  context.doneAt ctx = Some tc ->
  forall st : State,
    (0 < interval st)%N ->
    Forall (fun p => (startedAt p <= tc)%N) (polls st) ->
    Forall (fun p => (startedAt p <= tc)%N) (polls (snd (run fuel st))).
Proof.
  intros Hdone.
  induction fuel as [|fuel IH]; intros st Hpos Hpolls; [exact Hpolls |].
  cbn [loop].
  destruct (iteration_cases st)
    as [(t & _ & ->) | (t & d & r & impl' & Hsel & _ & ->)];
    [exact Hpolls |].
  pose proof (select_timer_not_after_done _ _ tc t Hdone Hpos Hsel) as Hle.
  assert (Hext : forall i,
            Forall (fun p => (startedAt p <= tc)%N)
                   (polls (afterPoll target st t d r impl' i))).
  { intros i. cbn [afterPoll polls]. apply Forall_app. split; [exact Hpolls |].
    constructor; [exact Hle | constructor]. }
  destruct r as [output|err];
    [destruct (terminal _) | destruct (quotaReached err)];
    try (cbn [snd]; apply Hext);
    (apply IH; [reflexivity | apply Hext]).
Qed.

(** A run that returns nil ended on a poll answered with a terminal
    status. *)
Lemma loop_nil_terminal (fuel : nat) :
  forall st st' : State,
    run fuel st = (Returned None, st') ->
    exists ps p output,
      polls st' = ps ++ [p]
      /\ answer p = Ok output
      /\ terminal (GetTargetResponse.Status output) = true.
Proof.
  induction fuel as [|fuel IH]; intros st st' Hrun; [discriminate |].
  cbn [loop] in Hrun.
  destruct (iteration_cases st)
    as [(t & _ & Hit) | (t & d & r & impl' & _ & _ & Hit)];
    rewrite Hit in Hrun; [discriminate |].
  destruct r as [output|err].
  - destruct (terminal _) eqn:Hterm; [| exact (IH _ _ Hrun)].
    injection Hrun as <-. cbn [afterPoll polls].
    eexists _, _, output. split; [reflexivity |]. split; [reflexivity | exact Hterm].
  - destruct (quotaReached err); [exact (IH _ _ Hrun) | discriminate].
Qed.

End WaiterFacts.

(** C3.  When the timer fires and the Get-target call fails: if the error
    carries an [APIError] whose result code equals "RequestQuotaReached"
    up to case, the loop goes on with a 30 second interval (the next wait
    lasts at least that long and the next poll is recorded with it);
    with any other error the function returns that error at once, whatever
    the number of iterations it would be allowed, the failed call being its
    last poll. *)
Theorem quota_error_backs_off_other_errors_return :
  forall (S : Type) (sched : Scheduler) (ctx : context.Context) (cl : Client S)
         (target : string) (st : @State S) (t d : N) (err : error) (impl' : S),
    select sched ctx (clock st) (interval st) = CaseTimer t ->
    Client_GetTarget cl ctx {| GetTargetRequest.TargetId := target |} t (impl st)
    = (Err err, d, impl') ->
    let polled := polls st ++ [pollOf target st t d (Err err)] in
    ((exists ae, errors.As err = Some ae
                 /\ gostrings.EqualFold (ResultCode ae) "RequestQuotaReached" = true) ->
     let st' := {| clock := (t + d)%N; interval := (30 * time.Second_ns)%N;
                   impl := impl'; polls := polled |} in
     iteration sched ctx cl target st = Continue st'
     /\ (forall fuel, loop sched ctx cl target (Datatypes.S fuel) st
                      = loop sched ctx cl target fuel st')
     /\ (forall t2, select sched ctx (clock st') (interval st') = CaseTimer t2 ->
                    (clock st' + 30 * time.Second_ns <= t2)%N)
     /\ match iteration sched ctx cl target st' with
        | Continue st2 | Stop _ st2 =>
            polls st2 = polled
            \/ exists p, polls st2 = polled ++ [p]
                         /\ waited p = (30 * time.Second_ns)%N
        end)
    /\ (~ (exists ae, errors.As err = Some ae
                      /\ gostrings.EqualFold (ResultCode ae) "RequestQuotaReached" = true) ->
        forall fuel,
          loop sched ctx cl target (Datatypes.S fuel) st
          = (Returned (Some err),
             {| clock := (t + d)%N; interval := defaultInterval;
                impl := impl'; polls := polled |})).
Proof.
  intros S sched ctx cl target st t d err impl' Hsel Hcall polled.
  pose proof (iteration_timer sched ctx cl target st t d (Err err) impl' Hsel Hcall) as Hit.
  cbn beta iota in Hit.
  split.
  - intros Hquota st'. apply quotaReached_iff in Hquota. rewrite Hquota in Hit.
    change (afterPoll target st t d (Err err) impl' extendedInterval) with st' in Hit.
    split; [exact Hit |].
    split; [intros fuel; cbn [loop]; rewrite Hit; reflexivity |].
    split.
    + intros t2 Hsel2. apply select_timer in Hsel2.
      subst st'. cbn [clock interval] in *. lia.
    + pose proof (iteration_polls sched ctx cl target st') as Hp.
      destruct (iteration sched ctx cl target st') as [st2|e st2].
      * right. destruct Hp as (p & Hp & Hw & _). exists p. split; assumption.
      * destruct Hp as [Hp | (p & Hp & Hw & _)]; [left; exact Hp |].
        right. exists p. split; assumption.
  - intros Hother fuel.
    destruct (quotaReached err) eqn:Hq.
    + exfalso. apply Hother. apply quotaReached_iff. exact Hq.
    + cbn [loop]. rewrite Hit. reflexivity.
Qed.

(** The hypotheses of C3 hold for the test double answering with the
    rate-limit error. *)
Lemma quota_error_backs_off_witness :
  iteration punctual context.Background scripted "id"
    {| clock := 0%N; interval := defaultInterval;
       impl := [(1%N, Err quotaError)]; polls := [] |}
  = Continue
      {| clock := 5000000001%N; interval := 30000000000%N; impl := [];
         polls := [ {| waited := 5000000000%N; startedAt := 5000000000%N;
                       endedAt := 5000000001%N;
                       request := {| GetTargetRequest.TargetId := "id" |};
                       answer := Err quotaError |} ] |}.
Proof.
  refine (proj1 (proj1 (quota_error_backs_off_other_errors_return
            _ punctual context.Background scripted "id"
            {| clock := 0%N; interval := defaultInterval;
               impl := [(1%N, Err quotaError)]; polls := [] |}
            5000000000%N 1%N quotaError [] eq_refl eq_refl) _)).
  exists {| ResultCode := "RequestQuotaReached"; TransactionId := "tx" |}.
  split; reflexivity.
Defined.

(** The script of the specification runs to a nil return in three polls,
    each after the default interval. *)
Lemma processing_twice_then_success_run (sched : Scheduler) (ctx : context.Context)
    (target : string) (fuel : nat) (t0 d1 d2 d3 : N) :
  context.doneAt ctx = None ->
  let '(r, st) :=
    WaitUntilProcessed sched ctx scripted target (3 + fuel) t0
      (processingTwiceThenSuccess d1 d2 d3) in
  r = Returned None
  /\ map waited (polls st) = [defaultInterval; defaultInterval; defaultInterval]
  /\ map answer (polls st)
     = [withStatus "processing"; withStatus "processing"; withStatus "success"].
Proof.
  intros Hctx. unfold WaitUntilProcessed, processingTwiceThenSuccess.
  cbn [Nat.add loop].
  erewrite iteration_timer;
    [| apply select_never_done; exact Hctx | reflexivity].
  cbn [withStatus GetTargetResponse.Status].
  change (terminal "processing") with false. cbn iota.
  erewrite iteration_timer;
    [| apply select_never_done; exact Hctx | reflexivity].
  cbn [withStatus GetTargetResponse.Status].
  change (terminal "processing") with false. cbn iota.
  erewrite iteration_timer;
    [| apply select_never_done; exact Hctx | reflexivity].
  cbn [withStatus GetTargetResponse.Status].
  change (terminal "success") with true. cbn iota.
  repeat split.
Qed.

(** C4.  A poll answered with a status that lowers to "success" or
    "failed" makes the function return nil at once; any other status,
    "processing" included, makes the loop go on with the 5 second interval;
    a run returns nil only on such a terminal answer; and on the answers
    processing, processing, success the function returns nil after exactly
    three polls, each preceded by a wait of the default interval. *)
Theorem nil_exactly_on_terminal_status :
  forall (S : Type) (sched : Scheduler) (ctx : context.Context) (cl : Client S)
         (target : string),
    (forall (st : @State S) (t d : N) (output : GetTargetResponse.t) (impl' : S),
       select sched ctx (clock st) (interval st) = CaseTimer t ->
       Client_GetTarget cl ctx {| GetTargetRequest.TargetId := target |} t (impl st)
       = (Ok output, d, impl') ->
       let st' := {| clock := (t + d)%N; interval := (5 * time.Second_ns)%N;
                     impl := impl';
                     polls := polls st ++ [pollOf target st t d (Ok output)] |} in
       (gostrings.ToLower (GetTargetResponse.Status output) = "success"
        \/ gostrings.ToLower (GetTargetResponse.Status output) = "failed" ->
        forall fuel,
          loop sched ctx cl target (Datatypes.S fuel) st = (Returned None, st'))
       /\ (~ (gostrings.ToLower (GetTargetResponse.Status output) = "success"
              \/ gostrings.ToLower (GetTargetResponse.Status output) = "failed") ->
           iteration sched ctx cl target st = Continue st'))
    /\ (forall (fuel : nat) (t0 : N) (s0 : S) (st' : @State S),
          WaitUntilProcessed sched ctx cl target fuel t0 s0 = (Returned None, st') ->
          exists ps p output,
            polls st' = ps ++ [p]
            /\ answer p = Ok output
            /\ (gostrings.ToLower (GetTargetResponse.Status output) = "success"
                \/ gostrings.ToLower (GetTargetResponse.Status output) = "failed"))
    /\ (forall (fuel : nat) (t0 d1 d2 d3 : N),
          context.doneAt ctx = None ->
          let '(r, st) :=
            WaitUntilProcessed sched ctx scripted target (3 + fuel) t0
              (processingTwiceThenSuccess d1 d2 d3) in
          r = Returned None
          /\ map waited (polls st)
             = [(5 * time.Second_ns)%N; (5 * time.Second_ns)%N; (5 * time.Second_ns)%N]
          /\ map answer (polls st)
             = [withStatus "processing"; withStatus "processing";
                withStatus "success"]).
Proof.
  intros S sched ctx cl target. split; [| split].
  - intros st t d output impl' Hsel Hcall st'.
    pose proof (iteration_timer sched ctx cl target st t d (Ok output) impl' Hsel Hcall) as Hit.
    cbn beta iota in Hit.
    change (afterPoll target st t d (Ok output) impl' defaultInterval) with st' in Hit.
    split.
    + intros Hterm fuel. apply terminal_iff in Hterm.
      cbn [loop]. rewrite Hit, Hterm. reflexivity.
    + intros Hnot.
      destruct (terminal (GetTargetResponse.Status output)) eqn:Hterm.
      * exfalso. apply Hnot. apply terminal_iff. exact Hterm.
      * exact Hit.
  - intros fuel t0 s0 st' Hrun.
    destruct (loop_nil_terminal sched ctx cl target fuel _ _ Hrun)
      as (ps & p & output & Hps & Hans & Hterm).
    exists ps, p, output. rewrite <- terminal_iff. auto.
  - intros fuel t0 d1 d2 d3 Hctx.
    exact (processing_twice_then_success_run sched ctx target fuel t0 d1 d2 d3 Hctx).
Qed.

(** The rate-limit script of the specification: the wait after the
    rate-limit answer lasts 30 s, the others 5 s, and the run ends on nil. *)
Example quota_then_processing_then_success :
  let '(r, st) :=
    WaitUntilProcessed punctual context.Background scripted "id" 3 0%N
      [(1%N, Err quotaError); (1%N, withStatus "processing");
       (1%N, withStatus "success")] in
  r = Returned None
  /\ map waited (polls st) = [5000000000%N; 30000000000%N; 5000000000%N].
Proof. vm_compute. split; reflexivity. Qed.

(** The script of the specification, run with timers on time from instant
    zero, each call taking one nanosecond. *)
Lemma nil_exactly_on_terminal_status_witness :
  let '(r, st) :=
    WaitUntilProcessed punctual context.Background scripted "id" 3 0%N
      (processingTwiceThenSuccess 1 1 1) in
  r = Returned None
  /\ map waited (polls st) = [5000000000%N; 5000000000%N; 5000000000%N]
  /\ map answer (polls st)
     = [withStatus "processing"; withStatus "processing"; withStatus "success"].
Proof.
  exact (proj2 (proj2 (nil_exactly_on_terminal_status
           (list (N * result GetTargetResponse.t)) punctual context.Background
           scripted "id")) 0%nat 0%N 1%N 1%N 1%N eq_refl).
Defined.

(** C5 as stated does not hold: a cancellation that fires while a
    Get-target call is in flight goes unnoticed when that call answers with
    a terminal status.  The context is done at 5.5 s; the only poll starts
    at 5 s and ends at 6 s with "success"; the function returns nil, not
    the context's error. *)
Lemma cancel_during_poll_returns_nil :
  let ctx := {| context.doneAt := Some 5500000000%N;
                context.cause := context.Canceled |} in
  let run := WaitUntilProcessed punctual ctx scripted "id" 1 0%N
               [(1000000000%N, withStatus "success")] in
  fst run = Returned None
  /\ fst run <> Returned (Some (context.cause ctx))
  /\ map (fun p => (startedAt p, endedAt p)) (polls (snd run))
     = [(5000000000%N, 6000000000%N)]
  /\ context.Err ctx 6000000000%N = Some context.Canceled.
Proof. vm_compute. repeat split; discriminate. Qed.

(** A context done on entry stops the function before its first poll. *)
Lemma cancel_while_waiting_entry {S : Type} (sched : Scheduler) (ctx : context.Context)
    (cl : Client S) (target : string) (t0 : N) (s0 : S) (tc : N) (fuel : nat) :
  context.doneAt ctx = Some tc ->
  (tc <= t0)%N ->
  loop sched ctx cl target (Datatypes.S fuel)
    {| clock := t0; interval := defaultInterval; impl := s0; polls := [] |}
  = (Returned (Some (context.cause ctx)),
     {| clock := t0; interval := defaultInterval; impl := s0; polls := [] |}).
Proof.
  intros Hdone Hle.
  assert (Hsel : select sched ctx t0 defaultInterval = CaseDone t0).
  { rewrite (select_done_first sched ctx t0 defaultInterval tc Hdone).
    - f_equal. lia.
    - reflexivity.
    - unfold defaultInterval, time.Second_ns. lia. }
  cbn [loop].
  rewrite (iteration_done sched ctx cl target
             {| clock := t0; interval := defaultInterval; impl := s0; polls := [] |}
             t0 Hsel).
  reflexivity.
Qed.

(** C5, amended.  At any wait of the loop, a context that is done strictly
    before the timer of that wait can fire makes the function return the
    context's error at that instant (at once when it was done already),
    without any further Get-target call; and in no run does a Get-target
    call start after the instant the context is done. *)
Theorem cancel_while_waiting_returns_ctx_error :
  forall (S : Type) (sched : Scheduler) (ctx : context.Context) (cl : Client S)
         (target : string) (tc : N),
    context.doneAt ctx = Some tc ->
    (forall (st : @State S) (fuel : nat),
        (0 < interval st)%N ->
        (tc < clock st + interval st)%N ->
        loop sched ctx cl target (Datatypes.S fuel) st
        = (Returned (Some (context.cause ctx)),
           {| clock := N.max tc (clock st); interval := interval st;
              impl := impl st; polls := polls st |}))
    /\ (forall (fuel : nat) (t0 : N) (s0 : S),
          Forall (fun p => (startedAt p <= tc)%N)
                 (polls (snd (WaitUntilProcessed sched ctx cl target fuel t0 s0)))).
Proof.
  intros S sched ctx cl target tc Hdone. split.
  - intros st fuel Hpos Hlt.
    pose proof (select_done_first sched ctx (clock st) (interval st) tc Hdone Hpos Hlt)
      as Hsel.
    cbn [loop]. rewrite (iteration_done sched ctx cl target st _ Hsel).
    reflexivity.
  - intros fuel t0 s0. unfold WaitUntilProcessed.
    apply (loop_polls_not_after sched ctx cl target tc fuel Hdone);
      [reflexivity | constructor].
Qed.

(** A context cancelled two seconds into the first wait. *)
Lemma cancel_while_waiting_witness :
  loop punctual
    {| context.doneAt := Some 2000000000%N; context.cause := context.Canceled |}
    scripted "id" 1
    {| clock := 0%N; interval := defaultInterval;
       impl := [(1%N, withStatus "success")]; polls := [] |}
  = (Returned (Some context.Canceled),
     {| clock := 2000000000%N; interval := defaultInterval;
        impl := [(1%N, withStatus "success")]; polls := [] |}).
Proof.
  exact (proj1 (cancel_while_waiting_returns_ctx_error
           _ punctual
           {| context.doneAt := Some 2000000000%N; context.cause := context.Canceled |}
           scripted "id" 2000000000%N eq_refl)
           {| clock := 0%N; interval := defaultInterval;
              impl := [(1%N, withStatus "success")]; polls := [] |}
           0%nat eq_refl eq_refl).
Defined.

(** C10.  No Get-target call starts before one full default interval
    (5 s) has elapsed since the function was entered, however long it
    runs; and a context already done on entry makes it return the
    context's error without a single poll. *)
Theorem no_poll_before_default_interval :
  forall (S : Type) (sched : Scheduler) (ctx : context.Context) (cl : Client S)
         (target : string) (fuel : nat) (t0 : N) (s0 : S),
    Forall (fun p => (t0 + 5 * time.Second_ns <= startedAt p)%N)
           (polls (snd (WaitUntilProcessed sched ctx cl target fuel t0 s0)))
    /\ (forall tc, context.doneAt ctx = Some tc -> (tc <= t0)%N ->
          WaitUntilProcessed sched ctx cl target (Datatypes.S fuel) t0 s0
          = (Returned (Some (context.cause ctx)),
             {| clock := t0; interval := defaultInterval; impl := s0; polls := [] |})).
Proof.
  intros S sched ctx cl target fuel t0 s0. split.
  - unfold WaitUntilProcessed.
    apply loop_polls_not_before; cbn [clock interval polls].
    + unfold defaultInterval. lia.
    + constructor.
  - intros tc Hdone Hle. unfold WaitUntilProcessed.
    exact (cancel_while_waiting_entry sched ctx cl target t0 s0 tc fuel Hdone Hle).
Qed.

(** A context cancelled before the function is entered. *)
Lemma no_poll_before_default_interval_witness :
  WaitUntilProcessed punctual
    {| context.doneAt := Some 3%N; context.cause := context.Canceled |}
    scripted "id" 1 7%N [(1%N, withStatus "success")]
  = (Returned (Some context.Canceled),
     {| clock := 7%N; interval := defaultInterval;
        impl := [(1%N, withStatus "success")]; polls := [] |}).
Proof.
  refine (proj2 (no_poll_before_default_interval
            _ punctual
            {| context.doneAt := Some 3%N; context.cause := context.Canceled |}
            scripted "id" 0%nat 7%N [(1%N, withStatus "success")])
            3%N eq_refl _).
  vm_compute. discriminate.
Defined.

(** ** The operations *)

(** [prepared] keeps the body of the request. *)
Lemma prepared_body (c : client) (req0 : http.Request) (body : option (list byte))
    (w : World) :
  http.ReqBody (prepared c req0 body w) = http.ReqBody req0.
Proof. unfold prepared. rewrite prepare_eq. reflexivity. Qed.

Lemma NewRequest_body (method url : string) (body : option (list byte))
    (req0 : http.Request) :
  http.NewRequest method url body = Ok req0 -> http.ReqBody req0 = body.
Proof.
  unfold http.NewRequest.
  destruct (negb _); [discriminate |].
  destruct (url.Parse url); [| discriminate].
  intros [= <-]. reflexivity.
Qed.

Lemma cfgDo_exchange {R : Type} (decode : json.body -> result R) (c : client)
    (req : http.Request) (w : World) :
  match cfgDo c req w with
  | (Panic msg, w) => (Panic msg, w)
  | (Return (Err err), w) => (Return (Err err), w)
  | (Return (Ok resp), w) => (Return (decode (http.Body resp)), w)
  end
  = viaConfigured decode c req w.
Proof.
  unfold cfgDo, viaConfigured, exchange, Do.
  destruct (ClientConfig.Client (cfg c)) as [hc|]; [| reflexivity].
  destruct (http.RoundTrip hc req); reflexivity.
Qed.

Lemma Do_exchange {R : Type} (decode : json.body -> result R) (hc : http.Client)
    (req : http.Request) (w : World) :
  match Do hc req w with
  | (Err err, w) => (Return (Err err), w)
  | (Ok resp, w) => (Return (decode (http.Body resp)), w)
  end
  = exchange decode hc req w.
Proof. unfold exchange, Do. destruct (http.RoundTrip hc req); reflexivity. Qed.

(** [prepare] does not fail, so its error branch is dead in every
    operation. *)
Lemma after_prepare {A : Type} (c : client) (req0 : http.Request)
    (body : option (list byte)) (w : World) (failed : error -> A)
    (go : http.Request -> A) :
  match prepare (ClientConfig.SecretKey (cfg c)) (ClientConfig.AccessKey (cfg c))
          req0 body w with
  | (_, Some err) => failed err
  | (req, None) => go req
  end
  = go (prepared c req0 body w).
Proof. unfold prepared. rewrite prepare_eq. reflexivity. Qed.

Lemma PostTarget_eq (c : client) (input : PostTargetRequest.t) (w : World) :
  PostTarget c (Some input) w
  = match PostTargetRequest.Marshal input with
    | Err err => (Return (Err err), w)
    | Ok body =>
        match http.NewRequest http.MethodPost targetsURL (Some body) with
        | Err err => (Return (Err err), w)
        | Ok req0 =>
            exchange PostTargetResponse.Decode (DefaultClient w)
              (prepared c req0 (Some body) w) w
        end
    end.
Proof.
  unfold PostTarget, targetsURL.
  destruct (PostTargetRequest.Marshal input) as [body|]; [| reflexivity].
  destruct (http.NewRequest _ _ _) as [req0|]; [| reflexivity].
  rewrite after_prepare. apply Do_exchange.
Qed.

Lemma UpdateTarget_eq (c : client) (input : UpdateTargetRequest.t) (w : World) :
  UpdateTarget c (Some input) w
  = if String.eqb (UpdateTargetRequest.TargetId input) "" then
      (Return (Err missingTargetId), w)
    else
      match UpdateTargetRequest.Marshal input with
      | Err err => (Return (Err err), w)
      | Ok body =>
          match http.NewRequest http.MethodPut
                  (targetURL (UpdateTargetRequest.TargetId input)) (Some body) with
          | Err err => (Return (Err err), w)
          | Ok req0 =>
              exchange UpdateTargetResponse.Decode (DefaultClient w)
                (prepared c req0 (Some body) w) w
          end
      end.
Proof.
  unfold UpdateTarget, targetURL.
  destruct (String.eqb _ _); [reflexivity |].
  destruct (UpdateTargetRequest.Marshal input) as [body|]; [| reflexivity].
  destruct (http.NewRequest _ _ _) as [req0|]; [| reflexivity].
  rewrite after_prepare. apply Do_exchange.
Qed.

Lemma GetTarget_eq (c : client) (input : GetTargetRequest.t) (w : World) :
  GetTarget c (Some input) w
  = if String.eqb (GetTargetRequest.TargetId input) "" then
      (Return (Err missingTargetId), w)
    else
      match http.NewRequest http.MethodGet
              (targetURL (GetTargetRequest.TargetId input)) None with
      | Err err => (Return (Err err), w)
      | Ok req0 =>
          viaConfigured GetTargetResponse.Decode c (prepared c req0 None w) w
      end.
Proof.
  unfold GetTarget, targetURL.
  destruct (String.eqb _ _); [reflexivity |].
  destruct (http.NewRequest _ _ _) as [req0|]; [| reflexivity].
  rewrite after_prepare. apply cfgDo_exchange.
Qed.

Lemma DeleteTarget_eq (c : client) (input : DeleteTargetRequest.t) (w : World) :
  DeleteTarget c (Some input) w
  = if String.eqb (DeleteTargetRequest.TargetId input) "" then
      (Return (Err missingTargetId), w)
    else
      match http.NewRequest http.MethodDelete
              (targetURL (DeleteTargetRequest.TargetId input)) None with
      | Err err => (Return (Err err), w)
      | Ok req0 =>
          viaConfigured DeleteTargetResponse.Decode c (prepared c req0 None w) w
      end.
Proof.
  unfold DeleteTarget, targetURL.
  destruct (String.eqb _ _); [reflexivity |].
  destruct (http.NewRequest _ _ _) as [req0|]; [| reflexivity].
  rewrite after_prepare. apply cfgDo_exchange.
Qed.

Lemma TargetSummary_eq (c : client) (input : TargetSummaryRequest.t) (w : World) :
  TargetSummary c (Some input) w
  = if String.eqb (TargetSummaryRequest.TargetId input) "" then
      (Return (Err missingTargetId), w)
    else
      match http.NewRequest http.MethodGet
              (targetSummaryURL (TargetSummaryRequest.TargetId input)) None with
      | Err err => (Return (Err err), w)
      | Ok req0 =>
          viaConfigured TargetSummaryResponse.Decode c (prepared c req0 None w) w
      end.
Proof.
  unfold TargetSummary, targetSummaryURL.
  destruct (String.eqb _ _); [reflexivity |].
  destruct (http.NewRequest _ _ _) as [req0|]; [| reflexivity].
  rewrite after_prepare. apply cfgDo_exchange.
Qed.

Lemma DatabaseSummary_eq (c : client) (w : World) :
  DatabaseSummary c w
  = match http.NewRequest http.MethodGet summaryURL None with
    | Err err => (Return (Err err), w)
    | Ok req0 =>
        viaConfigured DatabaseSummaryResponse.Decode c (prepared c req0 None w) w
    end.
Proof.
  unfold DatabaseSummary, summaryURL.
  destruct (http.NewRequest _ _ _) as [req0|]; [| reflexivity].
  rewrite after_prepare. apply cfgDo_exchange.
Qed.

(** C6.  Called with an empty target id, [GetTarget], [UpdateTarget],
    [DeleteTarget] and [TargetSummary] return the local error "TargetId
    must be provided" and leave the world as it was: no request is built,
    none is sent through any client, and the answer does not depend on the
    client.  The error carries no [APIError], the form of the errors the
    server reports. *)
Theorem empty_target_id_is_rejected_locally :
  forall (c : client) (w : World),
    (forall input, GetTargetRequest.TargetId input = "" ->
       GetTarget c (Some input) w
       = (Return (Err (errors.New "TargetId must be provided")), w))
    /\ (forall input, UpdateTargetRequest.TargetId input = "" ->
          UpdateTarget c (Some input) w
          = (Return (Err (errors.New "TargetId must be provided")), w))
    /\ (forall input, DeleteTargetRequest.TargetId input = "" ->
          DeleteTarget c (Some input) w
          = (Return (Err (errors.New "TargetId must be provided")), w))
    /\ (forall input, TargetSummaryRequest.TargetId input = "" ->
          TargetSummary c (Some input) w
          = (Return (Err (errors.New "TargetId must be provided")), w))
    /\ errors.As (errors.New "TargetId must be provided") = None.
Proof.
  intros c w.
  split; [| split; [| split; [| split; [| reflexivity]]]];
    intros input Hid.
  - rewrite GetTarget_eq, Hid. reflexivity.
  - rewrite UpdateTarget_eq, Hid. reflexivity.
  - rewrite DeleteTarget_eq, Hid. reflexivity.
  - rewrite TargetSummary_eq, Hid. reflexivity.
Qed.

(** An empty id handed to [UpdateTarget]. *)
Lemma empty_target_id_witness :
  UpdateTarget (keys None) (Some (renameOnly "" "poster"))
    (quietWorld (answering 1 updated))
  = (Return (Err (errors.New "TargetId must be provided")),
     quietWorld (answering 1 updated)).
Proof.
  exact (proj1 (proj2 (empty_target_id_is_rejected_locally
           (keys None) (quietWorld (answering 1 updated))))
           (renameOnly "" "poster") eq_refl).
Defined.

Example nameOnlyPayload_poster :
  string_of_bytes (nameOnlyPayload "poster")
  = "{" +:+ quote +:+ "name" +:+ quote +:+ ":" +:+ quote +:+ "poster" +:+ quote +:+ "}".
Proof. vm_compute. reflexivity. Qed.

Lemma Marshal_renameOnly (id name : string) :
  UpdateTargetRequest.Marshal (renameOnly id name) = Ok (nameOnlyPayload name).
Proof.
  unfold UpdateTargetRequest.Marshal, renameOnly, nameOnlyPayload, json.encodeStruct.
  cbn. rewrite append_nil_r. reflexivity.
Qed.

(** C7.  An update request in which only [Name] is set is serialized to
    the object with the single member [name]: no width, image, active_flag
    or application_metadata member, neither absent-as-null nor otherwise,
    and no target id.  Whatever request [UpdateTarget] sends for it carries
    exactly that payload, and it does send one when the id is not empty and
    makes a well-formed URL. *)
Theorem rename_only_update_sends_name_only :
  forall (id name : string),
    UpdateTargetRequest.Marshal (renameOnly id name)
    = Ok (bytes_of_string
            ("{" +:+ quote +:+ "name" +:+ quote +:+ ":"
               +:+ json.encodeString name +:+ "}"))
    /\ forall (c : client) (w : World),
         let w' := snd (UpdateTarget c (Some (renameOnly id name)) w) in
         (wire w' = wire w
          \/ exists req,
               wire w' = wire w ++ [(http.addr (DefaultClient w), req)]
               /\ http.ReqBody req = Some (nameOnlyPayload name))
         /\ (id <> "" ->
             forall req0,
               http.NewRequest http.MethodPut (targetURL id)
                 (Some (nameOnlyPayload name)) = Ok req0 ->
               exists req,
                 wire w' = wire w ++ [(http.addr (DefaultClient w), req)]
                 /\ http.ReqBody req = Some (nameOnlyPayload name)).
Proof.
  intros id name. split; [apply Marshal_renameOnly |].
  intros c w w'. subst w'.
  rewrite UpdateTarget_eq, Marshal_renameOnly.
  change (UpdateTargetRequest.TargetId (renameOnly id name)) with id.
  assert (Hsent : forall req0,
            http.NewRequest http.MethodPut (targetURL id)
              (Some (nameOnlyPayload name)) = Ok req0 ->
            exists req,
              wire (snd (exchange UpdateTargetResponse.Decode (DefaultClient w)
                           (prepared c req0 (Some (nameOnlyPayload name)) w) w))
              = wire w ++ [(http.addr (DefaultClient w), req)]
              /\ http.ReqBody req = Some (nameOnlyPayload name)).
  { intros req0 Hreq. eexists. split; [reflexivity |].
    rewrite prepared_body. exact (NewRequest_body _ _ _ _ Hreq). }
  split.
  - destruct (String.eqb id ""); [left; reflexivity |].
    destruct (http.NewRequest _ _ _) as [req0|err] eqn:Hreq; [| left; reflexivity].
    right. exact (Hsent req0 eq_refl).
  - intros Hid req0 Hreq.
    apply String.eqb_neq in Hid. rewrite Hid, Hreq.
    exact (Hsent req0 Hreq).
Qed.

(** Renaming the target "5e3ba3bc" to "poster". *)
Lemma rename_only_update_witness :
  exists req,
    wire (snd (UpdateTarget (keys None) (Some (renameOnly "5e3ba3bc" "poster"))
                 (quietWorld (answering 1 updated))))
    = [(1%N, req)]
    /\ http.ReqBody req = Some (nameOnlyPayload "poster").
Proof.
  refine (proj2 (proj2 (rename_only_update_sends_name_only "5e3ba3bc" "poster")
                   (keys None) (quietWorld (answering 1 updated)))
            _ _ eq_refl).
  discriminate.
Defined.

Lemma NewClient_cfg (config : ClientConfig.t) (w : World) (c : client) :
  NewClient config w = Ok c ->
  ClientConfig.SecretKey (cfg c) = ClientConfig.SecretKey config
  /\ ClientConfig.AccessKey (cfg c) = ClientConfig.AccessKey config
  /\ ClientConfig.Client (cfg c)
     = Some (default (DefaultClient w) (ClientConfig.Client config)).
Proof.
  unfold NewClient.
  destruct (String.eqb _ _); [discriminate |].
  destruct (String.eqb _ _); [discriminate |].
  intros [= <-]. destruct config as [sk ak [hc|]]; repeat split.
Qed.

Lemma PostTarget_keys (c1 c2 : client) (w : World) input :
  ClientConfig.SecretKey (cfg c1) = ClientConfig.SecretKey (cfg c2) ->
  ClientConfig.AccessKey (cfg c1) = ClientConfig.AccessKey (cfg c2) ->
  PostTarget c1 input w = PostTarget c2 input w.
Proof. intros Hs Ha. unfold PostTarget. rewrite Hs, Ha. reflexivity. Qed.

Lemma UpdateTarget_keys (c1 c2 : client) (w : World) input :
  ClientConfig.SecretKey (cfg c1) = ClientConfig.SecretKey (cfg c2) ->
  ClientConfig.AccessKey (cfg c1) = ClientConfig.AccessKey (cfg c2) ->
  UpdateTarget c1 input w = UpdateTarget c2 input w.
Proof. intros Hs Ha. unfold UpdateTarget. rewrite Hs, Ha. reflexivity. Qed.

Lemma throughOnly_viaConfigured {R : Type} (decode : json.body -> result R)
    (c : client) (hc : http.Client) (req : http.Request) (w : World) :
  ClientConfig.Client (cfg c) = Some hc ->
  throughOnly decode hc w (viaConfigured decode c req w).
Proof. intros Hc. unfold viaConfigured. rewrite Hc. right. eauto. Qed.

(** C9.  [PostTarget] and [UpdateTarget] do not depend on the HTTP client
    of the configuration: two clients with the same keys give the same
    result and leave the same world, and the one request each may send goes
    through [http.DefaultClient].  [GetTarget], [DeleteTarget],
    [TargetSummary] and [DatabaseSummary] send theirs through the client
    the configuration holds, which [NewClient] makes the configured one, or
    the default one when none was configured. *)
Theorem post_and_update_bypass_configured_client :
  forall (c1 c2 : client) (w : World),
    ClientConfig.SecretKey (cfg c1) = ClientConfig.SecretKey (cfg c2) ->
    ClientConfig.AccessKey (cfg c1) = ClientConfig.AccessKey (cfg c2) ->
    (forall input, PostTarget c1 input w = PostTarget c2 input w)
    /\ (forall input, UpdateTarget c1 input w = UpdateTarget c2 input w)
    /\ (forall input,
          throughOnly PostTargetResponse.Decode (DefaultClient w) w
            (PostTarget c1 input w))
    /\ (forall input,
          throughOnly UpdateTargetResponse.Decode (DefaultClient w) w
            (UpdateTarget c1 input w))
    /\ (forall hc, ClientConfig.Client (cfg c1) = Some hc ->
          (forall input,
             throughOnly GetTargetResponse.Decode hc w (GetTarget c1 input w))
          /\ (forall input,
                throughOnly DeleteTargetResponse.Decode hc w (DeleteTarget c1 input w))
          /\ (forall input,
                throughOnly TargetSummaryResponse.Decode hc w (TargetSummary c1 input w))
          /\ throughOnly DatabaseSummaryResponse.Decode hc w (DatabaseSummary c1 w))
    /\ (forall config w0, NewClient config w0 = Ok c1 ->
          ClientConfig.Client (cfg c1)
          = Some (default (DefaultClient w0) (ClientConfig.Client config))).
Proof.
  intros c1 c2 w Hs Ha.
  split; [intros input; apply PostTarget_keys; assumption |].
  split; [intros input; apply UpdateTarget_keys; assumption |].
  split.
  { intros [input|]; [| left; reflexivity].
    rewrite PostTarget_eq.
    destruct (PostTargetRequest.Marshal input); [| left; reflexivity].
    destruct (http.NewRequest _ _ _); [| left; reflexivity].
    right. eauto. }
  split.
  { intros [input|]; [| left; reflexivity].
    rewrite UpdateTarget_eq.
    destruct (String.eqb _ _); [left; reflexivity |].
    destruct (UpdateTargetRequest.Marshal input); [| left; reflexivity].
    destruct (http.NewRequest _ _ _); [| left; reflexivity].
    right. eauto. }
  split.
  { intros hc Hc. repeat split.
    - intros [input|]; [| left; reflexivity].
      rewrite GetTarget_eq.
      destruct (String.eqb _ _); [left; reflexivity |].
      destruct (http.NewRequest _ _ _); [| left; reflexivity].
      apply throughOnly_viaConfigured. exact Hc.
    - intros [input|]; [| left; reflexivity].
      rewrite DeleteTarget_eq.
      destruct (String.eqb _ _); [left; reflexivity |].
      destruct (http.NewRequest _ _ _); [| left; reflexivity].
      apply throughOnly_viaConfigured. exact Hc.
    - intros [input|]; [| left; reflexivity].
      rewrite TargetSummary_eq.
      destruct (String.eqb _ _); [left; reflexivity |].
      destruct (http.NewRequest _ _ _); [| left; reflexivity].
      apply throughOnly_viaConfigured. exact Hc.
    - rewrite DatabaseSummary_eq.
      destruct (http.NewRequest _ _ _); [| left; reflexivity].
      apply throughOnly_viaConfigured. exact Hc. }
  intros config w0 Hnew. apply (NewClient_cfg config w0 c1 Hnew).
Qed.

(** Two clients that differ in the configured HTTP client only: the update
    goes through the default client for both, and is answered alike. *)
Lemma post_and_update_bypass_witness :
  UpdateTarget (keys (Some (answering 7 unknownTarget)))
    (Some (renameOnly "5e3ba3bc" "poster")) (quietWorld (answering 1 updated))
  = UpdateTarget (keys None)
      (Some (renameOnly "5e3ba3bc" "poster")) (quietWorld (answering 1 updated)).
Proof.
  exact (proj1 (proj2 (post_and_update_bypass_configured_client
           (keys (Some (answering 7 unknownTarget))) (keys None)
           (quietWorld (answering 1 updated)) eq_refl eq_refl))
           (Some (renameOnly "5e3ba3bc" "poster"))).
Defined.

(** The update above is answered by the default client, the lookup of the
    same target by the configured one. *)
Example update_answered_by_default_get_by_configured :
  fst (UpdateTarget (keys (Some (answering 7 unknownTarget)))
         (Some (renameOnly "5e3ba3bc" "poster")) (quietWorld (answering 1 updated)))
  = Return (Ok {| UpdateTargetResponse.TransactionId := "4567cdef";
                  UpdateTargetResponse.ResultCode := "Success" |})
  /\ map fst (wire (snd (UpdateTarget (keys (Some (answering 7 unknownTarget)))
                           (Some (renameOnly "5e3ba3bc" "poster"))
                           (quietWorld (answering 1 updated)))))
     = [1%N]
  /\ map fst (wire (snd (GetTarget (keys (Some (answering 7 unknownTarget)))
                           (Some {| GetTargetRequest.TargetId := "5e3ba3bc" |})
                           (quietWorld (answering 1 updated)))))
     = [7%N].
Proof. vm_compute. repeat split. Qed.

Lemma exchange_restatus {R : Type} (decode : json.body -> result R) (f : Z -> Z)
    (hc : http.Client) (req : http.Request) (w : World) :
  fst (exchange decode (restatus f hc) req (restatusWorld f w))
  = fst (exchange decode hc req w).
Proof.
  unfold exchange, restatus. cbn [fst http.RoundTrip].
  destruct (http.RoundTrip hc req); reflexivity.
Qed.

Lemma viaConfigured_restatus {R : Type} (decode : json.body -> result R) (f : Z -> Z)
    (c : client) (req : http.Request) (w : World) :
  fst (viaConfigured decode (restatusClient f c) req (restatusWorld f w))
  = fst (viaConfigured decode c req w).
Proof.
  unfold viaConfigured, restatusClient. cbn [cfg ClientConfig.Client].
  destruct (ClientConfig.Client (cfg c)) as [hc|]; [| reflexivity].
  apply exchange_restatus.
Qed.

Lemma prepared_restatus (f : Z -> Z) (c : client) (req0 : http.Request)
    (body : option (list byte)) (w : World) :
  prepared (restatusClient f c) req0 body (restatusWorld f w) = prepared c req0 body w.
Proof. reflexivity. Qed.

(** C2 as stated does not hold: no operation calls [checkError].
    [GetTarget] answered with status 404 and an error envelope returns that
    envelope decoded as a [GetTargetResponse], with a nil error, where
    [checkError] would make an [APIError] of it; answered with status 503
    and a body that is not JSON it does decode the body, and returns the
    decoding error rather than the retry-later error. *)
Lemma get_target_on_404_returns_typed_response :
  fst (GetTarget (keys (Some (answering 7 unknownTarget)))
         (Some {| GetTargetRequest.TargetId := "5e3ba3bc" |})
         (quietWorld (answering 1 updated)))
  = Return (Ok {| GetTargetResponse.TransactionId := "0123abcd";
                  GetTargetResponse.ResultCode := "UnknownTarget";
                  GetTargetResponse.Status := "";
                  GetTargetResponse.TargetRecord := TargetRecord.zero |})
  /\ checkError unknownTarget
     = Some (apiError {| ResultCode := "UnknownTarget"; TransactionId := "0123abcd" |})
  /\ fst (GetTarget (keys (Some (answering 7 serverFault)))
            (Some {| GetTargetRequest.TargetId := "5e3ba3bc" |})
            (quietWorld (answering 1 updated)))
     = Return (Err (errorString "invalid character '<' looking for beginning of value"))
  /\ checkError serverFault
     = Some (errorString
               "the server encountered an internal error (Status = 503); please retry the request").
Proof. vm_compute. repeat split. Qed.

(** C2, amended.  [checkError] maps a status of 500 or more to the
    retry-later error without looking at the body, a status from 400 to 499
    to the [APIError] decoded from the body, which holds the envelope's
    result_code and transaction_id (or to the decoding error), and any
    other status to nil.  The six operations do not consult the status
    code: each returns the body decoded into its typed response, so that
    mapping the status codes of the transports in any way leaves every
    result unchanged. *)
Theorem check_error_classifies_operations_ignore_status :
  (forall (status : Z) (body : json.body),
      (500 <= status ->
       checkError {| http.StatusCode := status; http.Body := body |}
       = Some (errorString
                 ("the server encountered an internal error (Status = "
                    +:+ itoa status +:+ "); please retry the request")))
      /\ (400 <= status < 500 ->
          checkError {| http.StatusCode := status; http.Body := body |}
          = match json.Decode "vuforia.APIError" APIError_fields APIError_zero body with
            | Ok e => Some (apiError e)
            | Err err => Some err
            end)
      /\ (400 <= status < 500 ->
          forall code tx : string,
            checkError {| http.StatusCode := status;
                          http.Body := json.Document (json.JObject
                            [("result_code", json.JString code);
                             ("transaction_id", json.JString tx)]) |}
            = Some (apiError {| ResultCode := code; TransactionId := tx |}))
      /\ (status < 400 ->
          checkError {| http.StatusCode := status; http.Body := body |} = None))
  /\ (forall (f : Z -> Z) (c : client) (w : World),
        let c' := restatusClient f c in
        let w' := restatusWorld f w in
        (forall input, fst (PostTarget c' input w') = fst (PostTarget c input w))
        /\ (forall input, fst (GetTarget c' input w') = fst (GetTarget c input w))
        /\ (forall input, fst (UpdateTarget c' input w') = fst (UpdateTarget c input w))
        /\ (forall input, fst (DeleteTarget c' input w') = fst (DeleteTarget c input w))
        /\ (forall input, fst (TargetSummary c' input w') = fst (TargetSummary c input w))
        /\ fst (DatabaseSummary c' w') = fst (DatabaseSummary c w)).
Proof.
  split.
  - intros status body. unfold checkError, isServerError, isAPIError.
    cbn [http.StatusCode http.Body].
    repeat split.
    + intros H. destruct (Z.leb_spec 500 status); [reflexivity | lia].
    + intros H. destruct (Z.leb_spec 500 status); [lia |].
      destruct (Z.leb_spec 400 status); [| lia].
      destruct (Z.ltb_spec status 500); [reflexivity | lia].
    + intros H code tx. destruct (Z.leb_spec 500 status); [lia |].
      destruct (Z.leb_spec 400 status); [| lia].
      destruct (Z.ltb_spec status 500); [reflexivity | lia].
    + intros H. destruct (Z.leb_spec 500 status); [lia |].
      destruct (Z.leb_spec 400 status); [lia | reflexivity].
  - intros f c w c' w'. subst c' w'.
    split; [| split; [| split; [| split; [| split]]]].
    + intros [input|]; [| reflexivity].
      rewrite !PostTarget_eq.
      destruct (PostTargetRequest.Marshal input); [| reflexivity].
      destruct (http.NewRequest _ _ _); [| reflexivity].
      rewrite prepared_restatus. apply exchange_restatus.
    + intros [input|]; [| reflexivity].
      rewrite !GetTarget_eq.
      destruct (String.eqb _ _); [reflexivity |].
      destruct (http.NewRequest _ _ _); [| reflexivity].
      rewrite prepared_restatus. apply viaConfigured_restatus.
    + intros [input|]; [| reflexivity].
      rewrite !UpdateTarget_eq.
      destruct (String.eqb _ _); [reflexivity |].
      destruct (UpdateTargetRequest.Marshal input); [| reflexivity].
      destruct (http.NewRequest _ _ _); [| reflexivity].
      rewrite prepared_restatus. apply exchange_restatus.
    + intros [input|]; [| reflexivity].
      rewrite !DeleteTarget_eq.
      destruct (String.eqb _ _); [reflexivity |].
      destruct (http.NewRequest _ _ _); [| reflexivity].
      rewrite prepared_restatus. apply viaConfigured_restatus.
    + intros [input|]; [| reflexivity].
      rewrite !TargetSummary_eq.
      destruct (String.eqb _ _); [reflexivity |].
      destruct (http.NewRequest _ _ _); [| reflexivity].
      rewrite prepared_restatus. apply viaConfigured_restatus.
    + rewrite !DatabaseSummary_eq.
      destruct (http.NewRequest _ _ _); [| reflexivity].
      rewrite prepared_restatus. apply viaConfigured_restatus.
Qed.

(** A 404 answer: [checkError] decodes the envelope into an [APIError]. *)
Lemma check_error_classifies_witness :
  checkError unknownTarget
  = Some (apiError {| ResultCode := "UnknownTarget"; TransactionId := "0123abcd" |}).
Proof.
  refine (proj1 (proj2 (proj2 (proj1 check_error_classifies_operations_ignore_status
            404 (json.Document json.JNull)))) _ "UnknownTarget" "0123abcd").
  lia.
Defined.

(** * Further properties of the waiter *)

Section WaiterRuns.

Context {S : Type}.
Variable sched : Scheduler.
Variable ctx : context.Context.
Variable cl : Client S.
Variable target : string.

Local Abbreviation State := (@State S).
Local Abbreviation iter := (iteration sched ctx cl target).
Local Abbreviation run := (loop sched ctx cl target).

(** An invariant of the states between iterations passes to the state in
    which a run is left, given what one iteration does to it. *)
Lemma loop_invariant (I : State -> Prop) :
  (forall st st', I st -> iter st = Continue st' -> I st') ->
  (forall st st' err, I st -> iter st = Stop err st' -> I st') ->
  forall (fuel : nat) (st : State), I st -> I (snd (run fuel st)).
Proof.
  intros Hcont Hstop.
  induction fuel as [|fuel IH]; intros st Hst; [exact Hst |].
  cbn [loop]. destruct (iter st) as [st'|err st'] eqn:Hit.
  - apply IH. exact (Hcont st st' Hst Hit).
  - exact (Hstop st st' err Hst Hit).
Qed.

Local Abbreviation leaves := (leaves sched ctx cl target).

Lemma loop_invariant_leaves (I : State -> Prop) :
  (forall st st', I st -> leaves st st' -> I st') ->
  forall (fuel : nat) (st : State), I st -> I (snd (run fuel st)).
Proof.
  intros Hstep. apply loop_invariant.
  - intros st st' Hst Hit. apply (Hstep st st' Hst). left. exact Hit.
  - intros st st' err Hst Hit. apply (Hstep st st' Hst). right. eauto.
Qed.

(** What an iteration leaves: the state at the instant the context was
    done, or the state after one poll with the interval its answer calls
    for. *)
Lemma leaves_cases (st st' : State) :
  leaves st st' ->
  (exists t, select sched ctx (clock st) (interval st) = CaseDone t
             /\ st' = {| clock := t; interval := interval st; impl := impl st;
                         polls := polls st |})
  \/ (exists t d r impl',
        select sched ctx (clock st) (interval st) = CaseTimer t
        /\ st' = afterPoll target st t d r impl'
                   (nextInterval (pollOf target st t d r))).
Proof.
  intros Hl.
  destruct (iteration_cases sched ctx cl target st)
    as [(t & Hsel & Hit) | (t & d & r & impl' & Hsel & _ & Hit)].
  - left. exists t. split; [exact Hsel |].
    destruct Hl as [Hl | (err & Hl)]; rewrite Hit in Hl; [discriminate |].
    injection Hl as _ <-. reflexivity.
  - right. exists t, d, r, impl'. split; [exact Hsel |].
    unfold nextInterval. cbn [pollOf answer].
    destruct r as [output|err];
      [destruct (terminal _) | destruct (quotaReached err)];
      destruct Hl as [Hl | (e & Hl)]; rewrite Hit in Hl;
      try discriminate; injection Hl; intros; subst; reflexivity.
Qed.

Lemma select_done_time (t interval t' : N) :
  select sched ctx t interval = CaseDone t' -> (t <= t')%N.
Proof.
  unfold select. destruct (context.doneAt ctx) as [tc|]; [| discriminate].
  destruct (N.max tc t ?= t + interval + lag sched t)%N;
    [destruct (pickTimer sched t) | |]; intros [= <-]; lia.
Qed.

Lemma lastEnd_app (prev : N) (ps : list Poll) (p : Poll) :
  lastEnd prev (ps ++ [p]) = endedAt p.
Proof. revert prev. induction ps as [|q ps IH]; intros prev; cbn; auto. Qed.

Lemma spaced_app (prev : N) (ps : list Poll) (p : Poll) :
  spaced prev (ps ++ [p])
  <-> spaced prev ps
      /\ (lastEnd prev ps + waited p <= startedAt p)%N
      /\ (startedAt p <= endedAt p)%N.
Proof.
  revert prev. induction ps as [|q ps IH]; intros prev; cbn [app spaced lastEnd].
  - tauto.
  - rewrite IH. tauto.
Qed.

(** The waits before the polls, followed by the interval of the state, are
    the default interval followed by the intervals the answers call for. *)
Lemma loop_intervals (fuel : nat) (st : State) :
  map waited (polls st) ++ [interval st]
  = defaultInterval :: map nextInterval (polls st) ->
  let st' := snd (run fuel st) in
  map waited (polls st') ++ [interval st']
  = defaultInterval :: map nextInterval (polls st').
Proof.
  intros Hst. cbn zeta. revert fuel st Hst.
  apply (loop_invariant_leaves
           (fun st => map waited (polls st) ++ [interval st]
                      = defaultInterval :: map nextInterval (polls st))).
  intros st st' Hst Hl.
  destruct (leaves_cases st st' Hl)
    as [(t & _ & ->) | (t & d & r & impl' & _ & ->)]; [exact Hst |].
  cbn [afterPoll polls interval].
  rewrite !map_app. cbn [map].
  change (waited (pollOf target st t d r)) with (interval st).
  rewrite <- app_assoc. cbn [app].
  rewrite app_comm_cons, <- Hst, <- app_assoc. reflexivity.
Qed.

Local Abbreviation sequential := (sequential_polls target).

Lemma loop_sequential (t0 : N) (fuel : nat) (st : State) :
  sequential t0 st -> sequential t0 (snd (run fuel st)).
Proof.
  revert fuel st. apply loop_invariant_leaves.
  intros st st' (Hint & Hsp & Hlast & Hcount & Hreq) Hl.
  destruct (leaves_cases st st' Hl)
    as [(t & Hsel & ->) | (t & d & r & impl' & Hsel & ->)].
  - apply select_done_time in Hsel.
    refine (conj _ (conj _ (conj _ (conj _ _))));
      cbn [clock interval polls]; try assumption.
    exact (N.le_trans _ _ _ Hlast Hsel).
  - apply select_timer in Hsel.
    unfold sequential_polls. cbn [afterPoll clock interval polls].
    rewrite spaced_app, lastEnd_app, length_app, Forall_app.
    cbn [pollOf waited startedAt endedAt request length].
    refine (conj _ (conj (conj _ (conj _ _)) (conj _ (conj _ (conj _ _)))));
      try assumption.
    all: unfold nextInterval, extendedInterval, defaultInterval, time.Second_ns in *.
    + clear Hl. cbn [answer pollOf]. destruct r as [o|e]; [| destruct (quotaReached e)]; lia.
    + lia.
    + lia.
    + lia.
    + lia.
    + constructor; [reflexivity | constructor].
Qed.

(** A run that returns an error returns the context's error, the context
    being done, or the error of its last poll, which is not a rate-limit
    error. *)
Lemma loop_error_origin (fuel : nat) :
  forall (st st' : State) (e : error),
    run fuel st = (Returned (Some e), st') ->
    (e = context.cause ctx /\ context.Err ctx (clock st') = Some e)
    \/ (exists ps p, polls st' = ps ++ [p]
                     /\ answer p = Err e /\ quotaReached e = false).
Proof.
  induction fuel as [|fuel IH]; intros st st' e Hrun; [discriminate |].
  cbn [loop] in Hrun.
  destruct (iteration_cases sched ctx cl target st)
    as [(t & Hsel & Hit) | (t & d & r & impl' & _ & _ & Hit)];
    rewrite Hit in Hrun.
  - injection Hrun as <- <-. left. split; [reflexivity |].
    exact (select_done sched ctx _ _ _ Hsel).
  - destruct r as [output|err].
    + destruct (terminal _); [discriminate | exact (IH _ _ _ Hrun)].
    + destruct (quotaReached err) eqn:Hq; [exact (IH _ _ _ Hrun) |].
      injection Hrun as <- <-. right. cbn [afterPoll polls].
      eexists _, _. split; [reflexivity |]. split; [reflexivity | exact Hq].
Qed.

(** While the context is never done and every answer lets the loop go
    on, each iteration polls and none returns. *)
Lemma loop_goes_on (fuel : nat) :
  context.doneAt ctx = None ->
  (forall t s,
      goesOn (fst (fst (Client_GetTarget cl ctx
                          {| GetTargetRequest.TargetId := target |} t s))) = true) ->
  forall st : State,
    fst (run fuel st) = Running
    /\ length (polls (snd (run fuel st))) = (length (polls st) + fuel)%nat.
Proof.
  intros Hctx Hon.
  induction fuel as [|fuel IH]; intros st; [cbn; split; [reflexivity | lia] |].
  cbn [loop].
  destruct (iteration_cases sched ctx cl target st)
    as [(t & Hsel & _) | (t & d & r & impl' & _ & Hcall & Hit)].
  - rewrite (select_never_done sched ctx _ _ Hctx) in Hsel. discriminate.
  - specialize (Hon t (impl st)). rewrite Hcall in Hon. cbn [fst] in Hon.
    rewrite Hit.
    destruct r as [output|err]; cbn [goesOn] in Hon.
    + apply negb_true_iff in Hon. rewrite Hon.
      destruct (IH (afterPoll target st t d (Ok output) impl' defaultInterval))
        as [Hr Hl].
      split; [exact Hr |]. rewrite Hl. cbn [afterPoll polls].
      rewrite length_app. cbn. lia.
    + rewrite Hon.
      destruct (IH (afterPoll target st t d (Err err) impl' extendedInterval))
        as [Hr Hl].
      split; [exact Hr |]. rewrite Hl. cbn [afterPoll polls].
      rewrite length_app. cbn. lia.
Qed.

End WaiterRuns.

(** X1.  In every run the wait before the first poll is the default
    interval and the wait before any later poll is the one the previous
    answer calls for: 30 s after a rate-limit error, 5 s otherwise; the
    interval the run is left with follows the last answer in the same way.
    So every poll was preceded by a wait of 5 s or of 30 s. *)
Theorem waits_follow_answers :
  forall (S : Type) (sched : Scheduler) (ctx : context.Context) (cl : Client S)
         (target : string) (fuel : nat) (t0 : N) (s0 : S),
    let st := snd (WaitUntilProcessed sched ctx cl target fuel t0 s0) in
    map waited (polls st) ++ [interval st]
    = (5 * time.Second_ns)%N :: map nextInterval (polls st)
    /\ Forall (fun p => waited p = (5 * time.Second_ns)%N
                        \/ waited p = (30 * time.Second_ns)%N) (polls st).
Proof.
  intros S sched ctx cl target fuel t0 s0 st.
  assert (Heq : map waited (polls st) ++ [interval st]
                = defaultInterval :: map nextInterval (polls st)).
  { apply (loop_intervals sched ctx cl target fuel). reflexivity. }
  split; [exact Heq |].
  assert (Hall : Forall (fun i => i = defaultInterval \/ i = extendedInterval)
                        (map waited (polls st) ++ [interval st])).
  { rewrite Heq. constructor; [left; reflexivity |].
    apply Forall_map. apply Forall_forall. intros p _. unfold nextInterval.
    destruct (answer p) as [o|e]; [| destruct (quotaReached e)]; auto. }
  apply Forall_app in Hall. destruct Hall as [Hall _].
  apply Forall_map in Hall. exact Hall.
Qed.

(** X2.  The calls of a run come one after the other: each starts after the
    previous one has ended and its own wait has elapsed, all have ended by
    the instant the run is left, and each asks for the target the function
    was given.  So [n] calls take at least [n] times 5 s from entry: the
    function makes at most one call per default interval. *)
Theorem polls_are_sequential :
  forall (S : Type) (sched : Scheduler) (ctx : context.Context) (cl : Client S)
         (target : string) (fuel : nat) (t0 : N) (s0 : S),
    let st := snd (WaitUntilProcessed sched ctx cl target fuel t0 s0) in
    spaced t0 (polls st)
    /\ (lastEnd t0 (polls st) <= clock st)%N
    /\ (t0 + 5 * time.Second_ns * N.of_nat (length (polls st)) <= clock st)%N
    /\ Forall (fun p => request p = {| GetTargetRequest.TargetId := target |})
              (polls st).
Proof.
  intros S sched ctx cl target fuel t0 s0 st.
  destruct (loop_sequential sched ctx cl target t0 fuel
              {| clock := t0; interval := defaultInterval; impl := s0; polls := [] |})
    as (_ & Hsp & Hlast & Hcount & Hreq).
  { refine (conj _ (conj _ (conj _ (conj _ _)))); cbn; try constructor;
      unfold defaultInterval, time.Second_ns; lia. }
  fold (WaitUntilProcessed sched ctx cl target fuel t0 s0) in *. fold st in Hsp, Hlast, Hcount, Hreq.
  refine (conj Hsp (conj Hlast (conj _ Hreq))).
  exact (N.le_trans _ _ _ Hcount Hlast).
Qed.

(** X3.  When the function returns an error, it is the context's error,
    the context being done at that instant, or it is the error of the last
    call made, and that error is not a rate-limit error. *)
Theorem error_is_from_context_or_last_poll :
  forall (S : Type) (sched : Scheduler) (ctx : context.Context) (cl : Client S)
         (target : string) (fuel : nat) (t0 : N) (s0 : S)
         (st' : @State S) (e : error),
    WaitUntilProcessed sched ctx cl target fuel t0 s0 = (Returned (Some e), st') ->
    (e = context.cause ctx /\ context.Err ctx (clock st') = Some e)
    \/ (exists ps p,
          polls st' = ps ++ [p]
          /\ answer p = Err e
          /\ ~ (exists ae, errors.As e = Some ae
                           /\ gostrings.EqualFold (ResultCode ae)
                                "RequestQuotaReached" = true)).
Proof.
  intros S sched ctx cl target fuel t0 s0 st' e Hrun.
  destruct (loop_error_origin sched ctx cl target fuel _ _ _ Hrun)
    as [Hctx | (ps & p & Hps & Hans & Hq)]; [left; exact Hctx |].
  right. exists ps, p. split; [exact Hps |]. split; [exact Hans |].
  intros Hquota. apply quotaReached_iff in Hquota. congruence.
Qed.

(** A call that fails with an error other than the rate-limit one. *)
Lemma error_is_from_context_or_last_poll_witness :
  exists ps p,
    [ {| waited := 5000000000%N; startedAt := 5000000000%N; endedAt := 5000000001%N;
         request := {| GetTargetRequest.TargetId := "id" |};
         answer := Err (errors.New "connection reset") |} ] = ps ++ [p]
    /\ answer p = Err (errors.New "connection reset").
Proof.
  destruct (error_is_from_context_or_last_poll
              _ punctual context.Background scripted "id" 1 0%N
              [(1%N, Err (errors.New "connection reset"))] _ _ eq_refl)
    as [[Hc _] | (ps & p & Hps & Hans & _)].
  - discriminate Hc.
  - exists ps, p. split; [exact Hps | exact Hans].
Defined.

(** X4.  The function has no limit of its own: as long as the context is
    never done and every answer is a status that is not terminal or a
    rate-limit error, it never returns, and makes one more call at each
    turn of the loop. *)
Theorem polls_forever_without_cancellation :
  forall (S : Type) (sched : Scheduler) (ctx : context.Context) (cl : Client S)
         (target : string),
    context.doneAt ctx = None ->
    (forall t s,
        goesOn (fst (fst (Client_GetTarget cl ctx
                            {| GetTargetRequest.TargetId := target |} t s))) = true) ->
    forall (fuel : nat) (t0 : N) (s0 : S),
      fst (WaitUntilProcessed sched ctx cl target fuel t0 s0) = Running
      /\ length (polls (snd (WaitUntilProcessed sched ctx cl target fuel t0 s0))) = fuel.
Proof.
  intros S sched ctx cl target Hctx Hon fuel t0 s0.
  exact (loop_goes_on sched ctx cl target fuel Hctx Hon
           {| clock := t0; interval := defaultInterval; impl := s0; polls := [] |}).
Qed.

(** A target that stays in processing, polled a thousand times. *)
Lemma polls_forever_witness :
  fst (WaitUntilProcessed punctual context.Background
         (steady 1 (withStatus "processing")) "id" 1000 0%N tt) = Running
  /\ length (polls (snd (WaitUntilProcessed punctual context.Background
                           (steady 1 (withStatus "processing")) "id" 1000 0%N tt)))
     = 1000%nat.
Proof.
  exact (polls_forever_without_cancellation
           unit punctual context.Background (steady 1 (withStatus "processing")) "id"
           eq_refl (fun _ _ => eq_refl) 1000%nat 0%N tt).
Defined.

(** * Further properties of the operations *)

(** ** Strings *)

Lemma append_cons (c : ascii) (s t : string) :
  String c s +:+ t = String c (s +:+ t).
Proof. reflexivity. Qed.

Lemma append_assoc (s t u : string) : (s +:+ t) +:+ u = s +:+ t +:+ u.
Proof.
  induction s as [|c s IH]; [reflexivity |].
  rewrite !append_cons, IH. reflexivity.
Qed.

Lemma forall_chars_app (p : ascii -> bool) (a b : string) :
  forall_chars p (a +:+ b) = forall_chars p a && forall_chars p b.
Proof.
  induction a as [|c a IH]; [reflexivity |].
  rewrite append_cons. cbn [forall_chars]. rewrite IH, andb_assoc. reflexivity.
Qed.

Lemma forall_chars_impl (p q : ascii -> bool) (s : string) :
  (forall c, p c = true -> q c = true) ->
  forall_chars p s = true -> forall_chars q s = true.
Proof.
  intros Hpq. induction s as [|c s IH]; [reflexivity |].
  cbn [forall_chars]. rewrite !andb_true_iff. intros [Hc Hs]. auto.
Qed.

Lemma substring_all (s : string) : String.substring 0 (String.length s) s = s.
Proof. induction s as [|c s IH]; [reflexivity |]. cbn. rewrite IH. reflexivity. Qed.

(** ** net/url on the URLs of the service *)

Lemma Cut_none (s : string) (sep : ascii) :
  forall_chars (fun c => negb (Ascii.eqb c sep)) s = true ->
  gostrings.Cut s sep = (s, "", false).
Proof.
  induction s as [|c s IH]; [reflexivity |].
  cbn [forall_chars gostrings.Cut]. rewrite andb_true_iff. intros [Hc Hs].
  apply negb_true_iff in Hc. rewrite Hc, (IH Hs). reflexivity.
Qed.

Lemma Cut_found (a b : string) (sep : ascii) :
  forall_chars (fun c => negb (Ascii.eqb c sep)) a = true ->
  gostrings.Cut (a +:+ String sep b) sep = (a, b, true).
Proof.
  induction a as [|c a IH].
  - intros _. change ("" +:+ String sep b) with (String sep b).
    cbn [gostrings.Cut]. rewrite Ascii.eqb_refl. reflexivity.
  - rewrite append_cons. cbn [forall_chars gostrings.Cut].
    rewrite andb_true_iff. intros [Hc Ha].
    apply negb_true_iff in Hc. rewrite Hc, (IH Ha). reflexivity.
Qed.

Lemma no_CTL (s : string) :
  forall_chars (fun c => negb (url.isCTL c)) s = true ->
  url.stringContainsCTLByte s = false.
Proof.
  induction s as [|c s IH]; [reflexivity |].
  cbn [forall_chars url.stringContainsCTLByte]. rewrite andb_true_iff.
  intros [Hc Hs]. apply negb_true_iff in Hc. rewrite Hc, (IH Hs). reflexivity.
Qed.

Lemma some_CTL (a b : string) (c : ascii) :
  url.isCTL c = true -> url.stringContainsCTLByte (a +:+ String c b) = true.
Proof.
  intros Hc. induction a as [|x a IH].
  - change ("" +:+ String c b) with (String c b).
    cbn [url.stringContainsCTLByte]. rewrite Hc. reflexivity.
  - rewrite append_cons. cbn [url.stringContainsCTLByte]. rewrite IH.
    apply orb_true_r.
Qed.

Lemma unescape_plain (s : string) :
  forall_chars (fun c => negb (Ascii.eqb c "%")) s = true ->
  url.unescape s = Ok s.
Proof.
  induction s as [|c s IH]; [reflexivity |].
  cbn [forall_chars url.unescape]. rewrite andb_true_iff. intros [Hc Hs].
  apply negb_true_iff in Hc. rewrite Hc, (IH Hs). reflexivity.
Qed.

Lemma splitAuthority_host (host path : string) :
  forall_chars (fun c => negb (Ascii.eqb c "/")) host = true ->
  url.splitAuthority (host +:+ String "/" path) = (host, String "/" path).
Proof.
  induction host as [|c host IH].
  - intros _. change ("" +:+ String "/" path) with (String "/" path).
    reflexivity.
  - rewrite append_cons. cbn [forall_chars url.splitAuthority].
    rewrite andb_true_iff. intros [Hc Hh].
    apply negb_true_iff in Hc. rewrite Hc, (IH Hh). reflexivity.
Qed.

Lemma prefix_app (a b : string) : String.prefix a (a +:+ b) = true.
Proof.
  induction a as [|c a IH]; [destruct b; reflexivity |].
  rewrite append_cons. cbn [String.prefix].
  destruct (ascii_dec c c); [exact IH | congruence].
Qed.

Lemma length_append (a b : string) :
  String.length (a +:+ b) = (String.length a + String.length b)%nat.
Proof.
  induction a as [|c a IH]; [reflexivity |].
  rewrite append_cons. cbn [String.length]. rewrite IH. reflexivity.
Qed.

Lemma substring_append (a b : string) (n : nat) :
  String.substring (String.length a) n (a +:+ b) = String.substring 0 n b.
Proof.
  induction a as [|c a IH]; [reflexivity |].
  rewrite append_cons. cbn [String.length String.substring]. exact IH.
Qed.

Lemma stripPrefix_app (prefix rest : string) :
  url.stripPrefix prefix (prefix +:+ rest) = Some rest.
Proof.
  unfold url.stripPrefix.
  rewrite prefix_app, length_append, substring_append.
  replace (String.length prefix + String.length rest - String.length prefix)%nat
    with (String.length rest) by lia.
  rewrite substring_all. reflexivity.
Qed.

Lemma pathSafe_parts (c : ascii) :
  pathSafe c = true ->
  negb (url.isCTL c) = true /\ negb (Ascii.eqb c "#") = true
  /\ negb (Ascii.eqb c "?") = true /\ negb (Ascii.eqb c "%") = true.
Proof. unfold pathSafe. rewrite !andb_true_iff. tauto. Qed.

Lemma querySafe_parts (c : ascii) :
  querySafe c = true ->
  negb (url.isCTL c) = true /\ negb (Ascii.eqb c "#") = true.
Proof. unfold querySafe. rewrite !andb_true_iff. tauto. Qed.

(** A property of bytes that holds of the fixed part of the text, of the
    path and of the query holds of the whole text. *)
Lemma vwsText_chars (p : ascii -> bool) (path : string) (query : option string) :
  forall_chars p ("https://" +:+ vuforiaUrl +:+ "/") = true ->
  p "?"%char = true ->
  forall_chars p path = true ->
  forall_chars p (default "" query) = true ->
  forall_chars p (vwsText path query) = true.
Proof.
  intros Hfix Hq Hpath Hquery. unfold vwsText.
  rewrite !forall_chars_app in Hfix. rewrite !forall_chars_app.
  apply andb_true_iff in Hfix. destruct Hfix as [Hscheme Hfix].
  apply andb_true_iff in Hfix. destruct Hfix as [Hhost Hslash].
  cbn [forall_chars] in Hslash. rewrite andb_true_r in Hslash.
  rewrite Hscheme, Hhost. cbn [forall_chars andb]. rewrite Hslash, Hpath.
  destruct query as [q|]; [| reflexivity].
  change (forall_chars p q = true) in Hquery.
  cbn [forall_chars andb]. rewrite Hq, Hquery. reflexivity.
Qed.

(** [url.Parse] on a text of the service whose path and query hold no byte
    with a meaning of its own: the path and the query as they stand. *)
Lemma Parse_vwsText (path : string) (query : option string) :
  forall_chars pathSafe path = true ->
  forall_chars querySafe (default "" query) = true ->
  url.Parse (vwsText path query)
  = Ok (vwsURL (String "/" path) (default "" query)).
Proof.
  intros Hpath Hquery. unfold url.Parse.
  rewrite Cut_none.
  2:{ apply vwsText_chars; try reflexivity.
      - revert Hpath. apply forall_chars_impl. intros c Hc.
        apply pathSafe_parts in Hc. tauto.
      - revert Hquery. apply forall_chars_impl. intros c Hc.
        apply querySafe_parts in Hc. tauto. }
  rewrite no_CTL.
  2:{ apply vwsText_chars; try reflexivity.
      - revert Hpath. apply forall_chars_impl. intros c Hc.
        apply pathSafe_parts in Hc. tauto.
      - revert Hquery. apply forall_chars_impl. intros c Hc.
        apply querySafe_parts in Hc. tauto. }
  unfold vwsText at 1. rewrite stripPrefix_app.
  assert (Hnoq : forall_chars (fun c => negb (Ascii.eqb c "?"))
                   (vuforiaUrl +:+ String "/" path) = true).
  { rewrite forall_chars_app. cbn [forall_chars]. rewrite !andb_true_iff.
    repeat split; try reflexivity.
    revert Hpath. apply forall_chars_impl. intros c Hc.
    apply pathSafe_parts in Hc. tauto. }
  assert (Hcut : gostrings.Cut
                   (vuforiaUrl +:+ String "/" path
                      +:+ match query with None => "" | Some q => String "?" q end) "?"
                 = (vuforiaUrl +:+ String "/" path, default "" query, negb (bool_decide (query = None)))).
  { destruct query as [q|].
    - rewrite <- append_assoc. rewrite (Cut_found _ _ _ Hnoq). reflexivity.
    - rewrite append_nil_r. rewrite (Cut_none _ _ Hnoq). reflexivity. }
  rewrite Hcut.
  rewrite splitAuthority_host by reflexivity.
  change (negb (url.plainHost vuforiaUrl)) with false. cbv iota.
  rewrite unescape_plain.
  2:{ cbn [forall_chars]. rewrite andb_true_iff. split; [reflexivity |].
      revert Hpath. apply forall_chars_impl. intros c Hc.
      apply pathSafe_parts in Hc. tauto. }
  reflexivity.
Qed.

(** ** The requests the operations build *)

Lemma NewRequest_vwsText (method path : string) (query : option string)
    (body : option (list byte)) :
  http.validMethod method = true ->
  forall_chars pathSafe path = true ->
  forall_chars querySafe (default "" query) = true ->
  http.NewRequest method (vwsText path query) body
  = Ok {| http.Method := method;
          http.URL := vwsURL (String "/" path) (default "" query);
          http.Header := ∅; http.ReqBody := body |}.
Proof.
  intros Hm Hpath Hquery. unfold http.NewRequest.
  assert (Hne : String.eqb method "" = false).
  { destruct method; [discriminate Hm | reflexivity]. }
  rewrite Hne, Hm, (Parse_vwsText path query Hpath Hquery). reflexivity.
Qed.

Lemma prepared_signedRequest (c : client) (w : World) (method : string) (u : url.URL)
    (body : option (list byte)) :
  prepared c {| http.Method := method; http.URL := u; http.Header := ∅;
                http.ReqBody := body |} body w
  = signedRequest c w method u body.
Proof. unfold prepared. rewrite prepare_eq. reflexivity. Qed.

Lemma targetURL_text (id : string) : targetURL id = vwsText ("targets/" +:+ id) None.
Proof.
  transitivity (vwsText ("targets/" +:+ (id +:+ "")) None); [| now rewrite append_nil_r].
  unfold vwsText. rewrite append_nil_r. reflexivity.
Qed.

Lemma targetSummaryURL_text (id : string) :
  targetSummaryURL id = vwsText ("summary/" +:+ id) None.
Proof.
  transitivity (vwsText ("summary/" +:+ (id +:+ "")) None); [| now rewrite append_nil_r].
  unfold vwsText. rewrite append_nil_r. reflexivity.
Qed.

Lemma targetURL_query (a q : string) :
  targetURL (a +:+ String "?" q) = vwsText ("targets/" +:+ a) (Some q).
Proof.
  rewrite targetURL_text. unfold vwsText.
  rewrite append_nil_r.
  change (String "/" ("targets/" +:+ a +:+ String "?" q))
    with (String "/" "targets/" +:+ (a +:+ String "?" q)).
  change (String "/" ("targets/" +:+ a)) with (String "/" "targets/" +:+ a).
  rewrite (append_assoc (String "/" "targets/") a (String "?" q)). reflexivity.
Qed.

Lemma targetSummaryURL_query (a q : string) :
  targetSummaryURL (a +:+ String "?" q) = vwsText ("summary/" +:+ a) (Some q).
Proof.
  rewrite targetSummaryURL_text. unfold vwsText.
  rewrite append_nil_r.
  change (String "/" ("summary/" +:+ a +:+ String "?" q))
    with (String "/" "summary/" +:+ (a +:+ String "?" q)).
  change (String "/" ("summary/" +:+ a)) with (String "/" "summary/" +:+ a).
  rewrite (append_assoc (String "/" "summary/") a (String "?" q)). reflexivity.
Qed.

Lemma pathSafe_under (dir id : string) :
  forall_chars pathSafe dir = true ->
  forall_chars pathSafe id = true ->
  forall_chars pathSafe (dir +:+ id) = true.
Proof. intros Hd Hi. rewrite forall_chars_app, Hd, Hi. reflexivity. Qed.

Lemma nonempty_eqb (id : string) : id <> "" -> String.eqb id "" = false.
Proof. intros H. apply String.eqb_neq. exact H. Qed.

(** X5.  For a target id that is not empty and holds no control character
    and no ['#'], ['?'] or ['%'], the lookup, the deletion, the summary and
    the update always send one request: GET, DELETE or PUT for the path
    [/targets/<id>], GET for [/summary/<id>], on host vws.vuforia.com over
    https, with no query, signed for that very path, and with the Date,
    Content-Type and Authorization headers only.  The first three go
    through the configured client, the update through the default one. *)
Theorem operations_request_the_target_path :
  forall (c : client) (w : World) (id : string),
    id <> "" ->
    forall_chars pathSafe id = true ->
    GetTarget c (Some {| GetTargetRequest.TargetId := id |}) w
    = viaConfigured GetTargetResponse.Decode c
        (signedRequest c w "GET" (vwsURL ("/targets/" +:+ id) "") None) w
    /\ DeleteTarget c (Some {| DeleteTargetRequest.TargetId := id |}) w
       = viaConfigured DeleteTargetResponse.Decode c
           (signedRequest c w "DELETE" (vwsURL ("/targets/" +:+ id) "") None) w
    /\ TargetSummary c (Some {| TargetSummaryRequest.TargetId := id |}) w
       = viaConfigured TargetSummaryResponse.Decode c
           (signedRequest c w "GET" (vwsURL ("/summary/" +:+ id) "") None) w
    /\ (forall input body,
          UpdateTargetRequest.TargetId input = id ->
          UpdateTargetRequest.Marshal input = Ok body ->
          UpdateTarget c (Some input) w
          = exchange UpdateTargetResponse.Decode (DefaultClient w)
              (signedRequest c w "PUT" (vwsURL ("/targets/" +:+ id) "") (Some body)) w).
Proof.
  intros c w id Hne Hsafe. apply nonempty_eqb in Hne.
  assert (Ht : forall_chars pathSafe ("targets/" +:+ id) = true)
    by (apply pathSafe_under; [reflexivity | exact Hsafe]).
  assert (Hs : forall_chars pathSafe ("summary/" +:+ id) = true)
    by (apply pathSafe_under; [reflexivity | exact Hsafe]).
  split; [| split; [| split]].
  - rewrite GetTarget_eq. cbn [GetTargetRequest.TargetId].
    rewrite Hne, targetURL_text.
    rewrite (NewRequest_vwsText http.MethodGet _ None None eq_refl Ht eq_refl).
    rewrite prepared_signedRequest. reflexivity.
  - rewrite DeleteTarget_eq. cbn [DeleteTargetRequest.TargetId].
    rewrite Hne, targetURL_text.
    rewrite (NewRequest_vwsText http.MethodDelete _ None None eq_refl Ht eq_refl).
    rewrite prepared_signedRequest. reflexivity.
  - rewrite TargetSummary_eq. cbn [TargetSummaryRequest.TargetId].
    rewrite Hne, targetSummaryURL_text.
    rewrite (NewRequest_vwsText http.MethodGet _ None None eq_refl Hs eq_refl).
    rewrite prepared_signedRequest. reflexivity.
  - intros input body Hid Hbody.
    rewrite UpdateTarget_eq, Hid, Hne, Hbody, targetURL_text.
    rewrite (NewRequest_vwsText http.MethodPut _ None (Some body) eq_refl Ht eq_refl).
    rewrite prepared_signedRequest. reflexivity.
Qed.

(** The lookup of a target with a hexadecimal id. *)
Lemma operations_request_the_target_path_witness :
  GetTarget (keys (Some (answering 7 unknownTarget)))
    (Some {| GetTargetRequest.TargetId := "5e3ba3bc" |})
    (quietWorld (answering 1 updated))
  = viaConfigured GetTargetResponse.Decode (keys (Some (answering 7 unknownTarget)))
      (signedRequest (keys (Some (answering 7 unknownTarget)))
         (quietWorld (answering 1 updated)) "GET"
         (vwsURL "/targets/5e3ba3bc" "") None)
      (quietWorld (answering 1 updated)).
Proof.
  refine (proj1 (operations_request_the_target_path
            (keys (Some (answering 7 unknownTarget)))
            (quietWorld (answering 1 updated)) "5e3ba3bc" _ eq_refl)).
  discriminate.
Defined.

(** X6.  The target id is put in the URL as it is, without escaping: what
    follows a ['?'] in the id becomes the query of the request, and the
    path that is requested and signed stops before it. *)
Theorem query_in_target_id_leaves_the_path :
  forall (c : client) (w : World) (a q : string),
    forall_chars pathSafe a = true ->
    forall_chars querySafe q = true ->
    GetTarget c (Some {| GetTargetRequest.TargetId := a +:+ String "?" q |}) w
    = viaConfigured GetTargetResponse.Decode c
        (signedRequest c w "GET" (vwsURL ("/targets/" +:+ a) q) None) w
    /\ DeleteTarget c (Some {| DeleteTargetRequest.TargetId := a +:+ String "?" q |}) w
       = viaConfigured DeleteTargetResponse.Decode c
           (signedRequest c w "DELETE" (vwsURL ("/targets/" +:+ a) q) None) w
    /\ TargetSummary c (Some {| TargetSummaryRequest.TargetId := a +:+ String "?" q |}) w
       = viaConfigured TargetSummaryResponse.Decode c
           (signedRequest c w "GET" (vwsURL ("/summary/" +:+ a) q) None) w
    /\ (forall input body,
          UpdateTargetRequest.TargetId input = a +:+ String "?" q ->
          UpdateTargetRequest.Marshal input = Ok body ->
          UpdateTarget c (Some input) w
          = exchange UpdateTargetResponse.Decode (DefaultClient w)
              (signedRequest c w "PUT" (vwsURL ("/targets/" +:+ a) q) (Some body)) w).
Proof.
  intros c w a q Ha Hq.
  assert (Hne : String.eqb (a +:+ String "?" q) "" = false)
    by (destruct a; reflexivity).
  assert (Ht : forall_chars pathSafe ("targets/" +:+ a) = true)
    by (apply pathSafe_under; [reflexivity | exact Ha]).
  assert (Hs : forall_chars pathSafe ("summary/" +:+ a) = true)
    by (apply pathSafe_under; [reflexivity | exact Ha]).
  split; [| split; [| split]].
  - rewrite GetTarget_eq. cbn [GetTargetRequest.TargetId].
    rewrite Hne, targetURL_query.
    rewrite (NewRequest_vwsText http.MethodGet _ (Some q) None eq_refl Ht Hq).
    rewrite prepared_signedRequest. reflexivity.
  - rewrite DeleteTarget_eq. cbn [DeleteTargetRequest.TargetId].
    rewrite Hne, targetURL_query.
    rewrite (NewRequest_vwsText http.MethodDelete _ (Some q) None eq_refl Ht Hq).
    rewrite prepared_signedRequest. reflexivity.
  - rewrite TargetSummary_eq. cbn [TargetSummaryRequest.TargetId].
    rewrite Hne, targetSummaryURL_query.
    rewrite (NewRequest_vwsText http.MethodGet _ (Some q) None eq_refl Hs Hq).
    rewrite prepared_signedRequest. reflexivity.
  - intros input body Hid Hbody.
    rewrite UpdateTarget_eq, Hid, Hne, Hbody, targetURL_query.
    rewrite (NewRequest_vwsText http.MethodPut _ (Some q) (Some body) eq_refl Ht Hq).
    rewrite prepared_signedRequest. reflexivity.
Qed.

(** The deletion of "5e3ba3bc?force=1" asks for /targets/5e3ba3bc. *)
Lemma query_in_target_id_witness :
  DeleteTarget (keys (Some (answering 7 updated)))
    (Some {| DeleteTargetRequest.TargetId := "5e3ba3bc?force=1" |})
    (quietWorld (answering 1 updated))
  = viaConfigured DeleteTargetResponse.Decode (keys (Some (answering 7 updated)))
      (signedRequest (keys (Some (answering 7 updated)))
         (quietWorld (answering 1 updated)) "DELETE"
         (vwsURL "/targets/5e3ba3bc" "force=1") None)
      (quietWorld (answering 1 updated)).
Proof.
  exact (proj1 (proj2 (query_in_target_id_leaves_the_path
           (keys (Some (answering 7 updated))) (quietWorld (answering 1 updated))
           "5e3ba3bc" "force=1" eq_refl eq_refl))).
Defined.

(** X7.  [DatabaseSummary] and [PostTarget] build their request from a
    fixed URL, which never fails: the summary always sends a GET for
    [/summary] through the configured client, and the creation sends a POST
    for [/targets] through the default client whenever its payload can be
    encoded, and returns the encoding error without sending otherwise. *)
Theorem fixed_url_operations_always_send :
  forall (c : client) (w : World),
    DatabaseSummary c w
    = viaConfigured DatabaseSummaryResponse.Decode c
        (signedRequest c w "GET" (vwsURL "/summary" "") None) w
    /\ forall input,
         PostTarget c (Some input) w
         = match PostTargetRequest.Marshal input with
           | Err err => (Return (Err err), w)
           | Ok body =>
               exchange PostTargetResponse.Decode (DefaultClient w)
                 (signedRequest c w "POST" (vwsURL "/targets" "") (Some body)) w
           end.
Proof.
  intros c w. split.
  - rewrite DatabaseSummary_eq.
    change summaryURL with (vwsText "summary" None).
    rewrite (NewRequest_vwsText http.MethodGet "summary" None None eq_refl eq_refl eq_refl).
    rewrite prepared_signedRequest. reflexivity.
  - intros input. rewrite PostTarget_eq.
    destruct (PostTargetRequest.Marshal input) as [body|err]; [| reflexivity].
    change targetsURL with (vwsText "targets" None).
    rewrite (NewRequest_vwsText http.MethodPost "targets" None (Some body) eq_refl eq_refl eq_refl).
    rewrite prepared_signedRequest. reflexivity.
Qed.

(** ** Ids that do not make a URL *)

Lemma CTL_app (a b : string) :
  url.stringContainsCTLByte (a +:+ b)
  = url.stringContainsCTLByte a || url.stringContainsCTLByte b.
Proof.
  induction a as [|c a IH]; [reflexivity |].
  rewrite append_cons. cbn [url.stringContainsCTLByte]. rewrite IH, orb_assoc.
  reflexivity.
Qed.

Lemma Parse_control_character (text : string) :
  forall_chars (fun c => negb (Ascii.eqb c "#")) text = true ->
  url.stringContainsCTLByte text = true ->
  url.Parse text = Err (controlCharacterError text).
Proof.
  intros Hhash Hctl. unfold url.Parse.
  rewrite (Cut_none _ _ Hhash), Hctl. reflexivity.
Qed.

Lemma NewRequest_control_character (method text : string) (body : option (list byte)) :
  http.validMethod method = true ->
  forall_chars (fun c => negb (Ascii.eqb c "#")) text = true ->
  url.stringContainsCTLByte text = true ->
  http.NewRequest method text body = Err (controlCharacterError text).
Proof.
  intros Hm Hhash Hctl. unfold http.NewRequest.
  assert (Hne : String.eqb method "" = false).
  { destruct method; [discriminate Hm | reflexivity]. }
  rewrite Hne, Hm, (Parse_control_character text Hhash Hctl). reflexivity.
Qed.

Lemma vwsText_no_hash (dir id : string) :
  forall_chars (fun c => negb (Ascii.eqb c "#")) dir = true ->
  forall_chars (fun c => negb (Ascii.eqb c "#")) id = true ->
  forall_chars (fun c => negb (Ascii.eqb c "#")) (vwsText (dir +:+ id) None) = true.
Proof.
  intros Hd Hi. apply vwsText_chars; try reflexivity.
  rewrite forall_chars_app, Hd, Hi. reflexivity.
Qed.

Lemma vwsText_control_character (dir id : string) :
  url.stringContainsCTLByte id = true ->
  url.stringContainsCTLByte (vwsText (dir +:+ id) None) = true.
Proof.
  intros Hi. unfold vwsText. rewrite !CTL_app.
  cbn [url.stringContainsCTLByte]. rewrite CTL_app, Hi.
  rewrite !orb_true_r. reflexivity.
Qed.

(** X8.  A target id with a control character (and no ['#']) does not make
    a URL: the lookup, the deletion, the summary and the update return the
    parse error of [net/url] and send nothing. *)
Theorem control_character_in_target_id_is_rejected :
  forall (c : client) (w : World) (id : string),
    forall_chars (fun c => negb (Ascii.eqb c "#")) id = true ->
    url.stringContainsCTLByte id = true ->
    GetTarget c (Some {| GetTargetRequest.TargetId := id |}) w
    = (Return (Err (controlCharacterError (targetURL id))), w)
    /\ DeleteTarget c (Some {| DeleteTargetRequest.TargetId := id |}) w
       = (Return (Err (controlCharacterError (targetURL id))), w)
    /\ TargetSummary c (Some {| TargetSummaryRequest.TargetId := id |}) w
       = (Return (Err (controlCharacterError (targetSummaryURL id))), w)
    /\ (forall input body,
          UpdateTargetRequest.TargetId input = id ->
          UpdateTargetRequest.Marshal input = Ok body ->
          UpdateTarget c (Some input) w
          = (Return (Err (controlCharacterError (targetURL id))), w)).
Proof.
  intros c w id Hhash Hctl.
  assert (Hne : String.eqb id "" = false) by (destruct id; [discriminate Hctl | reflexivity]).
  assert (Ht : forall body,
            http.NewRequest http.MethodGet (targetURL id) body
            = Err (controlCharacterError (targetURL id))
            /\ http.NewRequest http.MethodDelete (targetURL id) body
               = Err (controlCharacterError (targetURL id))
            /\ http.NewRequest http.MethodPut (targetURL id) body
               = Err (controlCharacterError (targetURL id))).
  { intros body. rewrite targetURL_text.
    assert (Hh := vwsText_no_hash "targets/" id eq_refl Hhash).
    assert (Hc := vwsText_control_character "targets/" id Hctl).
    split; [| split].
    - exact (NewRequest_control_character http.MethodGet _ body eq_refl Hh Hc).
    - exact (NewRequest_control_character http.MethodDelete _ body eq_refl Hh Hc).
    - exact (NewRequest_control_character http.MethodPut _ body eq_refl Hh Hc). }
  assert (Hs : http.NewRequest http.MethodGet (targetSummaryURL id) None
               = Err (controlCharacterError (targetSummaryURL id))).
  { rewrite targetSummaryURL_text.
    exact (NewRequest_control_character http.MethodGet _ None eq_refl
             (vwsText_no_hash "summary/" id eq_refl Hhash)
             (vwsText_control_character "summary/" id Hctl)). }
  split; [| split; [| split]].
  - rewrite GetTarget_eq. cbn [GetTargetRequest.TargetId].
    rewrite Hne, (proj1 (Ht None)). reflexivity.
  - rewrite DeleteTarget_eq. cbn [DeleteTargetRequest.TargetId].
    rewrite Hne, (proj1 (proj2 (Ht None))). reflexivity.
  - rewrite TargetSummary_eq. cbn [TargetSummaryRequest.TargetId].
    rewrite Hne, Hs. reflexivity.
  - intros input body Hid Hbody.
    rewrite UpdateTarget_eq, Hid, Hne, Hbody, (proj2 (proj2 (Ht (Some body)))).
    reflexivity.
Qed.

(** An id that ends with a line feed. *)
Lemma control_character_in_target_id_witness :
  GetTarget (keys None) (Some {| GetTargetRequest.TargetId := "5e3ba3bc" +:+ LF |})
    (quietWorld (answering 1 updated))
  = (Return (Err (controlCharacterError (targetURL ("5e3ba3bc" +:+ LF)))),
     quietWorld (answering 1 updated)).
Proof.
  exact (proj1 (control_character_in_target_id_is_rejected
           (keys None) (quietWorld (answering 1 updated)) ("5e3ba3bc" +:+ LF)
           eq_refl eq_refl)).
Defined.

(** ** Payloads *)

(** The encoder's members as an object text: the members present joined by
    commas, when none of them fails. *)
Lemma encodeMembers_present (ms : list (string * option string)) :
  let texts := map (fun m => option_map (memberText (fst m)) (snd m)) ms in
  let members := map (fun m => (fst m, option_map Ok (snd m))) ms in
  json.encodeMembers true members = Ok (join "," (present texts))
  /\ (present texts <> [] ->
      json.encodeMembers false members = Ok ("," +:+ join "," (present texts)))
  /\ (present texts = [] -> json.encodeMembers false members = Ok "").
Proof.
  cbn zeta. induction ms as [|[k [v|]] ms IH]; cbn [map fst snd option_map present].
  - split; [reflexivity |]. split; [intros H; congruence | reflexivity].
  - destruct IH as (_ & IHsome & IHnone).
    cbn [json.encodeMembers].
    destruct (present (map (fun m => option_map (memberText (fst m)) (snd m)) ms))
      as [|t ts] eqn:Hp.
    + rewrite (IHnone eq_refl). cbn [join].
      split; [| split; [intros _ | intros H; discriminate H]];
        unfold memberText; rewrite ?append_assoc, ?append_nil_r; reflexivity.
    + rewrite IHsome by discriminate.
      change (join "," (memberText k v :: t :: ts))
        with (memberText k v +:+ "," +:+ join "," (t :: ts)).
      split; [| split; [intros _ | intros H; discriminate H]];
        unfold memberText; rewrite ?append_assoc; reflexivity.
  - cbn [json.encodeMembers]. exact IH.
Qed.

Lemma omitempty_Ok {A : Type} (enc : A -> string) (p : option A) :
  json.omitempty (fun a => Ok (enc a)) p = option_map Ok (option_map enc p).
Proof. destruct p; reflexivity. Qed.

Lemma encodeStruct_present (ms : list (string * option string)) :
  json.encodeStruct (map (fun m => (fst m, option_map Ok (snd m))) ms)
  = Ok (bytes_of_string
          (objectText (map (fun m => option_map (memberText (fst m)) (snd m)) ms))).
Proof.
  unfold json.encodeStruct, objectText.
  rewrite (proj1 (encodeMembers_present ms)). reflexivity.
Qed.

Lemma Marshal_update_width (r : UpdateTargetRequest.t) (width : option string) :
  json.omitempty json.encodeFloat (UpdateTargetRequest.Width r) = option_map Ok width ->
  UpdateTargetRequest.Marshal r
  = Ok (bytes_of_string (objectText (updateMembers r width))).
Proof.
  intros Hw. unfold UpdateTargetRequest.Marshal. rewrite Hw, !omitempty_Ok.
  transitivity
    (json.encodeStruct
       (map (fun m : string * option string => (fst m, option_map Ok (snd m)))
          [("name", option_map json.encodeString (UpdateTargetRequest.Name r));
           ("width", width);
           ("image", option_map json.encodeString (UpdateTargetRequest.Image r));
           ("active_flag", option_map json.encodeBool (UpdateTargetRequest.Active r));
           ("application_metadata",
            option_map json.encodeString (UpdateTargetRequest.Metadata r))]));
    [reflexivity |].
  rewrite encodeStruct_present. cbn [map fst snd]. unfold updateMembers.
  destruct (UpdateTargetRequest.Name r), width, (UpdateTargetRequest.Image r),
    (UpdateTargetRequest.Active r), (UpdateTargetRequest.Metadata r); reflexivity.
Qed.

Lemma Marshal_update_unsupported (r : UpdateTargetRequest.t) (f : float64) :
  UpdateTargetRequest.Width r = Some f ->
  finiteText f = None ->
  exists v, UpdateTargetRequest.Marshal r = Err (json.UnsupportedValueError v).
Proof.
  intros Hw Hf. unfold UpdateTargetRequest.Marshal, json.encodeStruct.
  rewrite Hw.
  destruct f as [t|[|]|]; [discriminate Hf | | |];
    destruct (UpdateTargetRequest.Name r); cbn; eauto.
Qed.

Lemma Marshal_post_finite (r : PostTargetRequest.t) (t : string) :
  PostTargetRequest.Width r = Finite t ->
  PostTargetRequest.Marshal r = Ok (bytes_of_string (objectText (postMembers r t))).
Proof.
  intros Hw. unfold PostTargetRequest.Marshal. rewrite Hw, !omitempty_Ok.
  transitivity
    (json.encodeStruct
       (map (fun m : string * option string => (fst m, option_map Ok (snd m)))
          [("name", Some (json.encodeString (PostTargetRequest.Name r)));
           ("width", Some t);
           ("image", Some (json.encodeString (PostTargetRequest.Image r)));
           ("active_flag", option_map json.encodeBool (PostTargetRequest.Active r));
           ("application_metadata",
            option_map json.encodeString (PostTargetRequest.Metadata r))]));
    [reflexivity |].
  rewrite encodeStruct_present. cbn [map fst snd]. unfold postMembers.
  destruct (PostTargetRequest.Active r), (PostTargetRequest.Metadata r); reflexivity.
Qed.

Lemma Marshal_post_unsupported (r : PostTargetRequest.t) :
  finiteText (PostTargetRequest.Width r) = None ->
  exists v, PostTargetRequest.Marshal r = Err (json.UnsupportedValueError v).
Proof.
  intros Hf. unfold PostTargetRequest.Marshal, json.encodeStruct.
  destruct (PostTargetRequest.Width r) as [t|[|]|]; [discriminate Hf | | |];
    cbn; eauto.
Qed.

(** X9.  The payload of a creation always holds the members name, width
    and image, in that order and even when they are empty, followed by
    active_flag and application_metadata only when they are set.  A width
    that is not finite cannot be encoded: [PostTarget] then returns the
    encoder's error, which carries no [APIError], and sends nothing. *)
Theorem post_payload_members :
  forall (r : PostTargetRequest.t),
    (forall t, PostTargetRequest.Width r = Finite t ->
       PostTargetRequest.Marshal r
       = Ok (bytes_of_string ("{" +:+ join "," (present (postMembers r t)) +:+ "}"))
       /\ exists optional,
            present (postMembers r t)
            = memberText "name" (json.encodeString (PostTargetRequest.Name r))
              :: memberText "width" t
              :: memberText "image" (json.encodeString (PostTargetRequest.Image r))
              :: optional)
    /\ (finiteText (PostTargetRequest.Width r) = None ->
        exists e,
          PostTargetRequest.Marshal r = Err e
          /\ errors.As e = None
          /\ forall c w, PostTarget c (Some r) w = (Return (Err e), w)).
Proof.
  intros r. split.
  - intros t Hw. split; [exact (Marshal_post_finite r t Hw) |].
    unfold postMembers. cbn [present]. eauto.
  - intros Hf. destruct (Marshal_post_unsupported r Hf) as [v Hv].
    exists (json.UnsupportedValueError v).
    split; [exact Hv |]. split; [reflexivity |].
    intros c w. rewrite PostTarget_eq, Hv. reflexivity.
Qed.

(** A creation with a width that is not a number. *)
Lemma post_payload_members_witness :
  exists e,
    PostTarget (keys None)
      (Some {| PostTargetRequest.Name := "poster"; PostTargetRequest.Width := NaN;
               PostTargetRequest.Image := "aGVsbG8="; PostTargetRequest.Active := None;
               PostTargetRequest.Metadata := None |})
      (quietWorld (answering 1 updated))
    = (Return (Err e), quietWorld (answering 1 updated)).
Proof.
  destruct (proj2 (post_payload_members
              {| PostTargetRequest.Name := "poster"; PostTargetRequest.Width := NaN;
                 PostTargetRequest.Image := "aGVsbG8="; PostTargetRequest.Active := None;
                 PostTargetRequest.Metadata := None |}) eq_refl)
    as (e & _ & _ & He).
  exists e. apply He.
Defined.

(** X10.  The payload of an update holds exactly the members of the fields
    that are set, in the order name, width, image, active_flag,
    application_metadata, and never the target id; with no field set it is
    the empty object.  Only a width that is set and not finite makes the
    encoding fail, and [UpdateTarget] then returns that error, which
    carries no [APIError], and sends nothing. *)
Theorem update_payload_members :
  forall (r : UpdateTargetRequest.t),
    (UpdateTargetRequest.Width r = None ->
     UpdateTargetRequest.Marshal r
     = Ok (bytes_of_string ("{" +:+ join "," (present (updateMembers r None)) +:+ "}")))
    /\ (forall t, UpdateTargetRequest.Width r = Some (Finite t) ->
        UpdateTargetRequest.Marshal r
        = Ok (bytes_of_string
                ("{" +:+ join "," (present (updateMembers r (Some t))) +:+ "}")))
    /\ (UpdateTargetRequest.Name r = None -> UpdateTargetRequest.Width r = None ->
        UpdateTargetRequest.Image r = None -> UpdateTargetRequest.Active r = None ->
        UpdateTargetRequest.Metadata r = None ->
        UpdateTargetRequest.Marshal r = Ok (bytes_of_string "{}"))
    /\ (forall f, UpdateTargetRequest.Width r = Some f -> finiteText f = None ->
        exists e,
          UpdateTargetRequest.Marshal r = Err e
          /\ errors.As e = None
          /\ forall c w, UpdateTargetRequest.TargetId r <> "" ->
               UpdateTarget c (Some r) w = (Return (Err e), w)).
Proof.
  intros r. split; [| split; [| split]].
  - intros Hw. apply (Marshal_update_width r None). rewrite Hw. reflexivity.
  - intros t Hw. apply (Marshal_update_width r (Some t)). rewrite Hw. reflexivity.
  - intros Hn Hw Hi Ha Hm.
    rewrite (Marshal_update_width r None) by (rewrite Hw; reflexivity).
    unfold updateMembers. rewrite Hn, Hi, Ha, Hm. reflexivity.
  - intros f Hw Hf. destruct (Marshal_update_unsupported r f Hw Hf) as [v Hv].
    exists (json.UnsupportedValueError v).
    split; [exact Hv |]. split; [reflexivity |].
    intros c w Hid. rewrite UpdateTarget_eq, (nonempty_eqb _ Hid), Hv. reflexivity.
Qed.

(** An update of the width alone. *)
Lemma update_payload_members_witness :
  UpdateTargetRequest.Marshal
    {| UpdateTargetRequest.TargetId := "5e3ba3bc"; UpdateTargetRequest.Name := None;
       UpdateTargetRequest.Width := Some (Finite "2.5");
       UpdateTargetRequest.Image := None; UpdateTargetRequest.Active := None;
       UpdateTargetRequest.Metadata := None |}
  = Ok (bytes_of_string ("{" +:+ memberText "width" "2.5" +:+ "}")).
Proof.
  exact (proj1 (proj2 (update_payload_members
           {| UpdateTargetRequest.TargetId := "5e3ba3bc"; UpdateTargetRequest.Name := None;
              UpdateTargetRequest.Width := Some (Finite "2.5");
              UpdateTargetRequest.Image := None; UpdateTargetRequest.Active := None;
              UpdateTargetRequest.Metadata := None |})) "2.5" eq_refl).
Defined.

(** ** Clients *)

Lemma atMostOneSent_refl (w : World) : atMostOneSent w w.
Proof. repeat split. left. reflexivity. Qed.

Lemma atMostOneSent_exchange {R : Type} (decode : json.body -> result R)
    (hc : http.Client) (req : http.Request) (w : World) :
  atMostOneSent w (snd (exchange decode hc req w)).
Proof. repeat split. right. cbn. eauto. Qed.

Lemma atMostOneSent_viaConfigured {R : Type} (decode : json.body -> result R)
    (c : client) (req : http.Request) (w : World) :
  atMostOneSent w (snd (viaConfigured decode c req w)).
Proof.
  unfold viaConfigured. destruct (ClientConfig.Client (cfg c)).
  - apply atMostOneSent_exchange.
  - apply atMostOneSent_refl.
Qed.

Lemma viaConfigured_returns {R : Type} (decode : json.body -> result R)
    (c : client) (hc : http.Client) (req : http.Request) (w : World) :
  ClientConfig.Client (cfg c) = Some hc ->
  ~ panics (fst (viaConfigured decode c req w)).
Proof.
  intros Hc. unfold viaConfigured. rewrite Hc. intros [msg Hmsg]. discriminate Hmsg.
Qed.

(** X11.  [NewClient] checks the secret key first, then the access key, and
    refuses an empty one with an error of its own; with both keys it always
    succeeds, keeps the keys, and holds an HTTP client that is never nil:
    the configured one, or the default client when none was configured. *)
Theorem new_client_requires_both_keys :
  forall (config : ClientConfig.t) (w : World),
    (ClientConfig.SecretKey config = "" ->
     NewClient config w = Err (errorString "vuforia SecretKey must be set"))
    /\ (ClientConfig.SecretKey config <> "" -> ClientConfig.AccessKey config = "" ->
        NewClient config w = Err (errorString "vuforia AccessKey must be set"))
    /\ (ClientConfig.SecretKey config <> "" -> ClientConfig.AccessKey config <> "" ->
        NewClient config w
        = Ok {| cfg := {| ClientConfig.SecretKey := ClientConfig.SecretKey config;
                          ClientConfig.AccessKey := ClientConfig.AccessKey config;
                          ClientConfig.Client :=
                            Some (default (DefaultClient w)
                                    (ClientConfig.Client config)) |} |}).
Proof.
  intros config w. unfold NewClient. split; [| split].
  - intros ->. reflexivity.
  - intros Hs ->. rewrite (nonempty_eqb _ Hs). reflexivity.
  - intros Hs Ha. rewrite (nonempty_eqb _ Hs), (nonempty_eqb _ Ha).
    destruct config as [sk ak [hc|]]; reflexivity.
Qed.

(** Keys without an HTTP client. *)
Lemma new_client_requires_both_keys_witness :
  NewClient {| ClientConfig.SecretKey := "secret"; ClientConfig.AccessKey := "access";
               ClientConfig.Client := None |} (quietWorld (answering 1 updated))
  = Ok (keys (Some (answering 1 updated))).
Proof.
  refine (proj2 (proj2 (new_client_requires_both_keys
            {| ClientConfig.SecretKey := "secret"; ClientConfig.AccessKey := "access";
               ClientConfig.Client := None |} (quietWorld (answering 1 updated)))) _ _);
    discriminate.
Defined.

(** X12.  On a client made by [NewClient] the five operations that take an
    input panic exactly when the input is nil, and [DatabaseSummary] never
    panics: the HTTP client of such a client is never nil.  A panic on a
    nil input leaves the world as it was. *)
Theorem operations_panic_on_nil_input_only :
  forall (config : ClientConfig.t) (w0 : World) (c : client),
    NewClient config w0 = Ok c ->
    forall w : World,
      (forall input, panics (fst (PostTarget c input w)) <-> input = None)
      /\ (forall input, panics (fst (GetTarget c input w)) <-> input = None)
      /\ (forall input, panics (fst (UpdateTarget c input w)) <-> input = None)
      /\ (forall input, panics (fst (DeleteTarget c input w)) <-> input = None)
      /\ (forall input, panics (fst (TargetSummary c input w)) <-> input = None)
      /\ ~ panics (fst (DatabaseSummary c w))
      /\ PostTarget c None w = (Panic "input is <nil>", w)
      /\ GetTarget c None w = (Panic "input is <nil>", w)
      /\ UpdateTarget c None w = (Panic "input is <nil>", w)
      /\ DeleteTarget c None w = (Panic "input is <nil>", w)
      /\ TargetSummary c None w = (Panic "input is <nil>", w).
Proof.
  intros config w0 c Hnew w.
  destruct (NewClient_cfg config w0 c Hnew) as (_ & _ & Hc).
  assert (Hret : forall (A : Type) (r : A), ~ panics (Return r)).
  { intros A r [msg Hmsg]. discriminate Hmsg. }
  assert (Hnil : forall A : Type, panics (@Panic A "input is <nil>")).
  { intros A. eexists. reflexivity. }
  assert (Hvia : forall (R : Type) (decode : json.body -> result R) req,
            ~ panics (fst (viaConfigured decode c req w))).
  { intros R decode req. exact (viaConfigured_returns decode c _ req w Hc). }
  repeat match goal with |- _ /\ _ => split end; try reflexivity.
  - intros [input|]; [| split; [reflexivity | intros _; apply Hnil]].
    split; [| discriminate]. intros Hp. exfalso. revert Hp.
    rewrite PostTarget_eq.
    destruct (PostTargetRequest.Marshal input); [| apply Hret].
    destruct (http.NewRequest _ _ _); apply Hret.
  - intros [input|]; [| split; [reflexivity | intros _; apply Hnil]].
    split; [| discriminate]. intros Hp. exfalso. revert Hp.
    rewrite GetTarget_eq.
    destruct (String.eqb _ _); [apply Hret |].
    destruct (http.NewRequest _ _ _); [apply Hvia | apply Hret].
  - intros [input|]; [| split; [reflexivity | intros _; apply Hnil]].
    split; [| discriminate]. intros Hp. exfalso. revert Hp.
    rewrite UpdateTarget_eq.
    destruct (String.eqb _ _); [apply Hret |].
    destruct (UpdateTargetRequest.Marshal input); [| apply Hret].
    destruct (http.NewRequest _ _ _); apply Hret.
  - intros [input|]; [| split; [reflexivity | intros _; apply Hnil]].
    split; [| discriminate]. intros Hp. exfalso. revert Hp.
    rewrite DeleteTarget_eq.
    destruct (String.eqb _ _); [apply Hret |].
    destruct (http.NewRequest _ _ _); [apply Hvia | apply Hret].
  - intros [input|]; [| split; [reflexivity | intros _; apply Hnil]].
    split; [| discriminate]. intros Hp. exfalso. revert Hp.
    rewrite TargetSummary_eq.
    destruct (String.eqb _ _); [apply Hret |].
    destruct (http.NewRequest _ _ _); [apply Hvia | apply Hret].
  - rewrite DatabaseSummary_eq.
    destruct (http.NewRequest _ _ _); [apply Hvia | apply Hret].
Qed.

(** The lookup of a nil request on a client made by [NewClient]. *)
Lemma operations_panic_on_nil_input_witness :
  GetTarget (keys (Some (answering 1 updated))) None (quietWorld (answering 1 updated))
  = (Panic "input is <nil>", quietWorld (answering 1 updated)).
Proof.
  exact (proj1 (proj2 (proj2 (proj2 (proj2 (proj2 (proj2 (proj2
           (operations_panic_on_nil_input_only
              {| ClientConfig.SecretKey := "secret"; ClientConfig.AccessKey := "access";
                 ClientConfig.Client := None |}
              (quietWorld (answering 1 updated)) (keys (Some (answering 1 updated)))
              eq_refl (quietWorld (answering 1 updated))))))))))).
Defined.

(** X13.  No operation retries: whatever the client, the input and the
    answers, an operation sends at most one request, and leaves the rest of
    the world as it was. *)
Theorem operations_send_at_most_one_request :
  forall (c : client) (w : World),
    (forall input, atMostOneSent w (snd (PostTarget c input w)))
    /\ (forall input, atMostOneSent w (snd (GetTarget c input w)))
    /\ (forall input, atMostOneSent w (snd (UpdateTarget c input w)))
    /\ (forall input, atMostOneSent w (snd (DeleteTarget c input w)))
    /\ (forall input, atMostOneSent w (snd (TargetSummary c input w)))
    /\ atMostOneSent w (snd (DatabaseSummary c w)).
Proof.
  intros c w.
  repeat match goal with |- _ /\ _ => split end.
  - intros [input|]; [| apply atMostOneSent_refl].
    rewrite PostTarget_eq.
    destruct (PostTargetRequest.Marshal input); [| apply atMostOneSent_refl].
    destruct (http.NewRequest _ _ _);
      [apply atMostOneSent_exchange | apply atMostOneSent_refl].
  - intros [input|]; [| apply atMostOneSent_refl].
    rewrite GetTarget_eq.
    destruct (String.eqb _ _); [apply atMostOneSent_refl |].
    destruct (http.NewRequest _ _ _);
      [apply atMostOneSent_viaConfigured | apply atMostOneSent_refl].
  - intros [input|]; [| apply atMostOneSent_refl].
    rewrite UpdateTarget_eq.
    destruct (String.eqb _ _); [apply atMostOneSent_refl |].
    destruct (UpdateTargetRequest.Marshal input); [| apply atMostOneSent_refl].
    destruct (http.NewRequest _ _ _);
      [apply atMostOneSent_exchange | apply atMostOneSent_refl].
  - intros [input|]; [| apply atMostOneSent_refl].
    rewrite DeleteTarget_eq.
    destruct (String.eqb _ _); [apply atMostOneSent_refl |].
    destruct (http.NewRequest _ _ _);
      [apply atMostOneSent_viaConfigured | apply atMostOneSent_refl].
  - intros [input|]; [| apply atMostOneSent_refl].
    rewrite TargetSummary_eq.
    destruct (String.eqb _ _); [apply atMostOneSent_refl |].
    destruct (http.NewRequest _ _ _);
      [apply atMostOneSent_viaConfigured | apply atMostOneSent_refl].
  - rewrite DatabaseSummary_eq.
    destruct (http.NewRequest _ _ _);
      [apply atMostOneSent_viaConfigured | apply atMostOneSent_refl].
Qed.

(** ** Errors of the operations *)

Lemma plain_intoString {R : Type} (set : string -> R -> R) :
  plainSetter (json.intoString set).
Proof. intros [] r e H; cbn in H; congruence || (injection H as <-; reflexivity). Qed.

Lemma plain_intoBool {R : Type} (set : bool -> R -> R) :
  plainSetter (json.intoBool set).
Proof. intros [] r e H; cbn in H; congruence || (injection H as <-; reflexivity). Qed.

Lemma plain_intoInt {R : Type} (set : Z -> R -> R) :
  plainSetter (json.intoInt set).
Proof.
  intros [] r e H; cbn in H;
    try (congruence || (injection H as <-; reflexivity)).
  destruct (json.asInt _); cbn in H; congruence || (injection H as <-; reflexivity).
Qed.

Lemma plain_intoFloat {R : Type} (set : float64 -> R -> R) :
  plainSetter (json.intoFloat set).
Proof.
  intros [] r e H; cbn in H;
    try (congruence || (injection H as <-; reflexivity)).
  destruct (json.asFloat _); cbn in H; congruence || (injection H as <-; reflexivity).
Qed.

Lemma field_plain {R : Type} (fields : list (string * json.setter R))
    (key : string) (set : json.setter R) :
  Forall (fun f => plainSetter (snd f)) fields ->
  json.field fields key = Some set -> plainSetter set.
Proof.
  intros Hall. unfold json.field.
  pose proof (proj1 (List.Forall_forall (fun f => plainSetter (snd f)) fields) Hall)
    as Hin.
  destruct (List.find _ fields) as [f|] eqn:Hf.
  - intros [= <-]. apply Hin. apply (proj1 (List.find_some _ _ Hf)).
  - clear Hf.
    destruct (List.find _ fields) as [f|] eqn:Hg; [| intros Hnone; discriminate Hnone].
    intros [= <-]. apply Hin. apply (proj1 (List.find_some _ _ Hg)).
Qed.

Lemma intoFields_plain {R : Type} (fields : list (string * json.setter R))
    (members : list (string * json.value)) (r : R) (e : error) :
  Forall (fun f => plainSetter (snd f)) fields ->
  snd (json.intoFields fields members r) = Some e -> plain e.
Proof.
  intros Hall. unfold json.intoFields.
  assert (Hgen : forall (acc : R * option error),
             (forall e0, snd acc = Some e0 -> plain e0) ->
             snd (fold_left
                    (fun (acc : R * option error) (m : string * json.value) =>
                       match json.field fields (fst m) with
                       | None => acc
                       | Some set =>
                           let '(r', e) := set (snd m) (fst acc) in
                           (r', json.firstError (snd acc) e)
                       end) members acc) = Some e -> plain e).
  { induction members as [|m members IH]; intros acc Hacc.
    - cbn. apply Hacc.
    - cbn [fold_left]. apply IH.
      destruct (json.field fields (fst m)) as [set|] eqn:Hset; [| exact Hacc].
      pose proof (field_plain fields (fst m) set Hall Hset (snd m) (fst acc)) as Hp.
      destruct (set (snd m) (fst acc)) as [r' e'].
      cbn [snd] in *. intros e0. unfold json.firstError.
      destruct (snd acc) as [saved|]; [apply Hacc | apply Hp]. }
  apply Hgen. cbn. discriminate.
Qed.

Lemma plain_intoStruct {R : Type} (type : string)
    (fields : list (string * json.setter R)) :
  Forall (fun f => plainSetter (snd f)) fields ->
  plainSetter (json.intoStruct type fields).
Proof.
  intros Hall v r e. destruct v; cbn [json.intoStruct];
    try (cbn; congruence || (intros [= <-]; reflexivity)).
  apply intoFields_plain, Hall.
Qed.

Lemma Decode_plain {R : Type} (type : string)
    (fields : list (string * json.setter R)) (zero : R) (b : json.body) (e : error) :
  Forall (fun f => plainSetter (snd f)) fields ->
  match b with json.NotJSON e0 => plain e0 | json.Document _ => True end ->
  json.Decode type fields zero b = Err e -> plain e.
Proof.
  intros Hall Hb. unfold json.Decode. destruct b as [e0|v].
  - intros [= <-]. exact Hb.
  - pose proof (plain_intoStruct type fields Hall v zero) as Hp.
    destruct (json.intoStruct type fields v zero) as [r [e1|]]; [| discriminate].
    intros [= <-]. apply Hp. reflexivity.
Qed.

Lemma TargetRecord_fields_plain :
  Forall (fun f => plainSetter (snd f)) TargetRecord.fields.
Proof.
  unfold TargetRecord.fields.
  repeat first [apply List.Forall_nil | apply List.Forall_cons; cbn [snd]];
    first [apply plain_intoString | apply plain_intoBool
          | apply plain_intoInt | apply plain_intoFloat].
Qed.

Lemma fields_plain :
  Forall (fun f => plainSetter (snd f)) PostTargetResponse.fields
  /\ Forall (fun f => plainSetter (snd f)) GetTargetResponse.fields
  /\ Forall (fun f => plainSetter (snd f)) UpdateTargetResponse.fields
  /\ Forall (fun f => plainSetter (snd f)) DeleteTargetResponse.fields
  /\ Forall (fun f => plainSetter (snd f)) TargetSummaryResponse.fields
  /\ Forall (fun f => plainSetter (snd f)) DatabaseSummaryResponse.fields.
Proof.
  unfold PostTargetResponse.fields, GetTargetResponse.fields,
    UpdateTargetResponse.fields, DeleteTargetResponse.fields,
    TargetSummaryResponse.fields, DatabaseSummaryResponse.fields.
  repeat match goal with |- _ /\ _ => split end;
    repeat first [apply List.Forall_nil | apply List.Forall_cons; cbn [snd]];
    try first [apply plain_intoString | apply plain_intoBool
              | apply plain_intoInt | apply plain_intoFloat].
  intros v [a b c d] e.
  pose proof (plain_intoStruct "struct" TargetRecord.fields
                TargetRecord_fields_plain v d) as Hp.
  destruct (json.intoStruct "struct" TargetRecord.fields v d) as [d' e'].
  cbn [snd] in *. apply Hp.
Qed.

Lemma unescape_error_plain (n : nat) :
  forall (s : string) (e : error),
    (String.length s <= n)%nat -> url.unescape s = Err e -> plain e.
Proof.
  induction n as [|n IH]; intros s e Hlen.
  - destruct s; [discriminate | cbn in Hlen; lia].
  - destruct s as [|c rest]; [discriminate |].
    cbn [url.unescape]. cbn [String.length] in Hlen.
    destruct (Ascii.eqb c "%").
    + destruct rest as [|h [|l rest']]; try (intros [= <-]; reflexivity).
      destruct (url.ishex h && url.ishex l); [| intros [= <-]; reflexivity].
      destruct (url.unescape rest') as [r|e'] eqn:Hr; [discriminate |].
      intros [= <-]. apply (IH rest' e'); [cbn [String.length] in Hlen; lia | exact Hr].
    + destruct (url.unescape rest) as [r|e'] eqn:Hr; [discriminate |].
      intros [= <-]. apply (IH rest e'); [lia | exact Hr].
Qed.

Lemma Parse_error_plain (rawURL : string) (e : error) :
  url.Parse rawURL = Err e -> plain e.
Proof.
  unfold url.Parse.
  destruct (gostrings.Cut rawURL "#") as [[u frag] found].
  destruct (url.stringContainsCTLByte u); [intros [= <-]; reflexivity |].
  destruct (url.stripPrefix "https://" u) as [rest0|]; [| intros [= <-]; reflexivity].
  destruct (gostrings.Cut rest0 "?") as [[rest query] found'].
  destruct (url.splitAuthority rest) as [authority path].
  destruct (negb (url.plainHost authority)); [intros [= <-]; reflexivity |].
  destruct (url.unescape path) as [p0|e1] eqn:Hp.
  - destruct (url.unescape frag) as [f|e2] eqn:Hf; [discriminate |].
    intros [= <-]. unfold plain, url.Error. cbn [errors.As].
    exact (unescape_error_plain _ frag e2 (le_n _) Hf).
  - intros [= <-]. unfold plain, url.Error. cbn [errors.As].
    exact (unescape_error_plain _ path e1 (le_n _) Hp).
Qed.

Lemma NewRequest_error_plain (method u : string) (body : option (list byte))
    (e : error) :
  http.NewRequest method u body = Err e -> plain e.
Proof.
  unfold http.NewRequest.
  destruct (negb (http.validMethod _)); [intros [= <-]; reflexivity |].
  destruct (url.Parse u) as [parsed|e'] eqn:Hu; [discriminate |].
  intros [= <-]. exact (Parse_error_plain u e' Hu).
Qed.

Lemma encodeMembers_error_plain (ms : list json.member) :
  Forall (fun m : json.member =>
            forall e, snd m = Some (Err e) -> plain e) ms ->
  forall (first : bool) (e : error), json.encodeMembers first ms = Err e -> plain e.
Proof.
  induction 1 as [|[k [[v|e0]|]] ms Hm Hms IH]; intros first e; cbn [json.encodeMembers].
  - discriminate.
  - destruct (json.encodeMembers false ms) as [tail|e1] eqn:Ht; [discriminate |].
    intros [= <-]. exact (IH false e1 Ht).
  - intros [= <-]. apply Hm. reflexivity.
  - apply IH.
Qed.

Lemma encodeFloat_error_plain (f : float64) (e : error) :
  json.encodeFloat f = Err e -> plain e.
Proof. destruct f as [t|[|]|]; cbn; congruence || (intros [= <-]; reflexivity). Qed.

Lemma Marshal_post_error_plain (r : PostTargetRequest.t) (e : error) :
  PostTargetRequest.Marshal r = Err e -> plain e.
Proof.
  unfold PostTargetRequest.Marshal, json.encodeStruct.
  match goal with |- context [json.encodeMembers true ?ms] =>
    pose proof (encodeMembers_error_plain ms) as Hp;
    destruct (json.encodeMembers true ms) as [b|e'] eqn:Hm; [discriminate |]
  end.
  intros [= <-]. refine (Hp _ true e' Hm).
  repeat first [apply List.Forall_nil | apply List.Forall_cons; cbn [snd]];
    intros e0; unfold json.always, json.omitempty;
    try (destruct (PostTargetRequest.Active r); discriminate);
    try (destruct (PostTargetRequest.Metadata r); discriminate);
    try discriminate.
  intros [= H0]. exact (encodeFloat_error_plain _ _ H0).
Qed.

Lemma Marshal_update_error_plain (r : UpdateTargetRequest.t) (e : error) :
  UpdateTargetRequest.Marshal r = Err e -> plain e.
Proof.
  unfold UpdateTargetRequest.Marshal, json.encodeStruct.
  match goal with |- context [json.encodeMembers true ?ms] =>
    pose proof (encodeMembers_error_plain ms) as Hp;
    destruct (json.encodeMembers true ms) as [b|e'] eqn:Hm; [discriminate |]
  end.
  intros [= <-]. refine (Hp _ true e' Hm).
  repeat first [apply List.Forall_nil | apply List.Forall_cons; cbn [snd]];
    intros e0; unfold json.omitempty;
    try (destruct (UpdateTargetRequest.Name r); discriminate);
    try (destruct (UpdateTargetRequest.Image r); discriminate);
    try (destruct (UpdateTargetRequest.Active r); discriminate);
    try (destruct (UpdateTargetRequest.Metadata r); discriminate).
  destruct (UpdateTargetRequest.Width r) as [f|]; [| discriminate].
  intros [= H0]. exact (encodeFloat_error_plain _ _ H0).
Qed.

Lemma exchange_error_plain {R : Type} (type : string)
    (fields : list (string * json.setter R)) (zero : R)
    (hc : http.Client) (req : http.Request) (w : World) (e : error) :
  Forall (fun f => plainSetter (snd f)) fields ->
  plainAnswers hc ->
  fst (exchange (json.Decode type fields zero) hc req w) = Return (Err e) ->
  plain e.
Proof.
  intros Hall Hhc. specialize (Hhc req). cbn [exchange fst].
  destruct (http.RoundTrip hc req) as [resp|e0].
  - intros [= H]. exact (Decode_plain type fields zero _ e Hall Hhc H).
  - intros [= <-]. exact Hhc.
Qed.

Lemma viaConfigured_error_plain {R : Type} (type : string)
    (fields : list (string * json.setter R)) (zero : R)
    (c : client) (req : http.Request) (w : World) (e : error) :
  Forall (fun f => plainSetter (snd f)) fields ->
  (forall hc, ClientConfig.Client (cfg c) = Some hc -> plainAnswers hc) ->
  fst (viaConfigured (json.Decode type fields zero) c req w) = Return (Err e) ->
  plain e.
Proof.
  intros Hall Hc. unfold viaConfigured.
  destruct (ClientConfig.Client (cfg c)) as [hc|]; [| discriminate].
  apply exchange_error_plain; [exact Hall | apply Hc; reflexivity].
Qed.

(** X14.  No operation makes an [APIError]: when the failures of the HTTP
    clients hold none, the error an operation returns holds none either,
    whatever the status code and the body of the answer.  An error
    envelope of the service is therefore never reported as an error value
    by these operations. *)
Theorem operations_return_no_api_error :
  forall (c : client) (w : World),
    plainAnswers (DefaultClient w) ->
    (forall hc, ClientConfig.Client (cfg c) = Some hc -> plainAnswers hc) ->
    (forall input e, fst (PostTarget c input w) = Return (Err e) -> errors.As e = None)
    /\ (forall input e, fst (GetTarget c input w) = Return (Err e) -> errors.As e = None)
    /\ (forall input e, fst (UpdateTarget c input w) = Return (Err e) -> errors.As e = None)
    /\ (forall input e, fst (DeleteTarget c input w) = Return (Err e) -> errors.As e = None)
    /\ (forall input e, fst (TargetSummary c input w) = Return (Err e) -> errors.As e = None)
    /\ (forall e, fst (DatabaseSummary c w) = Return (Err e) -> errors.As e = None).
Proof.
  intros c w Hd Hc.
  destruct fields_plain as (Hpost & Hget & Hupd & Hdel & Hsum & Hdb).
  repeat match goal with |- _ /\ _ => split end.
  - intros [input|] e; [| discriminate]. rewrite PostTarget_eq.
    destruct (PostTargetRequest.Marshal input) as [body|e0] eqn:Hm;
      [| intros [= <-]; exact (Marshal_post_error_plain input e0 Hm)].
    destruct (http.NewRequest _ _ _) as [req0|e0] eqn:Hr;
      [| intros [= <-]; exact (NewRequest_error_plain _ _ _ e0 Hr)].
    apply exchange_error_plain; assumption.
  - intros [input|] e; [| discriminate]. rewrite GetTarget_eq.
    destruct (String.eqb _ _); [intros [= <-]; reflexivity |].
    destruct (http.NewRequest _ _ _) as [req0|e0] eqn:Hr;
      [| intros [= <-]; exact (NewRequest_error_plain _ _ _ e0 Hr)].
    apply viaConfigured_error_plain; assumption.
  - intros [input|] e; [| discriminate]. rewrite UpdateTarget_eq.
    destruct (String.eqb _ _); [intros [= <-]; reflexivity |].
    destruct (UpdateTargetRequest.Marshal input) as [body|e0] eqn:Hm;
      [| intros [= <-]; exact (Marshal_update_error_plain input e0 Hm)].
    destruct (http.NewRequest _ _ _) as [req0|e0] eqn:Hr;
      [| intros [= <-]; exact (NewRequest_error_plain _ _ _ e0 Hr)].
    apply exchange_error_plain; assumption.
  - intros [input|] e; [| discriminate]. rewrite DeleteTarget_eq.
    destruct (String.eqb _ _); [intros [= <-]; reflexivity |].
    destruct (http.NewRequest _ _ _) as [req0|e0] eqn:Hr;
      [| intros [= <-]; exact (NewRequest_error_plain _ _ _ e0 Hr)].
    apply viaConfigured_error_plain; assumption.
  - intros [input|] e; [| discriminate]. rewrite TargetSummary_eq.
    destruct (String.eqb _ _); [intros [= <-]; reflexivity |].
    destruct (http.NewRequest _ _ _) as [req0|e0] eqn:Hr;
      [| intros [= <-]; exact (NewRequest_error_plain _ _ _ e0 Hr)].
    apply viaConfigured_error_plain; assumption.
  - intros e. rewrite DatabaseSummary_eq.
    destruct (http.NewRequest _ _ _) as [req0|e0] eqn:Hr;
      [| intros [= <-]; exact (NewRequest_error_plain _ _ _ e0 Hr)].
    apply viaConfigured_error_plain; assumption.
Qed.

(** A lookup answered by a gateway's error page: the error is the
    decoder's. *)
Lemma operations_return_no_api_error_witness :
  fst (GetTarget (keys (Some (answering 1 serverFault)))
         (Some {| GetTargetRequest.TargetId := "t1" |})
         (quietWorld (answering 0 serverFault)))
  = Return (Err (errorString "invalid character '<' looking for beginning of value"))
  /\ errors.As (errorString "invalid character '<' looking for beginning of value")
     = None.
Proof.
  assert (Hrun : fst (GetTarget (keys (Some (answering 1 serverFault)))
                        (Some {| GetTargetRequest.TargetId := "t1" |})
                        (quietWorld (answering 0 serverFault)))
                 = Return (Err (errorString
                     "invalid character '<' looking for beginning of value"))).
  { vm_compute. reflexivity. }
  split; [exact Hrun |].
  refine (proj1 (proj2 (operations_return_no_api_error
            (keys (Some (answering 1 serverFault)))
            (quietWorld (answering 0 serverFault)) _ _))
            (Some {| GetTargetRequest.TargetId := "t1" |}) _ Hrun).
  - intros req. reflexivity.
  - intros hc [= <-] req. reflexivity.
Defined.
